(** * PyDSL: typed values and the native-ABI marshalling layer

    A shallow embedding of [src/pydsl/frontend.py] (the tuple-tree to
    [ctypes.Structure] marshaller and [CTarget.call_function]) and of
    [src/pydsl/type.py] ([Int], [Bool], [Number]), followed by the
    properties of the specification that concern them.

    Python exceptions are modelled by the [Raise] outcome, a [while] loop
    that never exits by the [Diverge] outcome.  The message of an
    exception is the text of the source where that text is fixed or made
    of integers and names; an interpolated tree is left out, another
    interpolated object is shown by its kind. *)

From Stdlib Require Import ZArith List String Bool Lia DecimalString.
From Stdlib Require Import Permutation.
Import ListNotations.
Open Scope string_scope.
Open Scope Z_scope.
Set Warnings "-register-all".

(* ================================================================== *)
(** * Python outcomes *)
(* ================================================================== *)

(** The exception classes raised by the modelled code, with their
    message. *)
Inductive exn : Type :=
| TypeError (msg : string)
| ValueError (msg : string)
| RuntimeError (msg : string)
| AttributeError (msg : string)
| ZeroDivisionError (msg : string)
| OverflowError (msg : string)
| IndexError (msg : string).

Inductive outcome (A : Type) : Type :=
| Return (a : A)
| Raise (e : exn)
| Diverge.

Arguments Return {A} a.
Arguments Raise {A} e.
Arguments Diverge {A}.

Definition bind {A B : Type} (m : outcome A) (k : A -> outcome B)
  : outcome B :=
  match m with
  | Return a => k a
  | Raise e => Raise e
  | Diverge => Diverge
  end.

Notation "x <- m ;; k" := (bind m (fun x => k))
  (at level 61, m at next level, right associativity).

(** A comprehension [[g(a) for a in l]], and one over [zip(la, lb,
    strict=False)]: the elements in order, up to the first exception. *)
Section Comprehension.
Context {A B C : Type}.

Section each.
Variable g : A -> outcome C.

Fixpoint each (l : list A) : outcome (list C) :=
  match l with
  | [] => Return []
  | a :: l' => c <- g a ;; cs <- each l' ;; Return (c :: cs)
  end.

End each.

Section each2.
Variable g : A -> B -> outcome C.

Fixpoint each2 (la : list A) (lb : list B) : outcome (list C) :=
  match la, lb with
  | a :: la', b :: lb' =>
      c <- g a b ;; cs <- each2 la' lb' ;; Return (c :: cs)
  | _, _ => Return []
  end.

End each2.

End Comprehension.

(** [all(f(a, b) for a, b in zip(la, lb))] on lists of one length, and
    the list of the [f(a, b)]. *)
Section Pairwise.
Context {A B C : Type}.

Section all2.
Variable f : A -> B -> bool.

Fixpoint all2 (la : list A) (lb : list B) : bool :=
  match la, lb with
  | [], [] => true
  | a :: la', b :: lb' => f a b && all2 la' lb'
  | _, _ => false
  end.

End all2.

(** [all(f(a, b) for a, b in zip(la, lb))]: the longer list is cut. *)
Section all_zip.
Variable f : A -> B -> bool.

Fixpoint all_zip (la : list A) (lb : list B) : bool :=
  match la, lb with
  | a :: la', b :: lb' => f a b && all_zip la' lb'
  | _, _ => true
  end.

End all_zip.

Section zip_with.
Variable f : A -> B -> C.

Fixpoint zip_with (la : list A) (lb : list B) : list C :=
  match la, lb with
  | a :: la', b :: lb' => f a b :: zip_with la' lb'
  | _, _ => []
  end.

End zip_with.

End Pairwise.

(** [str(n)] for a Python [int]. *)
Definition str_int (z : Z) : string := NilZero.string_of_int (Z.to_int z).

Definition str_len {A : Type} (l : list A) : string :=
  str_int (Z.of_nat (List.length l)).

(* ================================================================== *)
(** * The host language and MLIR, as far as type.py meets them *)
(* ================================================================== *)

(** Python's [float] is not modelled: the type and the built-ins that the
    code applies to a float are parameters. *)
Class HostFloat : Type := {
  float : Type;
  (** [int(x)]: truncation; raises on infinities and NaN *)
  float_int : float -> outcome Z;
  (** [math.isclose(x, n)] for the int [n] *)
  float_isclose : float -> Z -> bool;
  (** [bool(x)] *)
  float_bool : float -> bool;
  (** [str(x)] *)
  float_str : float -> string
}.

(** [mlir.ir.Type], [mlir.ir.Value]: values are kept as the term that
    built them. *)
Inductive mlir_type : Type :=
| IntegerType (width : Z) (is_signless : bool)
| IndexType
| F16Type | F32Type | F64Type.

Inductive CmpIPredicate : Type :=
| p_eq | p_ne | p_slt | p_sle | p_sgt | p_sge | p_ult | p_ule | p_ugt | p_uge.

Inductive operation : Type :=
| AddIOp | SubIOp | MulIOp | FloorDivSIOp | DivUIOp
| CmpIOp (pred : CmpIPredicate)
| ExtSIOp | ExtUIOp.

Inductive Value : Type :=
| ConstantOp (ty : mlir_type) (lit : Z)
| OpResult (op : operation) (ty : mlir_type) (operands : list Value)
| BlockArgument (ty : mlir_type) (n : nat).

Definition type_of (v : Value) : mlir_type :=
  match v with
  | ConstantOp ty _ => ty
  | OpResult _ ty _ => ty
  | BlockArgument ty _ => ty
  end.

Definition get_signless (w : Z) : mlir_type := IntegerType w true.

(** [arith.ConstantOp(ty, lit).result] for an integer literal: the
    binding takes the literal as a signed integer of 64 bits and raises a
    [TypeError] on any other, whatever the type [ty] is. *)
Definition arith_ConstantOp (ty : mlir_type) (lit : Z) : outcome Value :=
  if (- 2 ^ 63 <=? lit) && (lit <? 2 ^ 63)
  then Return (ConstantOp ty lit)
  else Raise (TypeError "ConstantOp: incompatible function arguments").

(** The result of [arith.XOp(lhs, rhs)]: of the type of its operands. *)
Definition arith_binary (op : operation) (lhs rhs : Value) : Value :=
  OpResult op (type_of lhs) [lhs; rhs].

Definition arith_CmpIOp (pred : CmpIPredicate) (lhs rhs : Value) : Value :=
  OpResult (CmpIOp pred) (get_signless 1) [lhs; rhs].

Definition arith_Ext (op : operation) (ty : mlir_type) (v : Value) : Value :=
  OpResult op ty [v].

(* ================================================================== *)
(** * type.py *)
(* ================================================================== *)

Inductive Sign : Type := SIGNED | UNSIGNED.

(** A subclass of [Int] that defines nothing of its own, declared as
    [class X(Int, width=w, sign=s)] like [UInt8] ... [SInt64]: its name
    and the two class attributes set by [__init_subclass__]; every method
    of such a class is the method of [Int].  The record also stands for
    [Bool], which overrides [supporter], [caster], [__init__] and the
    ctypes methods; [is_Bool] marks it.  A [width] of [0] stands for a
    width that is not set (falsy).

    [Index] is not a value of this type.  It is a subclass of [Int] too,
    but it overrides [lower_class], [_init_from_mlir_value], [Int],
    [_try_casting], the operators and the ctypes methods, so what is
    proved of an [IntClass] is not proved of [Index], whatever the name,
    the width and the sign in the record are. *)
Record IntClass : Type := {
  name : string;
  is_Bool : bool;
  width : Z;
  sign : Sign
}.

Definition Sign_eqb (a b : Sign) : bool :=
  match a, b with
  | SIGNED, SIGNED | UNSIGNED, UNSIGNED => true
  | _, _ => false
  end.

Definition UInt8 := {| name := "UInt8"; is_Bool := false; width := 8; sign := UNSIGNED |}.
Definition UInt16 := {| name := "UInt16"; is_Bool := false; width := 16; sign := UNSIGNED |}.
Definition UInt32 := {| name := "UInt32"; is_Bool := false; width := 32; sign := UNSIGNED |}.
Definition UInt64 := {| name := "UInt64"; is_Bool := false; width := 64; sign := UNSIGNED |}.
Definition SInt8 := {| name := "SInt8"; is_Bool := false; width := 8; sign := SIGNED |}.
Definition SInt16 := {| name := "SInt16"; is_Bool := false; width := 16; sign := SIGNED |}.
Definition SInt32 := {| name := "SInt32"; is_Bool := false; width := 32; sign := SIGNED |}.
Definition SInt64 := {| name := "SInt64"; is_Bool := false; width := 64; sign := SIGNED |}.
Definition Bool := {| name := "Bool"; is_Bool := true; width := 1; sign := UNSIGNED |}.

(** A signed class of width 4, [class SInt4(Int, width=4)], for the
    narrowing cast of the specification. *)
Definition SInt4 : IntClass :=
  {| name := "SInt4"; is_Bool := false; width := 4; sign := SIGNED |}.

Section Objects.
Context `{HostFloat}.

(** The host objects that reach the modelled code. *)
Inductive pyobj : Type :=
| PyNone
| PyInt (z : Z)
| PyBool (b : bool)
| PyFloat (x : float)
| PyTuple (items : list pyobj)
| PyValue (v : Value)               (* an [mlir.ir.Value] *)
| PyOpView (result : Value)         (* an [OpView], with its [.result] *)
| PyObject (cls : IntClass) (value : Value)  (* an instance of [cls] *)
| PyNumber (value : pyobj).         (* an instance of [Number] *)

(** [str(o)], for the interpolations of the messages; objects other than
    numbers are shown by their kind. *)
Definition str_obj (o : pyobj) : string :=
  match o with
  | PyNone => "None"
  | PyInt z => str_int z
  | PyBool true => "True"
  | PyBool false => "False"
  | PyFloat x => float_str x
  | PyTuple _ => "<tuple>"
  | PyValue _ => "<Value>"
  | PyOpView _ => "<OpView>"
  | PyObject cls _ => "<" ++ name cls ++ " object>"
  | PyNumber _ => "<Number object>"
  end.

(** [isinstance(o, numbers.Real)]. *)
Definition is_Real (o : pyobj) : bool :=
  match o with
  | PyInt _ | PyBool _ | PyFloat _ => true
  | _ => false
  end.

(** [int(o)]. *)
Definition py_int (o : pyobj) : outcome Z :=
  match o with
  | PyInt z => Return z
  | PyBool b => Return (if b then 1 else 0)
  | PyFloat x => float_int x
  | _ => Raise (TypeError "int() argument must be a string, a bytes-like object or a real number")
  end.

(** [bool(o)]: no object of the model raises. *)
Definition py_bool (o : pyobj) : bool :=
  match o with
  | PyNone => false
  | PyInt z => negb (z =? 0)
  | PyBool b => b
  | PyFloat x => float_bool x
  | PyTuple items => match items with [] => false | _ => true end
  | _ => true
  end.

(** [math.isclose(rep, n)] where [n] is [int(rep)].  The arguments are
    converted to C doubles first: an int that rounds beyond the largest
    double raises; an int or bool is otherwise equal to its own [int]. *)
Definition double_overflows (z : Z) : bool :=
  2 ^ 1024 - 2 ^ 970 <=? Z.abs z.

Definition isclose (rep : pyobj) (n : Z) : outcome bool :=
  match rep with
  | PyFloat x => Return (float_isclose x n)
  | _ =>
      if double_overflows n
      then Raise (OverflowError "int too large to convert to float")
      else Return true
  end.

(* ------------------------------------------------------------------ *)
(** ** class Int *)

Definition lower_class (cls : IntClass) : mlir_type :=
  get_signless (width cls).

(** [val_range] is only reached from [__init__], after the test on the
    width: the shifts are by a count that is not negative for the widths
    of the declared classes. *)
Definition val_range (cls : IntClass) : Z * Z :=
  match sign cls with
  | SIGNED => (- (Z.shiftl 1 (width cls - 1)), Z.shiftl 1 (width cls - 1))
  | UNSIGNED => (0, Z.shiftl 1 (width cls) - 2)
  end.

Definition in_range (cls : IntClass) (val : Z) : bool :=
  (fst (val_range cls) <=? val) && (val <=? snd (val_range cls)).

Definition _init_from_mlir_value (cls : IntClass) (rep : Value)
  : outcome pyobj :=
  match type_of rep with
  | IntegerType w is_signless =>
      if negb (w =? width cls)
      then Raise (TypeError (name cls ++ " expected to have width of "
                               ++ str_int (width cls) ++ ", got "
                               ++ str_int w))
      else if negb is_signless
      then Raise (TypeError ("ops passed into " ++ name cls ++
                    " must have signless result, but was signed or unsigned"))
      else Return (PyObject cls rep)
  | IndexType =>
      Raise (TypeError ("IndexType cannot be casted as a " ++ name cls))
  | F16Type =>
      Raise (TypeError ("F16Type cannot be casted as a " ++ name cls))
  | F32Type =>
      Raise (TypeError ("F32Type cannot be casted as a " ++ name cls))
  | F64Type =>
      Raise (TypeError ("F64Type cannot be casted as a " ++ name cls))
  end.

(** [Int.__init__(self, rep)]; the outcome is the initialised instance. *)
Definition Int__init__ (cls : IntClass) (rep : pyobj) : outcome pyobj :=
  if width cls =? 0
  then Raise (TypeError ("attempted to initialize " ++ name cls ++
                           " without defined size or sign"))
  else
    let rep := match rep with PyOpView result => PyValue result | _ => rep end in
    let otherwise : outcome pyobj :=
      match rep with
      | PyValue v => _init_from_mlir_value cls v
      | _ => Raise (TypeError (str_obj rep ++ " cannot be casted as an Int"))
      end in
    if is_Real rep
    then
      (* the guard of the first case: math.isclose(rep, int(rep)) *)
      n <- py_int rep ;;
      close <- isclose rep n ;;
      if close
      then
        if negb (in_range cls n)
        then Raise (ValueError (str_int n ++ " is out of range for "
                                  ++ name cls))
        else
          value <- arith_ConstantOp (lower_class cls) n ;;
          Return (PyObject cls value)
      else otherwise
    else otherwise.

(** [Bool.__init__(self, rep)]. *)
Definition Bool__init__ (cls : IntClass) (rep : pyobj) : outcome pyobj :=
  match rep with
  | PyBool b =>
      let lit_as_bool := if b then 1 else 0 in
      value <- arith_ConstantOp (get_signless 1) lit_as_bool ;;
      Return (PyObject cls value)
  | _ => Int__init__ cls rep
  end.

(** [type.__call__(cls, rep)]: [__init__] as [cls] defines it. *)
Definition init (cls : IntClass) (rep : pyobj) : outcome pyobj :=
  if is_Bool cls then Bool__init__ cls rep else Int__init__ cls rep.

(** [Int.Int(self, target_type)], also inherited by [Bool].  Its
    [target_type._try_casting(x)] is [target_type(x)] for an [x] that is a
    [Value] or an [OpView]: neither has an [Int] or a [Bool] method, so
    [Supportable.__call__] takes its second case and runs [__init__]. *)
Definition Int_Int (self_cls : IntClass) (self_value : Value)
  (target_type : IntClass) : outcome pyobj :=
  if negb (Sign_eqb (sign target_type) (sign self_cls))
  then Raise (TypeError
                "Int cannot be casted into another Int with differing signs")
  else if width target_type <? width self_cls
  then Raise (TypeError ("Int of width " ++ str_int (width self_cls) ++
                " cannot be casted into width " ++
                str_int (width target_type) ++ ". Width must be extended"))
  else if width target_type =? width self_cls
  then init target_type (PyValue self_value)
  else
    (* target_type.width > self.width *)
    let new_val :=
      match sign self_cls with
      | SIGNED => arith_Ext ExtSIOp (lower_class target_type) self_value
      | UNSIGNED => arith_Ext ExtUIOp (lower_class target_type) self_value
      end in
    init target_type (PyOpView new_val).

(** An instance of a class of [IntClass] as [__init__] leaves it: its
    value is of the signless integer type of the width of its class. *)
Definition well_formed (cls : IntClass) (value : Value) : Prop :=
  0 < width cls /\ type_of value = get_signless (width cls).

(** [isinstance(rep, cls.supporter)]: the runtime-checkable protocols
    [SupportsInt] and [SupportsBool] ask for a method [Int], respectively
    [Bool]. *)
Definition has_Int (rep : pyobj) : bool :=
  match rep with
  | PyObject _ _ | PyNumber _ => true
  | _ => false
  end.

Definition has_Bool (rep : pyobj) : bool :=
  match rep with
  | PyObject cls _ => is_Bool cls
  | _ => false
  end.

Definition supporter (cls : IntClass) (rep : pyobj) : bool :=
  if is_Bool cls then has_Bool rep else has_Int rep.

(** [Supportable.__call__(cls, rep)], the call [cls(rep)] with its one
    argument; [Number.Int(self, target_type)] is
    [target_type(self.value)]. *)
Fixpoint call (cls : IntClass) (rep : pyobj) {struct rep} : outcome pyobj :=
  if supporter cls rep
  then
    (* cls.caster(cls, rep) *)
    if is_Bool cls
    then Return rep                                  (* rep.Bool() *)
    else
      match rep with
      | PyObject self_cls self_value => Int_Int self_cls self_value cls
      | PyNumber value => call cls value
      | _ => init cls rep
      end
  else init cls rep.

Definition _try_casting := call.

Definition value_of (o : pyobj) : outcome Value :=
  match o with
  | PyObject _ v => Return v
  | _ => Raise (AttributeError "value")
  end.

(* [op_add], [op_sub], [op_mul] and their reflected versions:
   [rhs = self._try_casting(rhs)] and then the operation, with the
   operands reversed in the reflected subtraction and division. *)
Definition arith_method (op : operation) (reversed : bool)
  (self_cls : IntClass) (self_value : Value) (other : pyobj)
  : outcome pyobj :=
  other <- _try_casting self_cls other ;;
  other_value <- value_of other ;;
  _try_casting self_cls
    (PyOpView (if reversed
               then arith_binary op other_value self_value
               else arith_binary op self_value other_value)).

Definition op_add := arith_method AddIOp false.
Definition op_radd := op_add.
Definition op_sub := arith_method SubIOp false.
Definition op_rsub := arith_method SubIOp true.
Definition op_mul := arith_method MulIOp false.
Definition op_rmul := op_mul.

Definition floordiv_op (self_cls : IntClass) : operation :=
  match sign self_cls with SIGNED => FloorDivSIOp | UNSIGNED => DivUIOp end.

Definition op_floordiv (self_cls : IntClass) :=
  arith_method (floordiv_op self_cls) false self_cls.
Definition op_rfloordiv (self_cls : IntClass) :=
  arith_method (floordiv_op self_cls) true self_cls.

Definition _compare_with_pred (self_cls : IntClass) (self_value : Value)
  (rhs : pyobj) (pred : CmpIPredicate) : outcome pyobj :=
  rhs <- _try_casting self_cls rhs ;;
  rhs_value <- value_of rhs ;;
  call Bool (PyOpView (arith_CmpIOp pred self_value rhs_value)).

Definition compare_method (signed unsigned : CmpIPredicate)
  (self_cls : IntClass) (self_value : Value) (rhs : pyobj)
  : outcome pyobj :=
  rhs <- _try_casting self_cls rhs ;;
  let pred := match sign self_cls with
              | SIGNED => signed
              | UNSIGNED => unsigned
              end in
  _compare_with_pred self_cls self_value rhs pred.

Definition op_lt := compare_method p_slt p_ult.
Definition op_le := compare_method p_sle p_ule.
Definition op_eq := compare_method p_eq p_eq.
Definition op_ne := compare_method p_ne p_ne.
Definition op_gt := compare_method p_sgt p_ugt.
Definition op_ge := compare_method p_sge p_uge.

(** The cast of an instance of one class to another, as the operators
    apply it to their operand. *)
Definition cast_value (c cls : IntClass) (w : Value) : Value :=
  if width c =? width cls then w
  else arith_Ext (match sign c with SIGNED => ExtSIOp | UNSIGNED => ExtUIOp end)
         (lower_class cls) w.

(** The operator methods that an instance of a class of [IntClass]
    answers to, by name: the methods of [Int], which these classes
    inherit ([Index] has [op_truediv] and [op_rtruediv] besides). *)
Definition Int_methods
  : list (string * (IntClass -> Value -> pyobj -> outcome pyobj)) :=
  [ ("op_add", op_add); ("op_radd", op_radd);
    ("op_sub", op_sub); ("op_rsub", op_rsub);
    ("op_mul", op_mul); ("op_rmul", op_rmul);
    ("op_floordiv", op_floordiv); ("op_rfloordiv", op_rfloordiv);
    ("op_lt", op_lt); ("op_le", op_le); ("op_eq", op_eq);
    ("op_ne", op_ne); ("op_gt", op_gt); ("op_ge", op_ge) ].

Fixpoint lookup {A : Type} (attr : string) (table : list (string * A))
  : option A :=
  match table with
  | [] => None
  | (k, a) :: table' => if String.eqb k attr then Some a else lookup attr table'
  end.

(** [getattr(o, attr)(arg)] for an operator name [attr]. *)
Definition getattr_call (o : pyobj) (attr : string) (arg : pyobj)
  : outcome pyobj :=
  match o with
  | PyObject cls value =>
      match lookup attr Int_methods with
      | Some method => method cls value arg
      | None => Raise (AttributeError attr)
      end
  | _ => Raise (AttributeError attr)
  end.

End Objects.

Arguments pyobj {_}.

(* ------------------------------------------------------------------ *)
(** ** lower, lower_single, lower_flatten *)

(** What [lower] tells apart in its argument: an [OpView] with its
    results, a [Value], an [mlir.Type], a [Lowerable] class or instance
    (here a class of [IntClass], with [lower_class] and [lower] of [Int]),
    and any other object, with its [str]. *)
Inductive lowerable : Type :=
| an_OpView (results : list Value)
| a_Value (v : Value)
| a_Type (t : mlir_type)
| a_class (cls : IntClass)
| an_instance (cls : IntClass) (value : Value)
| another (shown : string).

(** An item of a lowered tuple: a [Value] or an [mlir.Type]. *)
Definition lowered : Type := (Value + mlir_type)%type.

Definition lower (v : lowerable) : outcome (list lowered) :=
  match v with
  | an_OpView results => Return (map inl results)
  | a_Value x => Return [inl x]
  | a_Type t => Return [inr t]
  | a_class cls => Return [inr (lower_class cls)]           (* v.lower_class() *)
  | an_instance _ value => Return [inl value]                (* v.lower() *)
  | another shown => Raise (TypeError (shown ++ " is not Lowerable"))
  end.

Definition lower_single (v : lowerable) : outcome lowered :=
  res <- lower v ;;
  match res with
  | [r] => Return r
  | _ => Raise (ValueError "lowering expected single element")
  end.

(** [reduce(lambda a, b: a + [*b], map(lower, li), [])]: the items are
    lowered one after the other as the reduction asks for them. *)
Fixpoint reduce_lowered (a : list lowered) (li : list lowerable)
  : outcome (list lowered) :=
  match li with
  | [] => Return a
  | v :: li' => b <- lower v ;; reduce_lowered (a ++ b)%list li'
  end.

Definition lower_flatten (li : list lowerable) : outcome (list lowered) :=
  reduce_lowered [] li.

(** A lowered item given to [lower] again. *)
Definition as_lowerable (r : lowered) : lowerable :=
  match r with
  | inl v => a_Value v
  | inr t => a_Type t
  end.

(* ------------------------------------------------------------------ *)
(** ** class Number *)

(** The functions of the [operator] module, and [divmod], that the table
    [bin_number_op] names; [operator_eq] is Python's [==], which the
    table does not name. *)
Inductive host_function : Type :=
| operator_add | operator_sub | operator_mul | operator_truediv
| operator_pow | builtin_divmod | operator_floordiv | operator_mod
| operator_lshift | operator_rshift | operator_and_ | operator_xor
| operator_or_ | operator_lt | operator_le | operator_eq | operator_ge
| operator_gt.

(** What a host function gives when integer arithmetic does not decide it:
    an operand is not an [int] or a [bool], or the quotient or the power
    of two integers is a float. *)
Class HostOperator `{HostFloat} : Type := {
  other_operator : host_function -> pyobj -> pyobj -> outcome pyobj
}.

Inductive ret_type : Type := ret_Number | ret_Bool.

Record BinNumberOp : Type := {
  ldunder_name : string;
  internal_op : host_function;
  rdunder_name : string;
  default_ret_type : ret_type
}.

Definition bin_number_op : list BinNumberOp :=
  [ Build_BinNumberOp "op_add" operator_add "op_radd" ret_Number;
    Build_BinNumberOp "op_sub" operator_sub "op_rsub" ret_Number;
    Build_BinNumberOp "op_mul" operator_mul "op_rmul" ret_Number;
    Build_BinNumberOp "op_truediv" operator_truediv "op_rtruediv" ret_Number;
    Build_BinNumberOp "op_pow" operator_pow "op_rpow" ret_Number;
    Build_BinNumberOp "op_divmod" builtin_divmod "op_rdivmod" ret_Number;
    Build_BinNumberOp "op_floordiv" operator_floordiv "op_rfloordiv" ret_Number;
    Build_BinNumberOp "op_mod" operator_mod "op_rmod" ret_Number;
    Build_BinNumberOp "op_lshift" operator_lshift "op_rlshift" ret_Number;
    Build_BinNumberOp "op_rshift" operator_rshift "op_rrshift" ret_Number;
    Build_BinNumberOp "op_and" operator_and_ "op_rand" ret_Number;
    Build_BinNumberOp "op_xor" operator_xor "op_rxor" ret_Number;
    Build_BinNumberOp "op_xor" operator_or_ "op_ror" ret_Number;
    Build_BinNumberOp "op_lt" operator_lt "op_gt" ret_Bool;
    Build_BinNumberOp "op_le" operator_le "op_ge" ret_Bool;
    Build_BinNumberOp "op_eq" operator_le "op_eq" ret_Bool;
    Build_BinNumberOp "op_ge" operator_ge "op_le" ret_Bool;
    Build_BinNumberOp "op_gt" operator_gt "op_lt" ret_Bool ].

(** The entries of the table under the names [op_eq] and [op_lt]. *)
Definition entry_op_eq : BinNumberOp :=
  Build_BinNumberOp "op_eq" operator_le "op_eq" ret_Bool.

Definition entry_op_lt : BinNumberOp :=
  Build_BinNumberOp "op_lt" operator_lt "op_gt" ret_Bool.

Section Number.
Context `{HostOperator}.

Definition as_int (o : pyobj) : option Z :=
  match o with
  | PyInt z => Some z
  | PyBool b => Some (if b then 1 else 0)
  | _ => None
  end.

Definition both_bool (a b : pyobj) : bool :=
  match a, b with
  | PyBool _, PyBool _ => true
  | _, _ => false
  end.

Definition bitwise (f : Z -> Z -> Z) (a b : pyobj) (x y : Z) : pyobj :=
  if both_bool a b then PyBool (negb (f x y =? 0)) else PyInt (f x y).

(** [f(a, b)] for the host function [f]. *)
Definition host_apply (f : host_function) (a b : pyobj) : outcome pyobj :=
  match as_int a, as_int b with
  | Some x, Some y =>
      match f with
      | operator_add => Return (PyInt (x + y))
      | operator_sub => Return (PyInt (x - y))
      | operator_mul => Return (PyInt (x * y))
      | operator_truediv =>
          if y =? 0 then Raise (ZeroDivisionError "division by zero")
          else other_operator f a b
      | operator_pow =>
          if 0 <=? y then Return (PyInt (x ^ y))
          else if x =? 0
          then Raise (ZeroDivisionError
                        "0.0 cannot be raised to a negative power")
          else other_operator f a b
      | builtin_divmod =>
          if y =? 0
          then Raise (ZeroDivisionError "integer division or modulo by zero")
          else Return (PyTuple [PyInt (x / y); PyInt (x mod y)])
      | operator_floordiv =>
          if y =? 0
          then Raise (ZeroDivisionError "integer division or modulo by zero")
          else Return (PyInt (x / y))
      | operator_mod =>
          if y =? 0
          then Raise (ZeroDivisionError "integer modulo by zero")
          else Return (PyInt (x mod y))
      | operator_lshift =>
          if y <? 0 then Raise (ValueError "negative shift count")
          else Return (PyInt (Z.shiftl x y))
      | operator_rshift =>
          if y <? 0 then Raise (ValueError "negative shift count")
          else Return (PyInt (Z.shiftr x y))
      | operator_and_ => Return (bitwise Z.land a b x y)
      | operator_xor => Return (bitwise Z.lxor a b x y)
      | operator_or_ => Return (bitwise Z.lor a b x y)
      | operator_lt => Return (PyBool (x <? y))
      | operator_le => Return (PyBool (x <=? y))
      | operator_eq => Return (PyBool (x =? y))
      | operator_ge => Return (PyBool (x >=? y))
      | operator_gt => Return (PyBool (x >? y))
      end
  | _, _ => other_operator f a b
  end.

(** [default_ret_type(x)]: [Number(x)] or [Bool(x)]. *)
Definition construct (r : ret_type) (x : pyobj) : outcome pyobj :=
  match r with
  | ret_Number => Return (PyNumber x)
  | ret_Bool => call Bool x
  end.

(** [generic_bin_op(self, rhs)] as [method_gen(tup)] returns it, for the
    [Number] whose [value] is [self_value]. *)
Definition generic_bin_op (tup : BinNumberOp) (self_value : pyobj)
  (rhs : pyobj) : outcome pyobj :=
  match rhs with
  | PyNumber rhs_value =>
      r <- host_apply (internal_op tup) self_value rhs_value ;;
      construct (default_ret_type tup) r
  | _ => getattr_call rhs (rdunder_name tup) (PyNumber self_value)
  end.

(** The loop [for tup in bin_number_op: setattr(Number, ldunder_name,
    method_gen(tup))] runs over a set, so in an order [order] that the
    source does not fix; what [Number] has under the name [attr]
    afterwards is the last entry of that name. *)
Definition setattr_loop (order : list BinNumberOp) (attr : string)
  : option BinNumberOp :=
  fold_left
    (fun found tup =>
       if String.eqb (ldunder_name tup) attr then Some tup else found)
    order None.

(** [getattr(Number(self_value), attr)(rhs)] for a binary operator name
    [attr]. *)
Definition Number_call (order : list BinNumberOp) (attr : string)
  (self_value : pyobj) (rhs : pyobj) : outcome pyobj :=
  match setattr_loop order attr with
  | Some tup => generic_bin_op tup self_value rhs
  | None => Raise (AttributeError attr)
  end.

(** The names of [un_number_op]. *)
Definition un_number_op : list string :=
  [ "op_neg"; "op_pos"; "op_abs"; "op_trunc"; "op_floor"; "op_ceil";
    "op_round"; "op_invert" ].

(** [generic_unary_op(self)] as [method_gen(op)] returns it, for the
    [Number] whose [value] is [self_value] and without further arguments:
    [Number(getattr(self.value, op)())].  The attribute looked up on the
    wrapped value is the name [op] itself; among the objects of the model
    only a [Number] has an attribute of such a name, the method that the
    loop has set. *)
Fixpoint generic_unary_op (op : string) (self_value : pyobj)
  : outcome pyobj :=
  r <- match self_value with
       | PyNumber inner => generic_unary_op op inner
       | _ => Raise (AttributeError op)
       end ;;
  Return (PyNumber r).

(** [getattr(Number(self_value), attr)()] for a unary operator name
    [attr]. *)
Definition Number_unary_call (attr : string) (self_value : pyobj)
  : outcome pyobj :=
  if existsb (String.eqb attr) un_number_op
  then generic_unary_op attr self_value
  else Raise (AttributeError attr).

End Number.


(* ================================================================== *)
(** * ctypes: the part of the library the marshaller relies on *)
(* ================================================================== *)

(** The ctypes scalar classes named in [type.py] and [tensor.py]. *)
Inductive ctype : Type :=
| c_bool | c_int8 | c_int16 | c_int32 | c_int64
| c_uint8 | c_uint16 | c_uint32 | c_uint64
| c_float | c_double | c_longdouble
| c_size_t | c_int | c_void_p.

Definition ctype_eqb (a b : ctype) : bool :=
  match a, b with
  | c_bool, c_bool | c_int8, c_int8 | c_int16, c_int16
  | c_int32, c_int32 | c_int64, c_int64
  | c_uint8, c_uint8 | c_uint16, c_uint16 | c_uint32, c_uint32
  | c_uint64, c_uint64
  | c_float, c_float | c_double, c_double | c_longdouble, c_longdouble
  | c_size_t, c_size_t | c_int, c_int | c_void_p, c_void_p => true
  | _, _ => false
  end.

(** What ctypes does with the host values at the leaves:
    [ctypes_accepts t v] tells whether a field of class [t] takes the
    value [v] (storing [None] or a tuple in a [c_int32] raises a
    [TypeError]); [ctypes_set t v] is what reading the field gives back
    after an accepted [v] was stored in it (ctypes converts on the way in,
    e.g. it truncates integers); and [ctypes_zero t] is what a field of a
    structure built without initialisers reads as. *)
Class Ctypes (pyval : Type) : Type := {
  ctypes_accepts : ctype -> pyval -> bool;
  ctypes_set : ctype -> pyval -> pyval;
  ctypes_zero : ctype -> pyval
}.

(* ================================================================== *)
(** * frontend.py: tuple trees and structures *)
(* ================================================================== *)

(** [CTypeTreeType]: a nested tuple whose leaves are ctypes classes.  The
    Python alias only names tuples; the functions below also meet the
    leaves ([ct[0]], the loop variable [t]) and test [isinstance(_,
    tuple)] on them, so both are one type here. *)
Inductive CTypeTreeType : Type :=
| CT_type (t : ctype)
| CT_tuple (ts : list CTypeTreeType).

(** What [CTypeTreeType_to_Structure] returns: a ctypes class passed
    through, or a generated [AnonymousStructure] subclass.  The function
    is wrapped in [functools.cache], so the class generated for a tuple is
    identified by that tuple, [ct]; [fields] are the types of
    [_fields_], whose names [anonymous_field_i] are their positions. *)
Inductive native_type : Type :=
| NT_ctype (t : ctype)
| AnonymousStructure (ct : list CTypeTreeType) (fields : list native_type).

Definition is_Structure_class (st : native_type) : bool :=
  match st with
  | AnonymousStructure _ _ => true
  | NT_ctype _ => false
  end.

(** Python's [==] on type trees and identity of generated classes. *)
Fixpoint CTypeTreeType_eqb (t u : CTypeTreeType) {struct t} : bool :=
  match t, u with
  | CT_type c, CT_type d => ctype_eqb c d
  | CT_tuple ts, CT_tuple us => all2 CTypeTreeType_eqb ts us
  | _, _ => false
  end.

Fixpoint native_type_eqb (a b : native_type) {struct a} : bool :=
  match a, b with
  | NT_ctype t, NT_ctype u => ctype_eqb t u
  | AnonymousStructure ct fa, AnonymousStructure cu fb =>
      CTypeTreeType_eqb (CT_tuple ct) (CT_tuple cu)
      && all2 native_type_eqb fa fb
  | _, _ => false
  end.

Section Trees.
Context {pyval : Type}.

(** A host object met at the native boundary: a plain value, or an
    instance of a generated structure class.  An instance carries, for
    each entry of [_fields_] in order, the field's type and its current
    content, so [getattr(s, sname)] is the content at the position of
    [sname]. *)
Inductive cdata : Type :=
| Raw (v : pyval)
| Instance (ct : list CTypeTreeType) (members : list (native_type * cdata)).

(** [CTypeTree]: a nested tuple whose leaves are host objects (anything
    that is not a tuple). *)
Inductive CTypeTree : Type :=
| C_val (o : cdata)
| C_tuple (cs : list CTypeTree).

Definition is_Structure (s : cdata) : bool :=
  match s with
  | Instance _ _ => true
  | Raw _ => false
  end.

(** The class of a host object, when it is a structure instance. *)
Definition class_of (s : cdata) : option native_type :=
  match s with
  | Instance ct members => Some (AnonymousStructure ct (map fst members))
  | Raw _ => None
  end.

End Trees.

Arguments cdata : clear implicits.
Arguments CTypeTree : clear implicits.

Section Marshaller.
Context {pyval : Type} `{Ctypes pyval}.
#[local] Abbreviation cdata := (cdata pyval).
#[local] Abbreviation CTypeTree := (CTypeTree pyval).

Fixpoint CTypeTreeType_to_Structure (ct : CTypeTreeType)
  : outcome native_type :=
  match ct with
  | CT_type _ => Raise (TypeError "ct is not a CTypeTreeType")
  | CT_tuple ts =>
      (* [CTypeTreeType_to_Structure(t) if isinstance(t, tuple) else t] *)
      let child (t : CTypeTreeType) : outcome native_type :=
        match t with
        | CT_tuple _ => CTypeTreeType_to_Structure t
        | CT_type c => Return (NT_ctype c)
        end in
      match ts with
      (* tuple is flattened if it's only one element *)
      | [t0] => child t0
      (* perform this operation recursively for all sub-tuples *)
      | _ =>
          ct_recursive <- each child ts ;;
          Return (AnonymousStructure ts ct_recursive)
      end
  end.

(** Calling a generated class with no argument: every field reads as
    zero. *)
Fixpoint zero_of (st : native_type) : cdata :=
  match st with
  | NT_ctype t => Raw (ctypes_zero t)
  | AnonymousStructure ct fields =>
      Instance ct (map (fun f => (f, zero_of f)) fields)
  end.

(** Calling a generated class on initialisers: ctypes refuses more
    initialisers than fields, converts a plain initialiser to the class of
    a scalar field when the class takes it and raises when it does not,
    takes a structure initialiser only for a field of that very class,
    and leaves the remaining fields zeroed.  [TypeError "incompatible
    types"] stands for what ctypes raises on a refused initialiser: its
    message depends on the class of the field and on the value. *)
Definition set_field (st : native_type) (a : cdata) : outcome cdata :=
  match st, a with
  | NT_ctype t, Raw v =>
      if ctypes_accepts t v
      then Return (Raw (ctypes_set t v))
      else Raise (TypeError "incompatible types")
  | AnonymousStructure _ _, Instance ct members =>
      if native_type_eqb st (AnonymousStructure ct (map fst members))
      then Return a
      else Raise (TypeError "incompatible types")
  | _, _ => Raise (TypeError "incompatible types")
  end.

Fixpoint init_fields (fields : list native_type) (args : list cdata)
  : outcome (list (native_type * cdata)) :=
  match fields, args with
  | _, [] => Return (map (fun f => (f, zero_of f)) fields)
  | [], _ :: _ => Raise (TypeError "too many initializers")
  | f :: fields', a :: args' =>
      x <- set_field f a ;;
      xs <- init_fields fields' args' ;;
      Return ((f, x) :: xs)
  end.

Definition call_class (cls : native_type) (args : list cdata)
  : outcome cdata :=
  match cls with
  | AnonymousStructure ct fields =>
      members <- init_fields fields args ;;
      Return (Instance ct members)
  | NT_ctype t =>
      match args with
      | [] => Return (Raw (ctypes_zero t))
      | [Raw v] =>
          if ctypes_accepts t v
          then Return (Raw (ctypes_set t v))
          else Raise (TypeError "incompatible types")
      | _ => Raise (TypeError "incompatible types")
      end
  end.

Definition depth_mismatch : exn :=
  TypeError "CTypeTree and CTypeTreeType mismatch in terms of depth".

Definition length_mismatch : exn :=
  TypeError "CTypeTree and CTypeTreeType mismatch in terms of length".

Fixpoint CTypeTree_to_Structure (ct : CTypeTreeType) (c : CTypeTree)
  {struct ct} : outcome cdata :=
  match ct, c with
  | CT_tuple ts, C_tuple cs =>
      (* [rec(t, val) if (isinstance(t, tuple) or isinstance(val, tuple))
         else val] *)
      let child (t : CTypeTreeType) (val : CTypeTree) : outcome cdata :=
        match t, val with
        | CT_type _, C_val o => Return o
        | _, _ => CTypeTree_to_Structure t val
        end in
      if negb (List.length ts =? List.length cs)%nat
      then Raise length_mismatch
      else
        match ts, cs with
        (* tuple is flattened if it's only one element *)
        | [t0], [c0] => child t0 c0
        | _, _ =>
            c_recursive <- each2 child ts cs ;;
            cls <- CTypeTreeType_to_Structure ct ;;
            call_class cls c_recursive
        end
  | _, _ =>
      Raise depth_mismatch
  end.

(** The first loop of [CTypeTree_from_Structure],

      [while len(ct) == 1:
           num_tuple_shell += 1
           if isinstance(ct[0], tuple): ct = ct[0]]

    run on the tuple [ct]: when [ct[0]] is not a tuple the state of the
    loop only changes in its counter and the loop never exits.
    [while_tuple_shell] is the loop with a bound on its iterations;
    [tuple_shell_loop] is the outcome it has, by recursion on [ct]. *)
Fixpoint while_tuple_shell (fuel : nat) (num_tuple_shell : nat)
  (ct : CTypeTreeType) : option (nat * CTypeTreeType) :=
  match fuel with
  | O => None
  | S fuel' =>
      match ct with
      | CT_tuple [t0] =>
          while_tuple_shell fuel' (S num_tuple_shell)
            (match t0 with CT_tuple _ => t0 | CT_type _ => ct end)
      | _ => Some (num_tuple_shell, ct)
      end
  end.

Fixpoint tuple_shell_loop (num_tuple_shell : nat) (ct : CTypeTreeType)
  : outcome (nat * CTypeTreeType) :=
  match ct with
  | CT_tuple [t0] =>
      match t0 with
      | CT_tuple _ => tuple_shell_loop (S num_tuple_shell) t0
      | CT_type _ => Diverge
      end
  | _ => Return (num_tuple_shell, ct)
  end.

(** The loop on a member,
    [while isinstance(t, tuple) and len(t) == 1: ...; t = t[0]]. *)
Fixpoint member_shell_loop (num_member_tuple_shell : nat)
  (t : CTypeTreeType) : nat * CTypeTreeType :=
  match t with
  | CT_tuple [t0] => member_shell_loop (S num_member_tuple_shell) t0
  | _ => (num_member_tuple_shell, t)
  end.

(** [for _ in range(n): val = (val,)]. *)
Definition add_shells (n : nat) (val : CTypeTree) : CTypeTree :=
  Nat.iter n (fun v => C_tuple [v]) val.

(** [t != st] for a field class [st] that is not a structure: a tuple is
    never equal to a class. *)
Definition differs (t : CTypeTreeType) (st : native_type) : bool :=
  match t, st with
  | CT_type c, NT_ctype d => negb (ctype_eqb c d)
  | _, _ => true
  end.

Fixpoint CTypeTree_from_Structure (ct : CTypeTreeType) (s : cdata)
  {struct s} : outcome CTypeTree :=
  match s with
  | Raw _ => Raise (TypeError "s must be a Structure")
  | Instance _ members =>
      match ct with
      | CT_type _ => Raise (TypeError "ct must be a CTypeTreeType")
      | CT_tuple _ =>
          shells <- tuple_shell_loop 0 ct ;;
          let '(num_tuple_shell, ct) := shells in
          let ts := match ct with CT_tuple ts => ts | CT_type _ => [] end in
          if negb (List.length ts =? List.length members)%nat
          then Raise (TypeError
                        "length mismatch when converting back from Structure")
          else
            ret <-
              each2
                (fun (member : native_type * cdata) (t : CTypeTreeType) =>
                   let '(st, field) := member in
                   let '(num_member_tuple_shell, t) :=
                     member_shell_loop 0 t in
                   val <- (if is_Structure_class st
                           then CTypeTree_from_Structure t field
                           else Return (C_val field)) ;;
                   if negb (is_Structure_class st) && differs t st
                   then Raise (TypeError
                      "type mismatch when converting back from Structure")
                   else Return (add_shells num_member_tuple_shell val))
                members ts ;;
            Return (add_shells num_tuple_shell (C_tuple ret))
      end
  end.

(* ------------------------------------------------------------------ *)
(** ** The vocabulary of the specification *)

Definition is_tuple (ct : CTypeTreeType) : bool :=
  match ct with CT_tuple _ => true | CT_type _ => false end.


(** "Same nesting and same length at every level". *)
Fixpoint same_shape (ct : CTypeTreeType) (c : CTypeTree) : bool :=
  match ct, c with
  | CT_type _, C_val _ => true
  | CT_tuple ts, C_tuple cs => all2 same_shape ts cs
  | _, _ => false
  end.




(** The leaves of a value tree are plain host values, not structure
    instances. *)
Fixpoint plain (c : CTypeTree) : bool :=
  match c with
  | C_val (Raw _) => true
  | C_val (Instance _ _) => false
  | C_tuple cs => forallb plain cs
  end.

(** The native shape that a type tree denotes once its length-1 nodes
    are collapsed. *)
Fixpoint collapse (ct : CTypeTreeType) : native_type :=
  match ct with
  | CT_type t => NT_ctype t
  | CT_tuple ts =>
      match ts with
      | [t0] => collapse t0
      | _ => AnonymousStructure ts (map collapse ts)
      end
  end.

(** A value tree after ctypes has converted each leaf to the class at the
    same place of the type tree. *)
Fixpoint stored (ct : CTypeTreeType) (c : CTypeTree) : CTypeTree :=
  match ct, c with
  | CT_type t, C_val (Raw v) => C_val (Raw (ctypes_set t v))
  | CT_tuple ts, C_tuple cs => C_tuple (zip_with stored ts cs)
  | _, _ => c
  end.

(** Every plain leaf of the value tree that stands at the place of a
    class of the type tree is a value that the class takes.  Where the
    two trees differ in shape nothing is asked. *)
Fixpoint accepted (ct : CTypeTreeType) (c : CTypeTree) : bool :=
  match ct, c with
  | CT_type t, C_val (Raw v) => ctypes_accepts t v
  | CT_tuple ts, C_tuple cs => all_zip accepted ts cs
  | _, _ => true
  end.

(** A value tree matches a type tree: same shape, plain leaves, and every
    leaf is a value that its ctypes class holds unchanged. *)
Definition matching (ct : CTypeTreeType) (c : CTypeTree) : Prop :=
  same_shape ct c = true /\ plain c = true /\ stored ct c = c.

(** A chain of [n] length-1 wrappers, [((...(x,)...,),)]. *)
Definition wrappers (n : nat) (ct : CTypeTreeType) : CTypeTreeType :=
  Nat.iter n (fun t => CT_tuple [t]) ct.

(** The element of the comprehension of [CTypeTreeType_to_Structure]. *)
Definition child_type (t : CTypeTreeType) : outcome native_type :=
  match t with
  | CT_tuple _ => CTypeTreeType_to_Structure t
  | CT_type c => Return (NT_ctype c)
  end.

(** The element of the comprehension of [CTypeTree_to_Structure]. *)
Definition child_to (t : CTypeTreeType) (val : CTypeTree) : outcome cdata :=
  match t, val with
  | CT_type _, C_val o => Return o
  | _, _ => CTypeTree_to_Structure t val
  end.

(** The body of the loop of [CTypeTree_from_Structure] on one member. *)
Definition member_from (member : native_type * cdata) (t : CTypeTreeType)
  : outcome CTypeTree :=
  let '(st, field) := member in
  let '(num_member_tuple_shell, t) := member_shell_loop 0 t in
  val <- (if is_Structure_class st
          then CTypeTree_from_Structure t field
          else Return (C_val field)) ;;
  if negb (is_Structure_class st) && differs t st
  then Raise (TypeError "type mismatch when converting back from Structure")
  else Return (add_shells num_member_tuple_shell val).

(** What the conversion does at a node [t] with the value [v] under it,
    for plain leaves that their classes take.  On equal shapes it returns
    an object that ctypes accepts for a field of the collapsed class of
    [t], and the loop of [CTypeTree_from_Structure] reads [v] back from
    that field, each leaf as ctypes stored it.  On different shapes it
    raises one of the two mismatch errors. *)
Definition node_correct (t : CTypeTreeType) : Prop :=
  forall v : CTypeTree, plain v = true -> accepted t v = true ->
    (same_shape t v = true ->
     exists s s',
       child_to t v = Return s /\
       set_field (collapse t) s = Return s' /\
       member_from (collapse t, s') t = Return (stored t v)) /\
    (same_shape t v = false ->
     child_to t v = Raise depth_mismatch \/
     child_to t v = Raise length_mismatch).

(* ------------------------------------------------------------------ *)
(** ** Objects of a native type *)

(** An object of a native type: a plain value for a ctypes class; for a
    generated class, an instance of that very class whose members are
    objects of the types of its fields.  It is what a structure of the
    class holds however native code has filled it. *)
Fixpoint has_type (s : cdata) (st : native_type) {struct s} : bool :=
  match s, st with
  | Raw _, NT_ctype _ => true
  | Instance ct members, AnonymousStructure ct' fields =>
      CTypeTreeType_eqb (CT_tuple ct) (CT_tuple ct') &&
      all2 (fun (member : native_type * cdata) (f : native_type) =>
              let '(st', field) := member in
              native_type_eqb st' f && has_type field f)
        members fields
  | _, _ => false
  end.

End Marshaller.

(* ================================================================== *)
(** * type.py: the methods of the protocol SupportsCType *)
(* ================================================================== *)

Section CTypeMethods.
Context `{HostFloat}.

(** [cval[0]] for a tuple tree [cval], read as a host value. *)
Definition item0 (cval : CTypeTree pyobj) : outcome pyobj :=
  match cval with
  | C_tuple (C_val (Raw v) :: _) => Return v
  | C_tuple [] => Raise (IndexError "tuple index out of range")
  | _ => Raise (TypeError "object is not a real number")
  end.

Definition Int_CType (cls : IntClass) : outcome (list CTypeTreeType) :=
  let found (t : ctype) := Return [CT_type t] in
  match sign cls, width cls with
  | SIGNED, 1 => found c_bool
  | SIGNED, 8 => found c_int8
  | SIGNED, 16 => found c_int16
  | SIGNED, 32 => found c_int32
  | SIGNED, 64 => found c_int64
  | UNSIGNED, 1 => found c_bool
  | UNSIGNED, 8 => found c_uint8
  | UNSIGNED, 16 => found c_uint16
  | UNSIGNED, 32 => found c_uint32
  | UNSIGNED, 64 => found c_uint64
  | _, _ => Raise (TypeError (name cls ++
                                " does not have a corresponding ctype"))
  end.

Definition Int_to_CType (cls : IntClass) (pyval : pyobj)
  : outcome (CTypeTree pyobj) :=
  match py_int pyval with
  | Return pyval =>
      if Z.shiftl 1 (width cls) <=? pyval
      then Raise (TypeError (str_int pyval ++
                               " cannot fit into an Int of size " ++
                               str_int (width cls)))
      else
        if Sign_eqb (sign cls) UNSIGNED && (pyval <? 0)
        then Raise (ValueError
                      ("expected positive pyval for signless Int, got " ++
                       str_int pyval))
        else Return (C_tuple [C_val (Raw (PyInt pyval))])
  | Raise _ =>
      (* except Exception as e: raise TypeError(...) from e *)
      Raise (TypeError (str_obj pyval ++
                          " cannot be converted into an Int ctype"))
  | Diverge => Diverge
  end.

Definition Int_from_CType (cval : CTypeTree pyobj) : outcome pyobj :=
  v <- item0 cval ;; n <- py_int v ;; Return (PyInt n).

Definition Bool_to_CType (pyval : pyobj) : outcome (CTypeTree pyobj) :=
  Return (C_tuple [C_val (Raw (PyBool (py_bool pyval)))]).

Definition Bool_from_CType (cval : CTypeTree pyobj) : outcome pyobj :=
  v <- item0 cval ;; Return (PyBool (py_bool v)).

(** A class that implements the protocol, as [call_function] uses it. *)
Record SupportsCType : Type := {
  CType : outcome (list CTypeTreeType);
  to_CType : pyobj -> outcome (CTypeTree pyobj);
  from_CType : CTypeTree pyobj -> outcome pyobj
}.

Definition Int_protocol (cls : IntClass) : SupportsCType :=
  {| CType := Int_CType cls;
     to_CType := if is_Bool cls then Bool_to_CType else Int_to_CType cls;
     from_CType := if is_Bool cls then Bool_from_CType else Int_from_CType |}.

(** [Index]: only its three protocol methods are modelled. *)
Definition Index_protocol : SupportsCType :=
  {| CType := Return [CT_type c_size_t];
     to_CType := fun pyval =>
       match py_int pyval with
       | Return n => Return (C_tuple [C_val (Raw (PyInt n))])
       | Raise _ => Raise (TypeError (str_obj pyval ++
                            " cannot be converted into a Index ctype"))
       | Diverge => Diverge
       end;
     from_CType := Int_from_CType |}.

End CTypeMethods.

(* ================================================================== *)
(** * frontend.py: compose *)
(* ================================================================== *)

(** [compose(funcs)(x)]: the functions are applied in the order of the
    list, each to the result of the one before; an exception ends the
    loop. *)
Fixpoint compose {A : Type} (funcs : list (A -> outcome A)) (x : A)
  : outcome A :=
  match funcs with
  | [] => Return x
  | f :: funcs' => y <- f x ;; compose funcs' y
  end.

(* ================================================================== *)
(** * frontend.py: CTarget *)
(* ================================================================== *)

Section CTarget.
Context `{HostFloat} `{Ctypes pyobj}.

(** [inspect.Signature] of a compiled function, as
    [get_function_signature] returns it, with the three shapes of return
    annotation that [get_return_type] tells apart. *)
Inductive return_annotation : Type :=
| Signature_empty                               (* None, or no annotation *)
| annotated (t : SupportsCType)                 (* a class *)
| annotated_tuple (ts : list SupportsCType)     (* Tuple[...] *)
| unsupported.                                  (* any other generic alias *)

Record function : Type := {
  __name__ : string;
  __qualname__ : string;
  parameters : list (string * SupportsCType);
  return_annotation_ : return_annotation
}.

(** How ctypes passes an object of a class: by value, or through
    [POINTER(cls)]. *)
Inductive argtype : Type :=
| by_value (t : native_type)
| POINTER (t : native_type).

(** A native function: from the arguments it is called on to the value it
    returns and what its arguments hold afterwards (structures are passed
    by pointer and may be written). *)
Record native_result : Type := {
  returned : cdata pyobj;
  memory : list (cdata pyobj)
}.

Definition native_function : Type := list (cdata pyobj) -> native_result.

(** A loaded library: its symbols. *)
Definition library : Type := string -> option native_function.

(** The foreign function [so_f] after [load_function]. *)
Record foreign_function : Type := {
  symbol : string;
  code : native_function;
  restype : option argtype;
  argtypes : list argtype
}.

(** The target: [_so] is [None] until [build] has run. *)
Record CTarget : Type := { _so : option library }.

Definition get_return_type (f : function) : outcome (list SupportsCType) :=
  match return_annotation_ f with
  | Signature_empty => Return []
  | annotated t => Return [t]
  | annotated_tuple ts => Return ts
  | unsupported =>
      Raise (TypeError ("return type for " ++ __qualname__ f ++
                          " is not supported"))
  end.

Definition type_to_CType (typ : SupportsCType) : outcome CTypeTreeType :=
  ct <- CType typ ;; Return (CT_tuple ct).

Definition get_return_ctypes (f : function) : outcome CTypeTreeType :=
  ret_t <- get_return_type f ;;
  (* Turn it into a tuple tree of ctypes *)
  cts <- each type_to_CType ret_t ;; Return (CT_tuple cts).

Definition get_args_ctypes (f : function) : outcome CTypeTreeType :=
  cts <- each (fun p => type_to_CType (snd p)) (parameters f) ;;
  Return (CT_tuple cts).

(** [sum(ct, ())]: the concatenation of the items of [ct], which must be
    tuples. *)
Fixpoint sum_tuples (items : list CTypeTreeType)
  : outcome (list CTypeTreeType) :=
  match items with
  | [] => Return []
  | CT_tuple ts :: items' => r <- sum_tuples items' ;; Return (ts ++ r)%list
  | CT_type _ :: _ =>
      Raise (TypeError "can only concatenate tuple to tuple")
  end.

Definition flattened (f : function) : outcome (list CTypeTreeType) :=
  ct <- get_return_ctypes f ;;
  match ct with
  | CT_tuple items => sum_tuples items
  | CT_type _ => Raise (TypeError "object is not iterable")
  end.

Definition has_composite_return (f : function) : outcome bool :=
  fl <- flattened f ;; Return (1 <? List.length fl)%nat.

Definition has_void_return (f : function) : outcome bool :=
  fl <- flattened f ;; Return (List.length fl =? 0)%nat.

Definition pass (t : native_type) : argtype :=
  if is_Structure_class t then POINTER t else by_value t.

Definition load_function (self : library) (f : function)
  : outcome foreign_function :=
  ret_ct <- get_return_ctypes f ;;
  ret_struct <- CTypeTreeType_to_Structure ret_ct ;;
  (* all structs are passed by pointer *)
  let ret_struct := pass ret_struct in
  args_ct <- get_args_ctypes f ;;
  args_struct <-
    each CTypeTreeType_to_Structure
      (match args_ct with CT_tuple ts => ts | CT_type _ => [] end) ;;
  let args_struct := map pass args_struct in
  match self ("_mlir_ciface_" ++ __name__ f) with
  | None => Raise (AttributeError ("_mlir_ciface_" ++ __name__ f))
  | Some so_f =>
      composite <- has_composite_return f ;;
      Return
        (if composite : bool
         then {| symbol := "_mlir_ciface_" ++ __name__ f;
                 code := so_f;
                 restype := None;      (* void function *)
                 argtypes := ret_struct :: args_struct |}
         else {| symbol := "_mlir_ciface_" ++ __name__ f;
                 code := so_f;
                 restype := Some ret_struct;
                 argtypes := args_struct |})
  end.

(** One call of a foreign function, as the host makes it. *)
Record native_call : Type := {
  callee : foreign_function;
  arguments : list (cdata pyobj)
}.

(** What [call_function] does: the native calls it made, in order, and
    its outcome. *)
Record call_trace : Type := {
  calls : list native_call;
  result : outcome pyobj
}.

Definition items (ct : CTypeTreeType) : list CTypeTreeType :=
  match ct with CT_tuple ts => ts | CT_type _ => [] end.

(** The two comprehensions [mapped_args_ct] and [mapped_args]: each
    argument through [to_CType] of its annotation, then each pair through
    [CTypeTree_to_Structure]. *)
Definition marshal_arguments (f : function) (args : list pyobj)
  : outcome (list (cdata pyobj)) :=
  args_ct <- get_args_ctypes f ;;
  mapped_args_ct <-
    each2 (fun ctkey a =>
             c <- to_CType (snd (snd ctkey)) a ;; Return (fst ctkey, c))
      (combine (items args_ct) (parameters f)) args ;;
  each (fun i => CTypeTree_to_Structure (fst i) (snd i)) mapped_args_ct.

(** The error of a call with a wrong number of arguments: the number of
    parameters of the signature, then the number of arguments given. *)
Definition argument_count_error (f : function) (args : list pyobj) : exn :=
  TypeError
    (__qualname__ f ++ " takes " ++ str_len (parameters f) ++
     " positional argument" ++
     (if (1 <? List.length (parameters f))%nat then "s" else "") ++
     " but " ++ str_len args ++ " were given").

(** Everything [call_function] does before it touches the native
    function: the loaded function, the marshalled arguments and the two
    tests on the return type. *)
Definition prepare (so : library) (f : function) (args : list pyobj)
  : outcome (foreign_function * list (cdata pyobj) * bool * bool) :=
  so_f <- load_function so f ;;
  if negb (List.length (parameters f) =? List.length args)%nat
  then Raise (argument_count_error f args)
  else
    mapped_args <- marshal_arguments f args ;;
    void <- has_void_return f ;;
    if void : bool then Return (so_f, mapped_args, true, false)
    else
      composite <- has_composite_return f ;;
      Return (so_f, mapped_args, false, composite).

Definition tuple_items (c : CTypeTree pyobj) : list (CTypeTree pyobj) :=
  match c with C_tuple cs => cs | C_val _ => [] end.

Definition call_function (self : CTarget) (f : function)
  (args : list pyobj) : call_trace :=
  match _so self with
  | None =>
      {| calls := [];
         result := Raise (RuntimeError
                            ("function " ++ __name__ f ++
                             " is called before it is compiled")) |}
  | Some so =>
      match prepare so f args with
      | Raise e => {| calls := []; result := Raise e |}
      | Diverge => {| calls := []; result := Diverge |}
      | Return (so_f, mapped_args, true, _) =>
          (* so_f(mapped_args); return None *)
          {| calls := [ {| callee := so_f; arguments := mapped_args |} ];
             result := Return PyNone |}
      | Return (so_f, mapped_args, false, false) =>
          match get_return_type f with
          | Return (t :: _) =>
              let r := code so_f mapped_args in
              {| calls := [ {| callee := so_f; arguments := mapped_args |} ];
                 (* this tuple construct is essential! *)
                 result := from_CType t (C_tuple [C_val (returned r)]) |}
          | Return [] =>
              {| calls := [];
                 result := Raise (IndexError "tuple index out of range") |}
          | Raise e => {| calls := []; result := Raise e |}
          | Diverge => {| calls := []; result := Diverge |}
          end
      | Return (so_f, mapped_args, false, true) =>
          match
            ct <- get_return_ctypes f ;;
            cls <- CTypeTreeType_to_Structure ct ;;
            (* instantiate an empty return structure type *)
            retval <- call_class cls [] ;;
            Return (ct, retval)
          with
          | Raise e => {| calls := []; result := Raise e |}
          | Diverge => {| calls := []; result := Diverge |}
          | Return (ct, retval) =>
              let mapped_args := retval :: mapped_args in
              let r := code so_f mapped_args in
              (* retval is passed by pointer: read what it holds now *)
              let retval := hd retval (memory r) in
              {| calls := [ {| callee := so_f; arguments := mapped_args |} ];
                 result :=
                   retval_ct <- CTypeTree_from_Structure ct retval ;;
                   ret_t <- get_return_type f ;;
                   vals <- each2 from_CType ret_t (tuple_items retval_ct) ;;
                   Return (PyTuple vals) |}
          end
      end
  end.

(** What ctypes asks of an object passed for an argument type: for
    [POINTER(cls)], an instance of the structure class [cls]; a ctypes
    class is passed by value. *)
Definition passed_as (a : argtype) (s : cdata pyobj) : Prop :=
  match a with
  | POINTER cls => is_Structure_class cls = true /\ class_of s = Some cls
  | by_value cls => is_Structure_class cls = false
  end.

End CTarget.

(* ================================================================== *)
(** * A host with integers only *)
(* ================================================================== *)

(** The instance at which the closed examples below are evaluated: a host
    without floats, and ctypes on the integer classes (an integer is
    reduced to the width of the class, [c_bool] keeps a truth value). *)
Definition no_float : HostFloat :=
  {| float := Empty_set;
     float_int := fun x => match x with end;
     float_isclose := fun x _ => match x with end;
     float_bool := fun x => match x with end;
     float_str := fun x => match x with end |}.

Definition no_float_operator : @HostOperator no_float :=
  {| other_operator := fun _ _ _ =>
       Raise (TypeError "unsupported operand type(s)") |}.

Definition wrap_unsigned (w : Z) (z : Z) : Z := z mod 2 ^ w.

Definition wrap_signed (w : Z) (z : Z) : Z :=
  (z + 2 ^ (w - 1)) mod 2 ^ w - 2 ^ (w - 1).

Definition int_field (wrap : Z -> Z) (v : @pyobj no_float) : @pyobj no_float :=
  match v with
  | PyInt z => PyInt (wrap z)
  | PyBool b => PyInt (wrap (if b then 1 else 0))
  | _ => v
  end.

(** The host values that a ctypes class takes: [c_bool] any object, by
    its truth value; [c_void_p] an integer or [None]; an integer class
    every integer ([bool] is a subclass of [int]); a float class every
    integer that converts to a [float], which are those that round to a
    double below [2^1024]. *)
Definition integer_accepts (t : ctype) (v : @pyobj no_float) : bool :=
  match t, v with
  | c_bool, _ => true
  | c_void_p, PyNone => true
  | (c_float | c_double | c_longdouble), PyInt z =>
      Z.abs z <? 2 ^ 1024 - 2 ^ 970
  | _, (PyInt _ | PyBool _) => true
  | _, _ => false
  end.

Definition integer_ctypes : Ctypes (@pyobj no_float) :=
  {| ctypes_accepts := integer_accepts;
     ctypes_set := fun t v =>
       match t with
       | c_bool => PyBool (py_bool v)
       | c_int8 => int_field (wrap_signed 8) v
       | c_int16 => int_field (wrap_signed 16) v
       | c_int32 | c_int => int_field (wrap_signed 32) v
       | c_int64 => int_field (wrap_signed 64) v
       | c_uint8 => int_field (wrap_unsigned 8) v
       | c_uint16 => int_field (wrap_unsigned 16) v
       | c_uint32 => int_field (wrap_unsigned 32) v
       | c_uint64 | c_size_t => int_field (wrap_unsigned 64) v
       | _ => v
       end;
     ctypes_zero := fun t =>
       match t with
       | c_bool => PyBool false
       | c_void_p => PyNone
       | _ => PyInt 0
       end |}.

(** A compiled function [f(a: SInt8) -> Tuple[UInt32, SInt16]] and a
    library whose [_mlir_ciface_f] writes the pair [(7, -2)] through its
    first argument. *)
Section Example_target.
#[local] Existing Instance no_float.
#[local] Existing Instance integer_ctypes.

Definition example_native : native_function :=
  fun args =>
    {| returned := Raw PyNone;
       memory :=
         match args with
         | Instance ct [(t0, _); (t1, _)] :: rest =>
             Instance ct [(t0, Raw (PyInt 7)); (t1, Raw (PyInt (-2)))] :: rest
         | _ => args
         end |}.

Definition example_library : library :=
  fun symbol_name =>
    if String.eqb symbol_name "_mlir_ciface_f" then Some example_native
    else None.

Definition example_f : function :=
  {| __name__ := "f";
     __qualname__ := "f";
     parameters := [("a", Int_protocol SInt8)];
     return_annotation_ :=
       annotated_tuple [Int_protocol UInt32; Int_protocol SInt16] |}.

Definition example_return_struct : native_type :=
  AnonymousStructure
    [CT_tuple [CT_type c_uint32]; CT_tuple [CT_type c_int16]]
    [NT_ctype c_uint32; NT_ctype c_int16].

Definition example_so_f : foreign_function :=
  {| symbol := "_mlir_ciface_f";
     code := example_native;
     restype := None;
     argtypes := [POINTER example_return_struct; by_value (NT_ctype c_int8)] |}.

(** The type tree [((c_uint32,), ((c_int8,), (c_int16,)))], a value tree
    of its shape and the structure that holds it. *)
Definition example_tree : CTypeTreeType :=
  CT_tuple [CT_tuple [CT_type c_uint32];
            CT_tuple [CT_tuple [CT_type c_int8]; CT_tuple [CT_type c_int16]]].

Definition example_values : CTypeTree pyobj :=
  C_tuple [C_tuple [C_val (Raw (PyInt 7))];
           C_tuple [C_tuple [C_val (Raw (PyInt (-1)))];
                    C_tuple [C_val (Raw (PyInt (-2)))]]].

Definition example_instance : cdata pyobj :=
  Instance
    [CT_tuple [CT_type c_uint32];
     CT_tuple [CT_tuple [CT_type c_int8]; CT_tuple [CT_type c_int16]]]
    [(NT_ctype c_uint32, Raw (PyInt 7));
     (AnonymousStructure
        [CT_tuple [CT_type c_int8]; CT_tuple [CT_type c_int16]]
        [NT_ctype c_int8; NT_ctype c_int16],
      Instance [CT_tuple [CT_type c_int8]; CT_tuple [CT_type c_int16]]
        [(NT_ctype c_int8, Raw (PyInt (-1)));
         (NT_ctype c_int16, Raw (PyInt (-2)))])].

End Example_target.

(* ================================================================== *)
(** * Properties *)
(* ================================================================== *)

(* ------------------------------------------------------------------ *)
(** ** Int: construction, casts and argument marshalling *)

Section Int_properties.
Context `{HostFloat}.

Lemma shiftl_1 (w : Z) : Z.shiftl 1 w = 2 ^ w.
Proof. apply Z.shiftl_1_l. Qed.

(** The range that [in_range] tests, bound by bound. *)
Lemma in_range_spec (cls : IntClass) (val : Z) :
  in_range cls val = true <->
  match sign cls with
  | SIGNED => - 2 ^ (width cls - 1) <= val <= 2 ^ (width cls - 1)
  | UNSIGNED => 0 <= val <= 2 ^ width cls - 2
  end.
Proof.
  unfold in_range, val_range.
  destruct (sign cls); cbn [fst snd]; rewrite ?shiftl_1;
    rewrite andb_true_iff, !Z.leb_le; tauto.
Qed.

(** A host int is not a supporter of any class: [cls(z)] runs
    [Int.__init__], also for [Bool]. *)
Lemma call_PyInt (cls : IntClass) (z : Z) :
  call cls (PyInt z) = Int__init__ cls (PyInt z).
Proof.
  unfold call, supporter, init, Bool__init__; cbn.
  destruct (is_Bool cls); reflexivity.
Qed.

(** [Supportable.__call__] on a [Value] or an [OpView] runs [__init__]:
    what [Int_Int] relies on for [_try_casting]. *)
Lemma call_Value (cls : IntClass) (v : Value) :
  call cls (PyValue v) = init cls (PyValue v) /\
  call cls (PyOpView v) = init cls (PyOpView v).
Proof.
  unfold call, supporter; cbn. destruct (is_Bool cls); split; reflexivity.
Qed.

(** [arith.ConstantOp] on a literal of 64 bits, and on another. *)
Lemma arith_ConstantOp_fits (ty : mlir_type) (z : Z) :
  - 2 ^ 63 <= z < 2 ^ 63 ->
  arith_ConstantOp ty z = Return (ConstantOp ty z).
Proof.
  intros [Hlo Hhi]. unfold arith_ConstantOp.
  rewrite (proj2 (Z.leb_le _ _) Hlo), (proj2 (Z.ltb_lt _ _) Hhi).
  reflexivity.
Qed.

Lemma arith_ConstantOp_refuses (ty : mlir_type) (z : Z) :
  z < - 2 ^ 63 \/ 2 ^ 63 <= z ->
  arith_ConstantOp ty z =
  Raise (TypeError "ConstantOp: incompatible function arguments").
Proof.
  intros Hout. unfold arith_ConstantOp.
  destruct Hout as [Hlo | Hhi].
  - rewrite (proj2 (Z.leb_gt _ _) Hlo). reflexivity.
  - rewrite (proj2 (Z.ltb_ge _ _) Hhi), andb_false_r. reflexivity.
Qed.

Lemma arith_ConstantOp_Return (ty : mlir_type) (z : Z) (value : Value) :
  arith_ConstantOp ty z = Return value -> value = ConstantOp ty z.
Proof.
  unfold arith_ConstantOp. destruct (_ && _); [| discriminate].
  intros Heq. injection Heq as <-. reflexivity.
Qed.

(** Construction from a host int that a double can hold: the range test
    and the constant decide. *)
Lemma Int__init__int (cls : IntClass) (z : Z) :
  width cls <> 0 -> double_overflows z = false ->
  Int__init__ cls (PyInt z) =
  if in_range cls z
  then (value <- arith_ConstantOp (lower_class cls) z ;;
        Return (PyObject cls value))
  else Raise (ValueError (str_int z ++ " is out of range for " ++ name cls)).
Proof.
  intros Hw Hz. unfold Int__init__.
  apply Z.eqb_neq in Hw. rewrite Hw. cbn [is_Real py_int bind isclose].
  rewrite Hz. cbn [bind].
  destruct (in_range cls z); reflexivity.
Qed.

(** Construction from any real number: the integer [int(rep)] is what
    the range test is run on and what the constant holds, provided
    [math.isclose(rep, int(rep))]; a real number that is not close to its
    [int] falls to the last case and is a [TypeError]. *)
Lemma Int__init__real (cls : IntClass) (rep : pyobj) (n : Z) :
  width cls <> 0 -> is_Real rep = true -> py_int rep = Return n ->
  forall close, isclose rep n = Return close ->
  Int__init__ cls rep =
  if close
  then
    if in_range cls n
    then (value <- arith_ConstantOp (lower_class cls) n ;;
          Return (PyObject cls value))
    else Raise (ValueError (str_int n ++ " is out of range for " ++ name cls))
  else Raise (TypeError (str_obj rep ++ " cannot be casted as an Int")).
Proof.
  intros Hw Hreal Hint close Hclose. unfold Int__init__.
  apply Z.eqb_neq in Hw. rewrite Hw.
  replace (match rep with PyOpView result => PyValue result | _ => rep end)
    with rep by (destruct rep; try reflexivity; discriminate Hreal).
  rewrite Hreal, Hint. cbn [bind]. rewrite Hclose. cbn [bind].
  destruct close.
  - destruct (in_range cls n); reflexivity.
  - destruct rep; try reflexivity; discriminate Hreal.
Qed.

Lemma small_no_overflow (z : Z) :
  Z.abs z <= 2 ^ 64 -> double_overflows z = false.
Proof.
  intros Hz. unfold double_overflows. apply Z.leb_gt.
  assert (2 ^ 64 < 2 ^ 1024 - 2 ^ 970) by (vm_compute; reflexivity).
  lia.
Qed.

(** On host integers that fit 64 bits the constructor succeeds exactly
    on the range of [val_range], and raises the range error outside. *)
Lemma call_int_iff (cls : IntClass) (z : Z) :
  width cls <> 0 -> - 2 ^ 63 <= z < 2 ^ 63 ->
  ((exists o, call cls (PyInt z) = Return o) <-> in_range cls z = true) /\
  (in_range cls z = false ->
   call cls (PyInt z) =
   Raise (ValueError (str_int z ++ " is out of range for " ++ name cls))).
Proof.
  intros Hw Hz. rewrite call_PyInt.
  rewrite (Int__init__int cls z Hw) by (apply small_no_overflow; lia).
  rewrite (arith_ConstantOp_fits _ z Hz). cbn [bind].
  destruct (in_range cls z); split; try split; try reflexivity;
    try discriminate.
  - intros _. eexists; reflexivity.
  - intros [o Ho]. discriminate Ho.
Qed.

(** Every signed class of width below 64 accepts [2^(width-1)], one more
    than a signed integer of that width can hold. *)
Lemma signed_accepts_two_pow (cls : IntClass) :
  sign cls = SIGNED -> 0 < width cls < 64 ->
  call cls (PyInt (2 ^ (width cls - 1))) =
  Return (PyObject cls (ConstantOp (lower_class cls) (2 ^ (width cls - 1)))).
Proof.
  intros Hs Hw.
  assert (Hpos : 0 < 2 ^ (width cls - 1)) by (apply Z.pow_pos_nonneg; lia).
  assert (Hlt : 2 ^ (width cls - 1) < 2 ^ 63)
    by (apply Z.pow_lt_mono_r; lia).
  rewrite call_PyInt, Int__init__int.
  - assert (Hin : in_range cls (2 ^ (width cls - 1)) = true).
    { apply in_range_spec. rewrite Hs. lia. }
    rewrite Hin, arith_ConstantOp_fits by lia. reflexivity.
  - lia.
  - apply small_no_overflow. rewrite Z.abs_eq by lia.
    assert (2 ^ 63 < 2 ^ 64) by (apply Z.pow_lt_mono_r; lia). lia.
Qed.

(** The unsigned boundary of the specification, on [UInt8]. *)
Lemma UInt8_boundary :
  call UInt8 (PyInt 0) = Return (PyObject UInt8 (ConstantOp (get_signless 8) 0)) /\
  call UInt8 (PyInt 254) = Return (PyObject UInt8 (ConstantOp (get_signless 8) 254)) /\
  call UInt8 (PyInt 255) = Raise (ValueError "255 is out of range for UInt8") /\
  call UInt8 (PyInt (-1)) = Raise (ValueError "-1 is out of range for UInt8").
Proof. repeat split; vm_compute; reflexivity. Qed.

(** C4.  The specification gives signed types the range [-2^(w-1), 2^(w-1)-1] and
    a range error outside it.  [val_range] returns [1 << (width - 1)] as
    the upper bound of a signed type and [in_range] compares with [<=], so
    [SInt8(128)] is in range and is built as the constant 128 of type i8;
    129 is the first value refused. *)
Theorem SInt8_accepts_128 :
  val_range SInt8 = (-128, 128) /\
  in_range SInt8 128 = true /\
  call SInt8 (PyInt 128) =
    Return (PyObject SInt8 (ConstantOp (get_signless 8) 128)) /\
  call SInt8 (PyInt 129) = Raise (ValueError "129 is out of range for SInt8").
Proof. repeat split; vm_compute; reflexivity. Qed.

(** C9.  [Bool(True)] and [Bool(False)] are the constants 1 and 0 of type
    i1; the host integer 1 takes the path of [Int.__init__] and is out of
    the range [(0, 0)] that [val_range] gives an unsigned class of width
    1, a [ValueError]; the host integer 0 is accepted. *)
Theorem Bool_construction :
  call Bool (PyBool true) =
    Return (PyObject Bool (ConstantOp (get_signless 1) 1)) /\
  call Bool (PyBool false) =
    Return (PyObject Bool (ConstantOp (get_signless 1) 0)) /\
  val_range Bool = (0, 0) /\
  call Bool (PyInt 1) = Raise (ValueError "1 is out of range for Bool") /\
  call Bool (PyInt 0) =
    Return (PyObject Bool (ConstantOp (get_signless 1) 0)).
Proof. repeat split; vm_compute; reflexivity. Qed.

(** [Int.to_CType] on an argument that [int()] converts. *)
Lemma Int_to_CType_int (cls : IntClass) (pyval : pyobj) (n : Z) :
  py_int pyval = Return n ->
  Int_to_CType cls pyval =
  if Z.shiftl 1 (width cls) <=? n
  then Raise (TypeError (str_int n ++ " cannot fit into an Int of size " ++
                           str_int (width cls)))
  else if Sign_eqb (sign cls) UNSIGNED && (n <? 0)
  then Raise (ValueError
                ("expected positive pyval for signless Int, got " ++
                 str_int n))
  else Return (C_tuple [C_val (Raw (PyInt n))]).
Proof. intros Hn. unfold Int_to_CType. rewrite Hn. reflexivity. Qed.

Lemma Sign_eqb_UNSIGNED (s : Sign) :
  Sign_eqb s UNSIGNED = true <-> s = UNSIGNED.
Proof. destruct s; cbn; split; congruence. Qed.

(** C10.  [Int.to_CType] raises exactly when [int(pyval)] raises, or
    [2^width <= int(pyval)], or the class is unsigned and the integer is
    negative; otherwise it returns the one-element tuple of the integer.
    So a signed class takes every negative integer and every integer of
    [[2^(w-1), 2^w - 1]]; every integer that [in_range] accepts is taken,
    and some integer is taken that [in_range] refuses. *)
Theorem Int_to_CType_check (cls : IntClass) (Hw : 0 < width cls) :
  (forall pyval : pyobj,
      (exists e, Int_to_CType cls pyval = Raise e) <->
      ((exists e, py_int pyval = Raise e) \/
       (exists n, py_int pyval = Return n /\
                  (2 ^ width cls <= n \/ (sign cls = UNSIGNED /\ n < 0))))) /\
  (forall pyval n,
      py_int pyval = Return n -> n < 2 ^ width cls ->
      (sign cls = SIGNED \/ 0 <= n) ->
      Int_to_CType cls pyval = Return (C_tuple [C_val (Raw (PyInt n))])) /\
  (forall n, sign cls = SIGNED ->
      n < 0 \/ 2 ^ (width cls - 1) <= n <= 2 ^ width cls - 1 ->
      Int_to_CType cls (PyInt n) = Return (C_tuple [C_val (Raw (PyInt n))])) /\
  (forall n, in_range cls n = true ->
      Int_to_CType cls (PyInt n) = Return (C_tuple [C_val (Raw (PyInt n))])) /\
  (exists n, in_range cls n = false /\
      Int_to_CType cls (PyInt n) = Return (C_tuple [C_val (Raw (PyInt n))])).
Proof.
  assert (Hpos : 0 < 2 ^ width cls) by (apply Z.pow_pos_nonneg; lia).
  assert (Hhalf : 2 ^ width cls = 2 * 2 ^ (width cls - 1)).
  { replace (width cls) with (Z.succ (width cls - 1)) at 1 by lia.
    apply Z.pow_succ_r. lia. }
  assert (Haccept : forall pyval n,
             py_int pyval = Return n -> n < 2 ^ width cls ->
             (sign cls = SIGNED \/ 0 <= n) ->
             Int_to_CType cls pyval = Return (C_tuple [C_val (Raw (PyInt n))])).
  { intros pyval n Hn Hlt Hs. rewrite (Int_to_CType_int _ _ _ Hn), shiftl_1.
    apply Z.leb_gt in Hlt. rewrite Hlt.
    destruct Hs as [Hs | Hs].
    - rewrite Hs. reflexivity.
    - apply Z.ltb_ge in Hs. rewrite Hs, andb_false_r. reflexivity. }
  split; [| split; [exact Haccept | split; [| split]]].
  - intros pyval. split.
    + intros [e He]. destruct (py_int pyval) as [n | e' |] eqn:Hn.
      * right. exists n. split; [reflexivity |].
        rewrite (Int_to_CType_int _ _ _ Hn), shiftl_1 in He.
        destruct (2 ^ width cls <=? n) eqn:Hfit.
        { left. apply Z.leb_le. exact Hfit. }
        destruct (Sign_eqb (sign cls) UNSIGNED && (n <? 0)) eqn:Hneg;
          [| discriminate].
        apply andb_true_iff in Hneg. destruct Hneg as [Hs Hlt].
        right. split; [apply Sign_eqb_UNSIGNED; exact Hs | apply Z.ltb_lt; exact Hlt].
      * left. exists e'. reflexivity.
      * unfold Int_to_CType in He. rewrite Hn in He. discriminate He.
    + intros [[e' Hno] | [n [Hn Hbad]]].
      * unfold Int_to_CType. rewrite Hno. eexists; reflexivity.
      * rewrite (Int_to_CType_int _ _ _ Hn), shiftl_1.
        destruct (2 ^ width cls <=? n) eqn:Hfit; [eexists; reflexivity |].
        apply Z.leb_gt in Hfit.
        destruct Hbad as [Hbig | [Hs Hlt]]; [lia |].
        rewrite Hs. apply Z.ltb_lt in Hlt. rewrite Hlt. cbn.
        eexists; reflexivity.
  - intros n Hs Hn. apply Haccept; [reflexivity | lia | left; exact Hs].
  - intros n Hin. apply in_range_spec in Hin.
    assert (0 < 2 ^ (width cls - 1)) by (apply Z.pow_pos_nonneg; lia).
    destruct (sign cls) eqn:Hs.
    + apply Haccept; [reflexivity | lia | left; reflexivity].
    + apply Haccept; [reflexivity | lia | right; lia].
  - assert (0 < 2 ^ (width cls - 1)) by (apply Z.pow_pos_nonneg; lia).
    destruct (sign cls) eqn:Hs.
    + exists (- 2 ^ (width cls - 1) - 1). split.
      * apply not_true_is_false. intros Hin. apply in_range_spec in Hin.
        rewrite Hs in Hin. lia.
      * apply Haccept; [reflexivity | lia | left; reflexivity].
    + exists (2 ^ width cls - 1). split.
      * apply not_true_is_false. intros Hin. apply in_range_spec in Hin.
        rewrite Hs in Hin. lia.
      * apply Haccept; [reflexivity | lia | right; lia].
Qed.

Lemma init_Value (cls : IntClass) (v : Value) :
  well_formed cls v ->
  init cls (PyValue v) = Return (PyObject cls v) /\
  init cls (PyOpView v) = Return (PyObject cls v).
Proof.
  intros [Hw Hty].
  assert (Hz : (width cls =? 0) = false) by (apply Z.eqb_neq; lia).
  unfold init, Bool__init__, Int__init__, _init_from_mlir_value.
  rewrite Hz. cbn. rewrite Hty. unfold get_signless.
  rewrite Z.eqb_refl. cbn.
  destruct (is_Bool cls); split; reflexivity.
Qed.

(** C5.  [Int.Int] on a well-formed instance: to a class of the same sign
    and an equal or greater width the cast returns an instance of the
    target, holding the same value at equal width and its sign or zero
    extension at a greater width; to a class of another sign or of a
    smaller width it raises a [TypeError]. *)
Theorem Int_Int_widening (self_cls : IntClass) (self_value : Value)
  (target_type : IntClass) (Hwf : well_formed self_cls self_value) :
  (sign target_type = sign self_cls /\
   width self_cls <= width target_type ->
   Int_Int self_cls self_value target_type =
   Return (PyObject target_type
             (if width target_type =? width self_cls
              then self_value
              else arith_Ext
                     (match sign self_cls with
                      | SIGNED => ExtSIOp
                      | UNSIGNED => ExtUIOp
                      end)
                     (get_signless (width target_type)) self_value))) /\
  (sign target_type <> sign self_cls \/
   width target_type < width self_cls ->
   exists msg, Int_Int self_cls self_value target_type =
               Raise (TypeError msg)).
Proof.
  destruct Hwf as [Hw Hty]. split.
  - intros [Hs Hle]. unfold Int_Int. rewrite Hs.
    replace (Sign_eqb (sign self_cls) (sign self_cls)) with true
      by (destruct (sign self_cls); reflexivity).
    cbn [negb].
    assert (Hlt : (width target_type <? width self_cls) = false)
      by (apply Z.ltb_ge; exact Hle).
    rewrite Hlt.
    destruct (width target_type =? width self_cls) eqn:Heq.
    + apply Z.eqb_eq in Heq.
      apply init_Value. split; [lia | rewrite Heq; exact Hty].
    + assert (Hwf' : forall op, well_formed target_type
                (arith_Ext op (lower_class target_type) self_value)).
      { intros op. split; [apply Z.eqb_neq in Heq; lia | reflexivity]. }
      destruct (sign self_cls); apply init_Value; apply Hwf'.
  - intros Hbad. unfold Int_Int.
    destruct (Sign_eqb (sign target_type) (sign self_cls)) eqn:Hs; cbn [negb].
    + destruct Hbad as [Hne | Hlt].
      * exfalso. apply Hne.
        destruct (sign target_type), (sign self_cls);
          cbn in Hs; congruence.
      * apply Z.ltb_lt in Hlt. rewrite Hlt. eexists; reflexivity.
    + eexists; reflexivity.
Qed.

(** What a cast through the constructor, [target_type(x)], does for an
    instance [x] and a target other than [Bool]: [Int.Int]. *)
Lemma call_instance (target_type self_cls : IntClass) (self_value : Value) :
  is_Bool target_type = false ->
  call target_type (PyObject self_cls self_value) =
  Int_Int self_cls self_value target_type.
Proof. intros Hb. unfold call, supporter. rewrite Hb. reflexivity. Qed.

(** Every instance that a constructor call returns is well formed, when
    the class is: the hypothesis of the cast theorem holds of all the
    instances the code builds from host numbers and MLIR values. *)
Lemma init_well_formed (cls : IntClass) (rep : pyobj) (c : IntClass)
  (v : Value) :
  0 < width cls -> (is_Bool cls = true -> width cls = 1) ->
  init cls rep = Return (PyObject c v) ->
  c = cls /\ well_formed cls v.
Proof.
  intros Hw Hb Hinit.
  assert (Hint : forall rep, Int__init__ cls rep = Return (PyObject c v) ->
                             c = cls /\ well_formed cls v).
  { clear Hinit rep. intros rep. unfold Int__init__.
    destruct (width cls =? 0); [discriminate |].
    assert (Hv : forall v', _init_from_mlir_value cls v' =
                            Return (PyObject c v) ->
                            c = cls /\ well_formed cls v).
    { intros v'. unfold _init_from_mlir_value.
      destruct (type_of v') as [w sl | | | |] eqn:Hty; try discriminate.
      destruct (w =? width cls) eqn:Hwe; cbn [negb]; [| discriminate].
      destruct sl; cbn [negb]; [| discriminate].
      intros Heq. injection Heq as <- <-. apply Z.eqb_eq in Hwe. subst w.
      split; [reflexivity | split; [exact Hw | exact Hty]]. }
    assert (Hother : forall rep',
      match rep' with
      | PyValue v' => _init_from_mlir_value cls v'
      | _ => Raise (TypeError (str_obj rep' ++ " cannot be casted as an Int"))
      end = Return (PyObject c v) -> c = cls /\ well_formed cls v).
    { intros rep'. destruct rep'; try discriminate. apply Hv. }
    set (rep' := match rep with PyOpView result => PyValue result | _ => rep end).
    destruct (is_Real rep'); [| apply Hother].
    destruct (py_int rep') as [n | |]; cbn [bind]; try discriminate.
    destruct (isclose rep' n) as [[|] | |]; cbn [bind]; try discriminate;
      [| apply Hother].
    destruct (in_range cls n); cbn [negb]; [| discriminate].
    destruct (arith_ConstantOp (lower_class cls) n) as [value | |] eqn:Hvalue;
      cbn [bind]; try discriminate.
    apply arith_ConstantOp_Return in Hvalue. subst value.
    intros Heq. injection Heq as <- <-.
    split; [reflexivity | split; [exact Hw | reflexivity]]. }
  unfold init in Hinit. destruct (is_Bool cls) eqn:Hbool; [| apply Hint with rep; exact Hinit].
  unfold Bool__init__ in Hinit.
  destruct rep; try (apply Hint in Hinit; exact Hinit).
  destruct (arith_ConstantOp (get_signless 1) (if b then 1 else 0))
    as [value | |] eqn:Hvalue; cbn [bind] in Hinit; try discriminate Hinit.
  apply arith_ConstantOp_Return in Hvalue. subst value.
  injection Hinit as <- <-.
  split; [reflexivity | split; [exact Hw |]].
  rewrite (Hb eq_refl). reflexivity.
Qed.

End Int_properties.

Section Int_examples.
#[local] Existing Instance no_float.

Lemma Int_to_CType_check_witness :
  0 < width SInt8 /\
  Int_to_CType SInt8 (PyInt (-100000)) =
    Return (C_tuple [C_val (Raw (PyInt (-100000)))]).
Proof.
  split; [reflexivity |].
  apply (proj1 (proj2 (proj2 (Int_to_CType_check SInt8 eq_refl)))).
  - reflexivity.
  - left. reflexivity.
Defined.

Lemma SInt8_value_well_formed :
  well_formed SInt8 (ConstantOp (get_signless 8) 5).
Proof. split; reflexivity. Defined.

Lemma Int_Int_widening_witness :
  well_formed SInt8 (ConstantOp (get_signless 8) 5) /\
  Int_Int SInt8 (ConstantOp (get_signless 8) 5) SInt8 =
    Return (PyObject SInt8 (ConstantOp (get_signless 8) 5)) /\
  (exists msg, Int_Int SInt8 (ConstantOp (get_signless 8) 5) SInt4 =
               Raise (TypeError msg)) /\
  (exists msg, Int_Int SInt8 (ConstantOp (get_signless 8) 5) UInt8 =
               Raise (TypeError msg)).
Proof.
  split; [exact SInt8_value_well_formed |].
  split; [| split].
  - apply (proj1 (Int_Int_widening SInt8 _ SInt8 SInt8_value_well_formed)).
    split; [reflexivity | discriminate].
  - apply (proj2 (Int_Int_widening SInt8 _ SInt4 SInt8_value_well_formed)).
    right. reflexivity.
  - apply (proj2 (Int_Int_widening SInt8 _ UInt8 SInt8_value_well_formed)).
    left. discriminate.
Defined.

End Int_examples.

(* ------------------------------------------------------------------ *)
(** ** Number: the generated binary operators *)

Section Number_properties.
Context `{HostOperator}.

(** The loop leaves the last entry of a name; when all the entries of
    that name are one entry, the order does not matter. *)
Lemma setattr_loop_fold (attr : string) (tup : BinNumberOp)
  (order : list BinNumberOp) :
  (forall t, In t order -> ldunder_name t = attr -> t = tup) ->
  forall found,
    fold_left
      (fun found t =>
         if String.eqb (ldunder_name t) attr then Some t else found)
      order found =
    if existsb (fun t => String.eqb (ldunder_name t) attr) order
    then Some tup else found.
Proof.
  induction order as [| t order IH]; intros Huniq found; [reflexivity |].
  cbn [fold_left existsb].
  rewrite IH by (intros t' Hin; apply Huniq; right; exact Hin).
  destruct (String.eqb (ldunder_name t) attr) eqn:Hname; cbn [orb].
  - apply String.eqb_eq in Hname.
    rewrite (Huniq t (or_introl eq_refl) Hname).
    destruct (existsb _ order); reflexivity.
  - reflexivity.
Qed.

Lemma setattr_loop_unique (order : list BinNumberOp) (tup : BinNumberOp) :
  Permutation order bin_number_op ->
  In tup bin_number_op ->
  (forall t, In t bin_number_op ->
             ldunder_name t = ldunder_name tup -> t = tup) ->
  setattr_loop order (ldunder_name tup) = Some tup.
Proof.
  intros Hperm Hin Huniq. unfold setattr_loop.
  rewrite (setattr_loop_fold (ldunder_name tup) tup).
  - replace (existsb _ order) with true; [reflexivity |].
    symmetry. apply existsb_exists. exists tup. split.
    + apply (Permutation_in _ (Permutation_sym Hperm)). exact Hin.
    + apply String.eqb_refl.
  - intros t Ht. apply Huniq. apply (Permutation_in _ Hperm). exact Ht.
Qed.

Ltac only_entry :=
  intros t Hin Hname; cbn in Hin;
  repeat (destruct Hin as [<- | Hin]; [try discriminate Hname; try reflexivity |]);
  contradiction.

Lemma op_eq_entry (order : list BinNumberOp) :
  Permutation order bin_number_op ->
  setattr_loop order "op_eq" = Some entry_op_eq.
Proof.
  intros Hperm. apply (setattr_loop_unique order entry_op_eq Hperm).
  - cbn. tauto.
  - only_entry.
Qed.

Lemma op_lt_entry (order : list BinNumberOp) :
  Permutation order bin_number_op ->
  setattr_loop order "op_lt" = Some entry_op_lt.
Proof.
  intros Hperm. apply (setattr_loop_unique order entry_op_lt Hperm).
  - cbn. tauto.
  - only_entry.
Qed.

(** Two [Number]s: the host function of the entry is applied to the two
    wrapped values and the result goes to [default_ret_type]. *)
Lemma generic_bin_op_folds (tup : BinNumberOp) (a b : pyobj) :
  generic_bin_op tup a (PyNumber b) =
  (r <- host_apply (internal_op tup) a b ;;
   construct (default_ret_type tup) r).
Proof. reflexivity. Qed.

(** A right operand that is an instance of an [Int] subclass: its method
    of the reflected name is called on the [Number]. *)
Lemma generic_bin_op_delegates (tup : BinNumberOp) (a : pyobj)
  (cls : IntClass) (v : Value) :
  generic_bin_op tup a (PyObject cls v) =
  getattr_call (PyObject cls v) (rdunder_name tup) (PyNumber a).
Proof. reflexivity. Qed.

(** [Number(a).op_lt(Number(b))] on host integers is [Bool(a < b)],
    whatever the order of the loop. *)
Lemma Number_op_lt (order : list BinNumberOp) (a b : Z) :
  Permutation order bin_number_op ->
  Number_call order "op_lt" (PyInt a) (PyNumber (PyInt b)) =
  Return (PyObject Bool
            (ConstantOp (get_signless 1) (if a <? b then 1 else 0))).
Proof.
  intros Hperm. unfold Number_call. rewrite (op_lt_entry order Hperm).
  cbn. destruct (a <? b); reflexivity.
Qed.

(** C7.  The specification has [a.op_eq(b)] give the [Bool] of [a.value ==
    b.value].  The entry of the table under the name [op_eq] holds
    [operator.le], and it is the only entry of that name, so in whatever
    order the loop runs over the set, [Number(a).op_eq(Number(b))] on
    host integers is the [Bool] of [a <= b]. *)
Theorem Number_op_eq_applies_le (order : list BinNumberOp) (a b : Z)
  (Hperm : Permutation order bin_number_op) :
  Number_call order "op_eq" (PyInt a) (PyNumber (PyInt b)) =
  Return (PyObject Bool
            (ConstantOp (get_signless 1) (if a <=? b then 1 else 0))).
Proof.
  unfold Number_call. rewrite (op_eq_entry order Hperm).
  cbn. destruct (a <=? b); reflexivity.
Qed.

End Number_properties.

Section Number_examples.
#[local] Existing Instance no_float.
#[local] Existing Instance no_float_operator.

(** [Number(1).op_eq(Number(2))] is the constant 1 of type i1, a true
    [Bool], while [1 == 2] is [False]. *)
Lemma Number_op_eq_applies_le_witness :
  Permutation bin_number_op bin_number_op /\
  Number_call bin_number_op "op_eq" (PyInt 1) (PyNumber (PyInt 2)) =
    Return (PyObject Bool (ConstantOp (get_signless 1) 1)) /\
  host_apply operator_eq (PyInt 1) (PyInt 2) = Return (PyBool false).
Proof.
  split; [apply Permutation_refl |].
  split; [| reflexivity].
  apply (Number_op_eq_applies_le bin_number_op 1 2 (Permutation_refl _)).
Defined.

End Number_examples.

(* ------------------------------------------------------------------ *)
(** ** The marshaller *)

(** Induction on a type tree, with the property at hand for every item
    of a tuple. *)
Lemma CTypeTreeType_tree_ind (P : CTypeTreeType -> Prop) :
  (forall t, P (CT_type t)) ->
  (forall ts, Forall P ts -> P (CT_tuple ts)) ->
  forall ct, P ct.
Proof.
  intros Hleaf Htuple.
  fix IH 1. intros [t | ts].
  - apply Hleaf.
  - apply Htuple. induction ts as [| t ts IHts]; constructor.
    + apply IH.
    + exact IHts.
Qed.

Section Marshaller_properties.
Context {pyval : Type} `{Ctypes pyval}.

Lemma CTypeTreeType_to_Structure_eq (ts : list CTypeTreeType) :
  CTypeTreeType_to_Structure (CT_tuple ts) =
  match ts with
  | [t0] => child_type t0
  | _ => ct_recursive <- each child_type ts ;;
         Return (AnonymousStructure ts ct_recursive)
  end.
Proof. destruct ts as [| t0 [| t1 ts]]; reflexivity. Qed.

(** The class that [CTypeTreeType_to_Structure] returns is the collapsed
    shape of the tree; it never raises on a tuple. *)
Lemma child_type_collapse (t : CTypeTreeType) :
  child_type t = Return (collapse t).
Proof.
  induction t as [c | ts IH] using CTypeTreeType_tree_ind; [reflexivity |].
  assert (Heach : each child_type ts = Return (map collapse ts)).
  { induction IH as [| t ts Ht _ IHts]; [reflexivity |].
    cbn [each map]. rewrite Ht, IHts. reflexivity. }
  unfold child_type. rewrite CTypeTreeType_to_Structure_eq.
  destruct ts as [| t0 [| t1 ts]].
  - reflexivity.
  - inversion IH; subst. assumption.
  - rewrite Heach. reflexivity.
Qed.

Lemma CTypeTreeType_to_Structure_collapse (ts : list CTypeTreeType) :
  CTypeTreeType_to_Structure (CT_tuple ts) = Return (collapse (CT_tuple ts)).
Proof. exact (child_type_collapse (CT_tuple ts)). Qed.

Lemma CTypeTree_to_Structure_eq (ts : list CTypeTreeType)
  (cs : list (CTypeTree pyval)) :
  CTypeTree_to_Structure (CT_tuple ts) (C_tuple cs) =
  if negb (List.length ts =? List.length cs)%nat
  then Raise length_mismatch
  else
    match ts, cs with
    | [t0], [c0] => child_to t0 c0
    | _, _ =>
        c_recursive <- each2 child_to ts cs ;;
        cls <- CTypeTreeType_to_Structure (CT_tuple ts) ;;
        call_class cls c_recursive
    end.
Proof. destruct ts as [| t0 [| t1 ts]]; reflexivity. Qed.

Lemma CTypeTree_from_Structure_eq (ts ct : list CTypeTreeType)
  (members : list (native_type * cdata pyval)) :
  CTypeTree_from_Structure (CT_tuple ts) (Instance ct members) =
  (shells <- tuple_shell_loop 0 (CT_tuple ts) ;;
   let '(num_tuple_shell, ct') := shells in
   let ts' := match ct' with CT_tuple ts' => ts' | CT_type _ => [] end in
   if negb (List.length ts' =? List.length members)%nat
   then Raise (TypeError
                 "length mismatch when converting back from Structure")
   else
     ret <- each2 member_from members ts' ;;
     Return (add_shells num_tuple_shell (C_tuple ret))).
Proof. reflexivity. Qed.

(** *** Identity of generated classes *)

Lemma ctype_eqb_refl (t : ctype) : ctype_eqb t t = true.
Proof. destruct t; reflexivity. Qed.

Lemma CTypeTreeType_eqb_refl (ct : CTypeTreeType) :
  CTypeTreeType_eqb ct ct = true.
Proof.
  induction ct as [t | ts IH] using CTypeTreeType_tree_ind.
  - apply ctype_eqb_refl.
  - cbn [CTypeTreeType_eqb].
    induction IH as [| t ts Ht _ IHts]; [reflexivity |].
    cbn [all2]. rewrite Ht, IHts. reflexivity.
Qed.

Lemma native_type_tree_ind (P : native_type -> Prop) :
  (forall t, P (NT_ctype t)) ->
  (forall ct fields, Forall P fields -> P (AnonymousStructure ct fields)) ->
  forall st, P st.
Proof.
  intros Hleaf Hstruct.
  fix IH 1. intros [t | ct fields].
  - apply Hleaf.
  - apply Hstruct. induction fields as [| f fields IHf]; constructor.
    + apply IH.
    + exact IHf.
Qed.

Lemma native_type_eqb_refl (st : native_type) : native_type_eqb st st = true.
Proof.
  induction st as [t | ct fields IH] using native_type_tree_ind.
  - apply ctype_eqb_refl.
  - cbn [native_type_eqb]. rewrite CTypeTreeType_eqb_refl. cbn [andb].
    induction IH as [| f fields Hf _ IHf]; [reflexivity |].
    cbn [all2]. rewrite Hf, IHf. reflexivity.
Qed.

Lemma ctype_eqb_eq (t u : ctype) : ctype_eqb t u = true -> t = u.
Proof. destruct t, u; intros Heq; try discriminate Heq; reflexivity. Qed.

Lemma CTypeTreeType_eqb_eq (t : CTypeTreeType) :
  forall u, CTypeTreeType_eqb t u = true -> t = u.
Proof.
  induction t as [c | ts IH] using CTypeTreeType_tree_ind;
    intros [d | us] Heq; try discriminate Heq.
  - f_equal. apply ctype_eqb_eq. exact Heq.
  - f_equal. cbn [CTypeTreeType_eqb] in Heq. revert us Heq.
    induction IH as [| t ts Ht _ IHts]; intros [| u us] Heq;
      try discriminate Heq; [reflexivity |].
    cbn [all2] in Heq.
    apply andb_true_iff in Heq. destruct Heq as [Htu Hrest].
    f_equal; [apply Ht; exact Htu | apply IHts; exact Hrest].
Qed.

Lemma native_type_eqb_eq (a : native_type) :
  forall b, native_type_eqb a b = true -> a = b.
Proof.
  induction a as [t | cta fa IH] using native_type_tree_ind;
    intros [u | ctb fb] Heq; try discriminate Heq.
  - f_equal. apply ctype_eqb_eq. exact Heq.
  - cbn [native_type_eqb] in Heq. apply andb_true_iff in Heq.
    destruct Heq as [Hct Hf]. f_equal.
    + apply CTypeTreeType_eqb_eq in Hct. injection Hct as ->. reflexivity.
    + revert fb Hf. induction IH as [| f fa Hf' _ IHfa]; intros [| g fb] Heq;
        try discriminate Heq; [reflexivity |].
      cbn [all2] in Heq.
      apply andb_true_iff in Heq. destruct Heq as [Hfg Hrest].
      f_equal; [apply Hf'; exact Hfg | apply IHfa; exact Hrest].
Qed.

(** A structure instance of the class of a field is stored as it is. *)
Lemma set_field_instance (ct : list CTypeTreeType)
  (members : list (native_type * cdata pyval)) :
  set_field (AnonymousStructure ct (map fst members)) (Instance ct members) =
  Return (Instance ct members).
Proof. unfold set_field. rewrite native_type_eqb_refl. reflexivity. Qed.

(** *** The loops over tuple shells *)

Lemma member_shell_loop_acc (t : CTypeTreeType) (k : nat) :
  member_shell_loop k t =
  ((k + fst (member_shell_loop 0 t))%nat, snd (member_shell_loop 0 t)).
Proof.
  revert k.
  induction t as [c | ts IH] using CTypeTreeType_tree_ind; intros k.
  - cbn. rewrite Nat.add_0_r. reflexivity.
  - destruct ts as [| t0 [| t1 ts]]; cbn [member_shell_loop fst snd];
      rewrite ?Nat.add_0_r; try reflexivity.
    inversion IH as [| ? ? Ht0 _]; subst.
    rewrite (Ht0 (S k)), (Ht0 1%nat). cbn [fst snd].
    f_equal. lia.
Qed.

Lemma member_shell_loop_shell (t0 : CTypeTreeType) :
  member_shell_loop 0 (CT_tuple [t0]) =
  (S (fst (member_shell_loop 0 t0)), snd (member_shell_loop 0 t0)).
Proof.
  cbn [member_shell_loop]. rewrite member_shell_loop_acc. reflexivity.
Qed.

Lemma add_shells_S (n : nat) (val : CTypeTree pyval) :
  add_shells (S n) val = C_tuple [add_shells n val].
Proof. reflexivity. Qed.

(** A member under one more shell: the same member, with the shell put
    back around what is read. *)
Lemma member_from_shell (member : native_type * cdata pyval)
  (t0 : CTypeTreeType) :
  member_from member (CT_tuple [t0]) =
  (r <- member_from member t0 ;; Return (C_tuple [r])).
Proof.
  unfold member_from. destruct member as [st field].
  rewrite member_shell_loop_shell.
  destruct (member_shell_loop 0 t0) as [k t']. cbn [fst snd].
  destruct (if is_Structure_class st
            then CTypeTree_from_Structure t' field
            else Return (C_val field)) as [val | e |]; cbn [bind];
    try reflexivity.
  destruct (negb (is_Structure_class st) && differs t' st); reflexivity.
Qed.

Lemma all2_length {A B : Type} (f : A -> B -> bool) (la : list A)
  (lb : list B) :
  all2 f la lb = true -> List.length la = List.length lb.
Proof.
  revert lb. induction la as [| a la IH]; intros [| b lb] Hall;
    try discriminate; [reflexivity |].
  cbn in Hall. apply andb_true_iff in Hall. destruct Hall as [_ Hall].
  cbn. f_equal. apply IH. exact Hall.
Qed.

(** *** One node of the conversion, there and back *)

Lemma members_correct (ts : list CTypeTreeType) :
  Forall node_correct ts ->
  forall cs : list (CTypeTree pyval),
    forallb plain cs = true -> all_zip accepted ts cs = true ->
    List.length ts = List.length cs ->
    (all2 same_shape ts cs = true ->
     exists c_recursive members,
       each2 child_to ts cs = Return c_recursive /\
       init_fields (map collapse ts) c_recursive = Return members /\
       map fst members = map collapse ts /\
       each2 member_from members ts = Return (zip_with stored ts cs)) /\
    (all2 same_shape ts cs = false ->
     each2 child_to ts cs = Raise depth_mismatch \/
     each2 child_to ts cs = Raise length_mismatch).
Proof.
  induction 1 as [| t ts Ht _ IH]; intros [| c cs] Hplain Haccepted Hlen;
    try discriminate Hlen.
  - split; [| discriminate]. intros _. exists [], []. repeat split.
  - cbn in Hplain. apply andb_true_iff in Hplain.
    destruct Hplain as [Hc Hcs]. injection Hlen as Hlen.
    cbn [all_zip] in Haccepted. apply andb_true_iff in Haccepted.
    destruct Haccepted as [Hac Hacs].
    destruct (Ht c Hc Hac) as [Hsame Hdiff].
    destruct (IH cs Hcs Hacs Hlen) as [IHsame IHdiff].
    cbn [all2 each2].
    destruct (same_shape t c) eqn:Hshape; cbn [andb].
    + destruct (Hsame eq_refl) as (s & s' & Hto & Hset & Hfrom).
      rewrite Hto. cbn [bind]. split.
      * intros Hall.
        destruct (IHsame Hall) as (c_rec & members & Heach & Hinit & Hfst & Hback).
        exists (s :: c_rec), ((collapse t, s') :: members).
        rewrite Heach. cbn [bind map init_fields].
        rewrite Hset, Hinit. cbn [bind map fst each2 zip_with].
        rewrite Hfst, Hfrom, Hback. repeat split.
      * intros Hall. destruct (IHdiff Hall) as [He | He]; rewrite He;
          [left | right]; reflexivity.
    + split; [discriminate |]. intros _.
      destruct (Hdiff eq_refl) as [He | He]; rewrite He;
        [left | right]; reflexivity.
Qed.

(** A tuple that is not of length 1 becomes an instance of its own
    generated class. *)
Lemma collapse_struct (ts : list CTypeTreeType) :
  List.length ts <> 1%nat ->
  collapse (CT_tuple ts) = AnonymousStructure ts (map collapse ts).
Proof. destruct ts as [| t0 [| t1 ts]]; intros Hlen; [| contradiction |]; reflexivity. Qed.

Lemma CTypeTree_to_Structure_struct (ts : list CTypeTreeType)
  (cs : list (CTypeTree pyval)) :
  List.length ts <> 1%nat -> List.length ts = List.length cs ->
  CTypeTree_to_Structure (CT_tuple ts) (C_tuple cs) =
  (c_recursive <- each2 child_to ts cs ;;
   members <- init_fields (map collapse ts) c_recursive ;;
   Return (Instance ts members)).
Proof.
  intros Hone Hlen. rewrite CTypeTree_to_Structure_eq.
  rewrite (proj2 (Nat.eqb_eq _ _) Hlen). cbn [negb].
  rewrite CTypeTreeType_to_Structure_collapse, (collapse_struct ts Hone).
  destruct ts as [| t0 [| t1 ts]]; [| contradiction |];
    destruct cs as [| c0 [| c1 cs]]; try discriminate Hlen; reflexivity.
Qed.

Lemma CTypeTree_from_Structure_struct (ts ct : list CTypeTreeType)
  (members : list (native_type * cdata pyval)) :
  List.length ts <> 1%nat -> List.length ts = List.length members ->
  CTypeTree_from_Structure (CT_tuple ts) (Instance ct members) =
  (ret <- each2 member_from members ts ;; Return (C_tuple ret)).
Proof.
  intros Hone Hlen. rewrite CTypeTree_from_Structure_eq.
  assert (Hloop : tuple_shell_loop 0 (CT_tuple ts) = Return (0%nat, CT_tuple ts)).
  { destruct ts as [| t0 [| t1 ts]]; [| contradiction |]; reflexivity. }
  rewrite Hloop. cbn [bind].
  rewrite (proj2 (Nat.eqb_eq _ _) Hlen). reflexivity.
Qed.

Lemma member_from_struct (ts ct : list CTypeTreeType)
  (fields : list native_type) (field : cdata pyval) :
  List.length ts <> 1%nat ->
  member_from (AnonymousStructure ct fields, field) (CT_tuple ts) =
  CTypeTree_from_Structure (CT_tuple ts) field.
Proof.
  intros Hone. unfold member_from.
  assert (Hloop : member_shell_loop 0 (CT_tuple ts) = (0%nat, CT_tuple ts)).
  { destruct ts as [| t0 [| t1 ts]]; [| contradiction |]; reflexivity. }
  rewrite Hloop. cbn [is_Structure_class negb andb].
  destruct (CTypeTree_from_Structure (CT_tuple ts) field); reflexivity.
Qed.

Lemma node_correct_all (t : CTypeTreeType) : node_correct t.
Proof.
  induction t as [c | ts IH] using CTypeTreeType_tree_ind.
  - (* a ctypes class *)
    intros [o | cs] Hplain Haccepted.
    + split; [| discriminate]. intros _.
      destruct o as [x | ? ?]; [| discriminate Hplain].
      cbn [accepted] in Haccepted.
      exists (Raw x), (Raw (ctypes_set c x)).
      split; [reflexivity |].
      split; [cbn [collapse set_field]; rewrite Haccepted; reflexivity |].
      unfold member_from. cbn. rewrite ctype_eqb_refl. reflexivity.
    + split; [discriminate |]. intros _. left. reflexivity.
  - (* a tuple *)
    intros [o | cs] Hplain Haccepted.
    + split; [discriminate |]. intros _. left. reflexivity.
    + cbn [plain] in Hplain. cbn [accepted] in Haccepted. cbn [same_shape].
      destruct (Nat.eq_dec (List.length ts) (List.length cs)) as [Hlen | Hlen].
      2:{ unfold child_to. rewrite CTypeTree_to_Structure_eq.
          rewrite (proj2 (Nat.eqb_neq _ _) Hlen). cbn [negb].
          split; [| intros _; right; reflexivity].
          intros Hall. apply all2_length in Hall. contradiction. }
      destruct (Nat.eq_dec (List.length ts) 1) as [Hone | Hone].
      * (* one element: the node is transparent *)
        destruct ts as [| t0 [| t1 ts]]; try discriminate Hone.
        destruct cs as [| c0 [| c1 cs]]; try discriminate Hlen.
        inversion IH as [| ? ? Ht0 _]; subst.
        cbn [plain forallb] in Hplain. rewrite andb_true_r in Hplain.
        cbn [all_zip] in Haccepted. rewrite andb_true_r in Haccepted.
        destruct (Ht0 c0 Hplain Haccepted) as [Hsame Hdiff].
        cbn [all2]. rewrite andb_true_r.
        assert (Hnode : child_to (CT_tuple [t0]) (C_tuple [c0]) =
                        child_to t0 c0) by reflexivity.
        rewrite Hnode.
        split; [| exact Hdiff].
        intros Hshape.
        destruct (Hsame Hshape) as (s & s' & Hto & Hset & Hfrom).
        exists s, s'. split; [exact Hto |]. split; [exact Hset |].
        cbn [collapse]. rewrite member_from_shell, Hfrom. reflexivity.
      * (* a structure *)
        destruct (members_correct ts IH cs Hplain Haccepted Hlen)
          as [Hsame Hdiff].
        unfold child_to.
        rewrite (CTypeTree_to_Structure_struct ts cs Hone Hlen).
        split.
        -- intros Hall.
           destruct (Hsame Hall)
             as (c_rec & members & Heach & Hinit & Hfst & Hback).
           exists (Instance ts members), (Instance ts members).
           rewrite Heach. cbn [bind]. rewrite Hinit. cbn [bind].
           split; [reflexivity |].
           rewrite (collapse_struct ts Hone), <- Hfst.
           split; [apply set_field_instance |].
           rewrite (member_from_struct ts _ _ _ Hone).
           rewrite (CTypeTree_from_Structure_struct ts ts members Hone).
           ++ rewrite Hback. reflexivity.
           ++ rewrite <- (length_map collapse ts), <- Hfst, length_map.
              reflexivity.
        -- intros Hall. destruct (Hdiff Hall) as [He | He]; rewrite He;
             [left | right]; reflexivity.
Qed.

(** *** Shape errors *)



Lemma each2_Diverge {A B C : Type} (g : A -> B -> outcome C) (la : list A)
  (lb : list B) :
  each2 g la lb = Diverge ->
  exists a b, In a la /\ In b lb /\ g a b = Diverge.
Proof.
  revert lb. induction la as [| a la IH]; intros [| b lb] Heach;
    try discriminate Heach.
  cbn [each2] in Heach. destruct (g a b) as [c | e |] eqn:Hg;
    cbn [bind] in Heach; try discriminate Heach.
  - destruct (each2 g la lb) as [cs | e |] eqn:Hrest; cbn [bind] in Heach;
      try discriminate Heach.
    destruct (IH lb Hrest) as (a' & b' & Ha & Hb & Hg').
    exists a', b'. repeat split; [right | right |]; assumption.
  - exists a, b. repeat split; [left | left |]; trivial.
Qed.





Lemma child_to_tuple (ct : CTypeTreeType) (c : CTypeTree pyval) :
  is_tuple ct = true -> child_to ct c = CTypeTree_to_Structure ct c.
Proof. destruct ct; [discriminate | reflexivity]. Qed.





(** *** Round trip *)

Lemma tuple_shell_loop_acc (t : CTypeTreeType) (k : nat) :
  tuple_shell_loop k t =
  (r <- tuple_shell_loop 0 t ;; Return ((k + fst r)%nat, snd r)).
Proof.
  revert k.
  induction t as [c | ts IH] using CTypeTreeType_tree_ind; intros k.
  - cbn. rewrite Nat.add_0_r. reflexivity.
  - destruct ts as [| t0 [| t1 ts]]; cbn [tuple_shell_loop bind fst snd];
      rewrite ?Nat.add_0_r; try reflexivity.
    destruct t0 as [c0 | ts0]; [reflexivity |].
    inversion IH as [| ? ? Ht0 _]; subst.
    rewrite (Ht0 (S k)), (Ht0 1%nat).
    destruct (tuple_shell_loop 0 (CT_tuple ts0)) as [[n ct'] | e |];
      cbn [bind fst snd]; try reflexivity.
    do 2 f_equal. lia.
Qed.

(** One shell around a tuple: the same structure is read, and the shell
    is put back around the result. *)
Lemma CTypeTree_from_Structure_shell (ts0 ct : list CTypeTreeType)
  (members : list (native_type * cdata pyval)) :
  CTypeTree_from_Structure (CT_tuple [CT_tuple ts0]) (Instance ct members) =
  (r <- CTypeTree_from_Structure (CT_tuple ts0) (Instance ct members) ;;
   Return (C_tuple [r])).
Proof.
  rewrite !CTypeTree_from_Structure_eq.
  assert (Hloop : tuple_shell_loop 0 (CT_tuple [CT_tuple ts0]) =
                  tuple_shell_loop 1 (CT_tuple ts0)) by reflexivity.
  rewrite Hloop, tuple_shell_loop_acc.
  destruct (tuple_shell_loop 0 (CT_tuple ts0)) as [[n ct'] | e |];
    cbn [bind fst snd]; try reflexivity.
  destruct (negb _); [reflexivity |].
  destruct (each2 member_from members _); reflexivity.
Qed.

(** For a tree that collapses to a structure, reading a member and
    reading the structure itself are the same. *)
Lemma member_from_structure (ct : CTypeTreeType) :
  is_tuple ct = true -> is_Structure_class (collapse ct) = true ->
  forall (st_ct ct0 : list CTypeTreeType) (fields : list native_type)
         (members : list (native_type * cdata pyval)),
    member_from (AnonymousStructure st_ct fields, Instance ct0 members) ct =
    CTypeTree_from_Structure ct (Instance ct0 members).
Proof.
  induction ct as [c | ts IH] using CTypeTreeType_tree_ind;
    intros Htuple Hstruct st_ct ct0 fields members; [discriminate Htuple |].
  destruct (Nat.eq_dec (List.length ts) 1) as [Hone | Hone].
  - destruct ts as [| t0 [| t1 ts]]; try discriminate Hone.
    inversion IH as [| ? ? Ht0 _]; subst.
    cbn [collapse] in Hstruct.
    destruct t0 as [c0 | ts0]; [discriminate Hstruct |].
    rewrite member_from_shell, CTypeTree_from_Structure_shell.
    rewrite (Ht0 eq_refl Hstruct). reflexivity.
  - apply member_from_struct. exact Hone.
Qed.

(** The round trip on the trees that collapse to a structure: the value
    tree comes back, each leaf as ctypes stored it. *)
Lemma roundtrip_stored (ct : CTypeTreeType) (c : CTypeTree pyval) :
  is_tuple ct = true -> is_Structure_class (collapse ct) = true ->
  same_shape ct c = true -> plain c = true -> accepted ct c = true ->
  exists s, CTypeTree_to_Structure ct c = Return s /\
            class_of s = Some (collapse ct) /\
            CTypeTree_from_Structure ct s = Return (stored ct c).
Proof.
  intros Htuple Hstruct Hshape Hplain Haccepted.
  destruct (proj1 (node_correct_all ct c Hplain Haccepted) Hshape)
    as (s & s' & Hto & Hset & Hfrom).
  exists s. rewrite <- (child_to_tuple ct c Htuple). split; [exact Hto |].
  destruct (collapse ct) as [t | st_ct fields] eqn:Hcollapse;
    [discriminate Hstruct |].
  unfold set_field in Hset.
  destruct s as [x | ct0 members]; [discriminate Hset |].
  destruct (native_type_eqb _ _) eqn:Heq; [| discriminate Hset].
  injection Hset as <-.
  rewrite <- Hfrom. split.
  - cbn [class_of]. f_equal. symmetry.
    apply native_type_eqb_eq. exact Heq.
  - symmetry. rewrite <- Hcollapse in Hstruct.
    apply (member_from_structure ct Htuple Hstruct).
Qed.

(** The round trip as the specification states it, where it holds: for a
    tree that collapses to a structure and a matching value tree whose
    leaves their classes take,
    [CTypeTree_from_Structure(T, CTypeTree_to_Structure(T, V)) == V]. *)
Lemma roundtrip_structure (ct : CTypeTreeType) (c : CTypeTree pyval) :
  is_tuple ct = true -> is_Structure_class (collapse ct) = true ->
  matching ct c -> accepted ct c = true ->
  exists s, CTypeTree_to_Structure ct c = Return s /\
            CTypeTree_from_Structure ct s = Return c.
Proof.
  intros Htuple Hstruct (Hshape & Hplain & Hstored) Haccepted.
  destruct (roundtrip_stored ct c Htuple Hstruct Hshape Hplain Haccepted)
    as (s & Hto & _ & Hfrom).
  exists s. rewrite Hstored in Hfrom. split; assumption.
Qed.

(** C1.  The specification has the round trip hold for every well-formed type
    tree and matching value tree, collapsed nodes included.  For a tree
    that collapses to a single ctypes class, such as [(c_int32,)],
    [CTypeTree_to_Structure] returns the plain value of the leaf, and
    [CTypeTree_from_Structure] refuses it, since it is not a structure:
    the composition raises a [TypeError] instead of returning the value
    tree. *)
Theorem roundtrip_scalar_raises (ct : CTypeTreeType) (c : CTypeTree pyval)
  (Htuple : is_tuple ct = true)
  (Hscalar : is_Structure_class (collapse ct) = false)
  (Hmatch : matching ct c) :
  exists x,
    CTypeTree_to_Structure ct c = Return (Raw x) /\
    CTypeTree_from_Structure ct (Raw x) =
      Raise (TypeError "s must be a Structure").
Proof.
  destruct Hmatch as (Hshape & Hplain & _).
  assert (Hleaf : exists x, child_to ct c = Return (Raw x)).
  { clear Htuple. revert c Hshape Hplain Hscalar.
    induction ct as [t | ts IH] using CTypeTreeType_tree_ind;
      intros c Hshape Hplain Hscalar.
    - destruct c as [[x | ? ?] | cs];
        [| discriminate Hplain | discriminate Hshape].
      exists x. reflexivity.
    - destruct ts as [| t0 [| t1 ts]]; try discriminate Hscalar.
      destruct c as [o | [| c0 [| c1 cs]]]; try discriminate Hshape.
      2:{ cbn [same_shape all2] in Hshape. rewrite andb_false_r in Hshape.
          discriminate Hshape. }
      inversion IH as [| ? ? Ht0 _]; subst.
      cbn [same_shape all2] in Hshape. rewrite andb_true_r in Hshape.
      cbn [plain forallb] in Hplain. rewrite andb_true_r in Hplain.
      exact (Ht0 c0 Hshape Hplain Hscalar). }
  destruct Hleaf as [x Hx].
  rewrite (child_to_tuple ct c Htuple) in Hx.
  exists x. split; [exact Hx | reflexivity].
Qed.

(** *** Wrappers of length 1 around a ctypes class *)

(** The recursive account of the first loop of
    [CTypeTree_from_Structure] agrees with the loop run step by step: it
    returns what the loop exits with, and it diverges only where no
    number of iterations brings the loop to its exit. *)
Lemma while_tuple_shell_Diverge (fuel : nat) :
  forall (t : CTypeTreeType) (k : nat),
    tuple_shell_loop k t = Diverge -> while_tuple_shell fuel k t = None.
Proof.
  induction fuel as [| fuel IH]; intros t k Hloop; [reflexivity |].
  destruct t as [c | [| t0 [| t1 ts]]]; try discriminate Hloop.
  cbn [while_tuple_shell]. destruct t0 as [c0 | ts0].
  - apply IH. reflexivity.
  - apply IH. exact Hloop.
Qed.

Lemma while_tuple_shell_Return (t : CTypeTreeType) :
  forall (k : nat) (r : nat * CTypeTreeType),
    tuple_shell_loop k t = Return r ->
    exists fuel, while_tuple_shell fuel k t = Some r.
Proof.
  induction t as [c | ts IH] using CTypeTreeType_tree_ind; intros k r Hloop.
  - exists 1%nat. injection Hloop as <-. reflexivity.
  - destruct ts as [| t0 [| t1 ts]].
    + exists 1%nat. injection Hloop as <-. reflexivity.
    + destruct t0 as [c0 | ts0]; [discriminate Hloop |].
      inversion IH as [| ? ? Ht0 _]; subst.
      destruct (Ht0 (S k) r Hloop) as [fuel Hfuel].
      exists (S fuel). exact Hfuel.
    + exists 1%nat. injection Hloop as <-. reflexivity.
Qed.

Lemma collapse_wrappers (n : nat) (ct : CTypeTreeType) :
  collapse (wrappers n ct) = collapse ct.
Proof. induction n as [| n IH]; [reflexivity | exact IH]. Qed.

Lemma tuple_shell_loop_wrappers (n k : nat) (x : ctype) :
  tuple_shell_loop k (wrappers (S n) (CT_type x)) = Diverge.
Proof.
  revert k. induction n as [| n IH]; intros k; [reflexivity |].
  exact (IH (S k)).
Qed.

(** C3.  A chain of length-1 wrappers around a ctypes class [x], such as
    [(((x,),),)]: the native type is [x] itself, and the instance built
    for a matching value is the value of the leaf, with no structure
    around it.  The third conversion does not follow: given that value,
    [CTypeTree_from_Structure] raises a [TypeError], since it is not a
    structure, and given any structure its first loop never exits, as no
    number of iterations reaches the exit; no value tree is
    reconstructed. *)
Theorem wrapped_scalar (n : nat) (x : ctype) :
  let T := wrappers (S n) (CT_type x) in
  CTypeTreeType_to_Structure T = Return (NT_ctype x) /\
  (forall o : cdata pyval,
      CTypeTree_to_Structure T (add_shells (S n) (C_val o)) = Return o) /\
  (forall v : pyval,
      CTypeTree_from_Structure T (Raw v) =
      Raise (TypeError "s must be a Structure")) /\
  (forall ct (members : list (native_type * cdata pyval)),
      CTypeTree_from_Structure T (Instance ct members) = Diverge) /\
  (forall fuel, while_tuple_shell fuel 0 T = None).
Proof.
  cbn zeta. split; [| split; [| split; [| split]]].
  - change (wrappers (S n) (CT_type x)) with (CT_tuple [wrappers n (CT_type x)]).
    rewrite CTypeTreeType_to_Structure_collapse. cbn [collapse].
    rewrite collapse_wrappers. reflexivity.
  - intros o. induction n as [| n IH]; [reflexivity |].
    change (wrappers (S (S n)) (CT_type x))
      with (CT_tuple [wrappers (S n) (CT_type x)]).
    rewrite add_shells_S, CTypeTree_to_Structure_eq.
    cbn [List.length Nat.eqb negb]. exact IH.
  - intros v. reflexivity.
  - intros ct members.
    change (wrappers (S n) (CT_type x)) with (CT_tuple [wrappers n (CT_type x)]).
    rewrite CTypeTree_from_Structure_eq.
    change (CT_tuple [wrappers n (CT_type x)]) with (wrappers (S n) (CT_type x)).
    rewrite tuple_shell_loop_wrappers. reflexivity.
  - intros fuel. apply while_tuple_shell_Diverge.
    apply tuple_shell_loop_wrappers.
Qed.

(** The same chain as a member of a larger tuple is read back in its
    nested shape. *)
Lemma wrapped_scalar_member (n : nat) (x y : ctype) (v w : pyval) :
  ctypes_accepts x v = true -> ctypes_accepts y w = true ->
  ctypes_set x v = v -> ctypes_set y w = w ->
  let T := CT_tuple [wrappers n (CT_type x); CT_type y] in
  let V := C_tuple [add_shells n (C_val (Raw v)); C_val (Raw w)] in
  exists s, CTypeTree_to_Structure T V = Return s /\
            CTypeTree_from_Structure T s = Return V.
Proof.
  intros Hav Haw Hv Hw T V.
  assert (Hchain : same_shape (wrappers n (CT_type x))
                     (add_shells n (C_val (Raw v))) = true /\
                   plain (add_shells n (C_val (Raw v))) = true /\
                   stored (wrappers n (CT_type x))
                     (add_shells n (C_val (Raw v))) =
                   add_shells n (C_val (Raw v)) /\
                   accepted (wrappers n (CT_type x))
                     (add_shells n (C_val (Raw v))) = true).
  { induction n as [| n (IH1 & IH2 & IH3 & IH4)].
    - cbn. rewrite Hv, Hav. repeat split.
    - change (wrappers (S n) (CT_type x))
        with (CT_tuple [wrappers n (CT_type x)]).
      rewrite add_shells_S.
      cbn [same_shape all2 plain forallb stored zip_with accepted all_zip].
      rewrite IH1, IH2, IH3, IH4. repeat split. }
  destruct Hchain as (H1 & H2 & H3 & H4).
  apply roundtrip_structure; [reflexivity | reflexivity | |].
  - unfold matching, T, V. cbn [same_shape all2 plain forallb stored zip_with].
    rewrite H1, H2, H3, Hw. repeat split.
  - unfold T, V. cbn [accepted all_zip]. rewrite H4, Haw. reflexivity.
Qed.

End Marshaller_properties.

Section Marshaller_examples.
#[local] Existing Instance no_float.
#[local] Existing Instance integer_ctypes.

Lemma matching_int32_5 :
  matching (CT_tuple [CT_type c_int32]) (C_tuple [C_val (Raw (PyInt 5))]).
Proof. repeat split. Defined.

(** [(c_int32,)] and [(5,)]: the structure is the plain [5], and the way
    back raises. *)
Lemma roundtrip_scalar_raises_witness :
  is_tuple (CT_tuple [CT_type c_int32]) = true /\
  is_Structure_class (collapse (CT_tuple [CT_type c_int32])) = false /\
  matching (CT_tuple [CT_type c_int32]) (C_tuple [C_val (Raw (PyInt 5))]) /\
  exists x,
    CTypeTree_to_Structure (CT_tuple [CT_type c_int32])
      (C_tuple [C_val (Raw (PyInt 5))]) = Return (Raw x) /\
    CTypeTree_from_Structure (CT_tuple [CT_type c_int32]) (Raw x) =
      Raise (TypeError "s must be a Structure").
Proof.
  split; [reflexivity |]. split; [reflexivity |].
  split; [exact matching_int32_5 |].
  apply (roundtrip_scalar_raises (CT_tuple [CT_type c_int32])
           (C_tuple [C_val (Raw (PyInt 5))]) eq_refl eq_refl matching_int32_5).
Defined.

(** The two examples of the specification: [Int(16, signed)(-2)], and
    the pair [(Int(32, unsigned), Float(64))]; the float is stood for by an
    integer, which the instance stores unchanged in a [c_double]. *)
Lemma roundtrip_examples :
  (s <- CTypeTree_to_Structure
          (CT_tuple [CT_tuple [CT_type c_uint32]; CT_tuple [CT_type c_double]])
          (C_tuple [C_tuple [C_val (Raw (PyInt 7))];
                    C_tuple [C_val (Raw (PyInt 3))]]) ;;
   CTypeTree_from_Structure
     (CT_tuple [CT_tuple [CT_type c_uint32]; CT_tuple [CT_type c_double]]) s)
  = Return (C_tuple [C_tuple [C_val (Raw (PyInt 7))];
                     C_tuple [C_val (Raw (PyInt 3))]]) /\
  CTypeTree_to_Structure (CT_tuple [CT_tuple [CT_type c_int16]])
    (C_tuple [C_tuple [C_val (Raw (PyInt (-2)))]]) = Return (Raw (PyInt (-2))).
Proof. split; reflexivity. Qed.


End Marshaller_examples.

(* ------------------------------------------------------------------ *)
(** ** CTarget.call_function *)

Section CTarget_properties.
Context `{HostFloat} `{Ctypes pyobj}.


(** A generated class called without initialisers: the zeroed
    instance. *)
Lemma call_class_zero (cls : native_type) :
  is_Structure_class cls = true ->
  call_class cls [] = Return (zero_of cls).
Proof.
  destruct cls as [t | ct fields]; [discriminate |]. intros _.
  unfold call_class. destruct fields; reflexivity.
Qed.

Lemma Return_inj {A : Type} (a b : A) : Return a = Return b -> a = b.
Proof. intros Heq. injection Heq as ->. reflexivity. Qed.

(** The class of the return structure of a composite return is a
    generated structure class, never a ctypes class. *)
Lemma each_type_to_CType_tuples (ts : list SupportsCType)
  (cts : list CTypeTreeType) :
  each type_to_CType ts = Return cts ->
  Forall (fun ct => is_tuple ct = true) cts /\
  List.length cts = List.length ts.
Proof.
  revert cts. induction ts as [| t ts IH]; intros cts Heach.
  - injection Heach as <-. split; [constructor | reflexivity].
  - cbn [each] in Heach. unfold type_to_CType at 1 in Heach.
    destruct (CType t) as [ct | |]; cbn [bind] in Heach;
      try discriminate Heach.
    destruct (each type_to_CType ts) as [cts' | |]; cbn [bind] in Heach;
      try discriminate Heach.
    injection Heach as <-. destruct (IH cts' eq_refl) as [Hall Hlen].
    split; [constructor; [reflexivity | exact Hall] | cbn; f_equal; exact Hlen].
Qed.

Lemma composite_is_structure (cts fl : list CTypeTreeType) :
  Forall (fun ct => is_tuple ct = true) cts ->
  sum_tuples cts = Return fl -> (1 < List.length fl)%nat ->
  is_Structure_class (collapse (CT_tuple cts)) = true.
Proof.
  intros Hall Hsum Hlen.
  destruct cts as [| ct0 [| ct1 cts]]; try reflexivity.
  inversion Hall as [| ? ? Hct0 _]; subst.
  destruct ct0 as [c | ts]; [discriminate Hct0 |].
  cbn in Hsum. injection Hsum as <-. rewrite app_nil_r in Hlen.
  change (collapse (CT_tuple [CT_tuple ts])) with (collapse (CT_tuple ts)).
  rewrite (collapse_struct ts) by lia. reflexivity.
Qed.

(** C2.  [call_function] on a loaded function with the right number of
    arguments, by the length of the flattened return tree.  Length 0: one
    call on the marshalled arguments, and [None] is returned whatever the
    native function returns.  Length 1: one call on the marshalled
    arguments, whose returned value, as a one-element tuple, goes to
    [from_CType] of the first return type; the native return type is
    set.  Length above 1: the native return type is void, the first
    argument type is a pointer to the return structure, the one call is
    on a zeroed instance of that structure followed by the marshalled
    arguments, and the result is read from what the structure holds
    after the call. *)
Theorem call_function_return_convention (self : CTarget) (so : library)
  (f : function) (args : list pyobj) (so_f : foreign_function)
  (mapped_args : list (cdata pyobj)) (fl : list CTypeTreeType)
  (Hso : _so self = Some so)
  (Hload : load_function so f = Return so_f)
  (Hargs : List.length (parameters f) = List.length args)
  (Hmarshal : marshal_arguments f args = Return mapped_args)
  (Hflat : flattened f = Return fl) :
  match fl with
  | [] =>
      call_function self f args =
      {| calls := [ {| callee := so_f; arguments := mapped_args |} ];
         result := Return PyNone |}
  | [_] =>
      exists t ts ret_struct,
        get_return_type f = Return (t :: ts) /\
        restype so_f = Some ret_struct /\
        call_function self f args =
        {| calls := [ {| callee := so_f; arguments := mapped_args |} ];
           result :=
             from_CType t
               (C_tuple [C_val (returned (code so_f mapped_args))]) |}
  | _ :: _ :: _ =>
      exists ct cls,
        get_return_ctypes f = Return ct /\
        CTypeTreeType_to_Structure ct = Return cls /\
        is_Structure_class cls = true /\
        restype so_f = None /\
        hd_error (argtypes so_f) = Some (POINTER cls) /\
        call_function self f args =
        {| calls := [ {| callee := so_f;
                         arguments := zero_of cls :: mapped_args |} ];
           result :=
             retval_ct <-
               CTypeTree_from_Structure ct
                 (hd (zero_of cls)
                    (memory (code so_f (zero_of cls :: mapped_args)))) ;;
             ret_t <- get_return_type f ;;
             vals <- each2 from_CType ret_t (tuple_items retval_ct) ;;
             Return (PyTuple vals) |}
  end.
Proof.
  unfold flattened in Hflat.
  destruct (get_return_ctypes f) as [ct | |] eqn:Hret; cbn [bind] in Hflat;
    try discriminate Hflat.
  pose proof Hret as Hret'. unfold get_return_ctypes in Hret'.
  destruct (get_return_type f) as [ret_t | |] eqn:Hrt;
    cbn [bind] in Hret'; try discriminate Hret'.
  destruct (each type_to_CType ret_t) as [cts | |] eqn:Hcts;
    cbn [bind] in Hret'; try discriminate Hret'.
  injection Hret' as <-.
  destruct (each_type_to_CType_tuples _ _ Hcts) as [Htuples Hcount].
  assert (Hvoid : has_void_return f = Return (List.length fl =? 0)%nat).
  { unfold has_void_return, flattened. rewrite Hret. cbn [bind].
    rewrite Hflat. reflexivity. }
  assert (Hcomp : has_composite_return f = Return (1 <? List.length fl)%nat).
  { unfold has_composite_return, flattened. rewrite Hret. cbn [bind].
    rewrite Hflat. reflexivity. }
  assert (Hprep : prepare so f args =
                  if (List.length fl =? 0)%nat
                  then Return (so_f, mapped_args, true, false)
                  else Return (so_f, mapped_args, false,
                               (1 <? List.length fl)%nat)).
  { unfold prepare. rewrite Hload. cbn [bind].
    rewrite (proj2 (Nat.eqb_eq _ _) Hargs). cbn [negb].
    rewrite Hmarshal. cbn [bind]. rewrite Hvoid. cbn [bind].
    destruct (List.length fl =? 0)%nat; [reflexivity |].
    rewrite Hcomp. reflexivity. }
  (* what [load_function] has set *)
  unfold load_function in Hload. rewrite Hret in Hload. cbn [bind] in Hload.
  rewrite CTypeTreeType_to_Structure_collapse in Hload. cbn [bind] in Hload.
  destruct (get_args_ctypes f) as [args_ct | |]; cbn [bind] in Hload;
    try discriminate Hload.
  destruct (each CTypeTreeType_to_Structure _) as [args_struct | |];
    cbn [bind] in Hload; try discriminate Hload.
  destruct (so ("_mlir_ciface_" ++ __name__ f)) as [native |];
    [| discriminate Hload].
  rewrite Hcomp in Hload. cbn [bind] in Hload.
  unfold call_function. rewrite Hso, Hprep, ?Hrt.
  destruct fl as [| x [| y fl]]; cbn [List.length Nat.eqb Nat.ltb Nat.leb].
  - reflexivity.
  - (* one leaf *)
    cbn [List.length Nat.ltb Nat.leb] in Hload.
    apply Return_inj in Hload. subst so_f.
    destruct ret_t as [| t ts].
    + destruct cts; [discriminate Hflat | discriminate Hcount].
    + exists t, ts, (pass (collapse (CT_tuple cts))). repeat split.
  - (* composite *)
    cbn [List.length Nat.ltb Nat.leb] in Hload.
    apply Return_inj in Hload. subst so_f.
    assert (Hstruct : is_Structure_class (collapse (CT_tuple cts)) = true).
    { apply (composite_is_structure cts (x :: y :: fl) Htuples Hflat).
      cbn. lia. }
    exists (CT_tuple cts), (collapse (CT_tuple cts)).
    rewrite CTypeTreeType_to_Structure_collapse.
    split; [reflexivity |]. split; [reflexivity |]. split; [exact Hstruct |].
    split; [reflexivity |].
    split; [cbn [argtypes hd_error]; unfold pass; rewrite Hstruct;
            reflexivity |].
    rewrite Hret. cbn [bind].
    rewrite CTypeTreeType_to_Structure_collapse. cbn [bind].
    rewrite (call_class_zero _ Hstruct). reflexivity.
Qed.

End CTarget_properties.

Section CTarget_examples.
#[local] Existing Instance no_float.
#[local] Existing Instance integer_ctypes.

(** The composite case on [f(5)]: the zeroed return structure goes first,
    and the pair that the native function wrote is what is returned. *)
Lemma call_function_return_convention_witness :
  _so {| _so := Some example_library |} = Some example_library /\
  load_function example_library example_f = Return example_so_f /\
  marshal_arguments example_f [PyInt 5] = Return [Raw (PyInt 5)] /\
  flattened example_f = Return [CT_type c_uint32; CT_type c_int16] /\
  calls (call_function {| _so := Some example_library |} example_f [PyInt 5]) =
    [ {| callee := example_so_f;
         arguments := [zero_of example_return_struct; Raw (PyInt 5)] |} ] /\
  result (call_function {| _so := Some example_library |} example_f [PyInt 5]) =
    Return (PyTuple [PyInt 7; PyInt (-2)]).
Proof.
  split; [reflexivity |]. split; [reflexivity |].
  split; [reflexivity |]. split; [reflexivity |].
  destruct (call_function_return_convention
              {| _so := Some example_library |} example_library example_f
              [PyInt 5] example_so_f [Raw (PyInt 5)]
              [CT_type c_uint32; CT_type c_int16]
              eq_refl eq_refl eq_refl eq_refl eq_refl)
    as (ct & cls & Hct & Hcls & _ & _ & _ & Hcall).
  injection Hct as <-. injection Hcls as <-.
  rewrite Hcall. split; reflexivity.
Defined.

(** The two usage errors on the same function. *)
Lemma call_function_usage_examples :
  call_function {| _so := None |} example_f [PyInt 5] =
    {| calls := [];
       result := Raise (RuntimeError
                          "function f is called before it is compiled") |} /\
  call_function {| _so := Some example_library |} example_f
      [PyInt 5; PyInt 6] =
    {| calls := [];
       result := Raise (TypeError
                          "f takes 1 positional argument but 2 were given") |}.
Proof. split; reflexivity. Qed.

End CTarget_examples.

(* ================================================================== *)
(** * Further properties of type.py *)
(* ================================================================== *)

Section Int_operators.
Context `{HostFloat}.

(** The three outcomes of [Int.Int], as [_try_casting] meets them. *)
Lemma Int_Int_cases (self_cls : IntClass) (self_value : Value)
  (target_type : IntClass) :
  well_formed self_cls self_value ->
  (sign target_type = sign self_cls -> width self_cls = width target_type ->
   Int_Int self_cls self_value target_type =
   Return (PyObject target_type self_value)) /\
  (sign target_type = sign self_cls -> width self_cls < width target_type ->
   Int_Int self_cls self_value target_type =
   Return (PyObject target_type
             (arith_Ext
                (match sign self_cls with
                 | SIGNED => ExtSIOp
                 | UNSIGNED => ExtUIOp
                 end)
                (lower_class target_type) self_value))) /\
  (sign target_type <> sign self_cls \/ width target_type < width self_cls ->
   exists msg, Int_Int self_cls self_value target_type =
               Raise (TypeError msg)).
Proof.
  intros [Hw Hty].
  assert (Hsame : forall s, Sign_eqb s s = true) by (intros []; reflexivity).
  split; [| split].
  - intros Hs Heq. unfold Int_Int. rewrite Hs, Hsame. cbn [negb].
    rewrite <- Heq, Z.ltb_irrefl, Z.eqb_refl.
    apply init_Value. split; [lia | rewrite <- Heq; exact Hty].
  - intros Hs Hlt. unfold Int_Int. rewrite Hs, Hsame. cbn [negb].
    rewrite (proj2 (Z.ltb_ge _ _)) by lia.
    rewrite (proj2 (Z.eqb_neq _ _)) by lia.
    destruct (sign self_cls); apply init_Value; (split; [lia | reflexivity]).
  - intros Hbad. unfold Int_Int.
    destruct (Sign_eqb (sign target_type) (sign self_cls)) eqn:Hs; cbn [negb].
    + destruct Hbad as [Hne | Hlt].
      * exfalso. apply Hne.
        destruct (sign target_type), (sign self_cls); cbn in Hs; congruence.
      * apply Z.ltb_lt in Hlt. rewrite Hlt. eexists; reflexivity.
    + eexists; reflexivity.
Qed.

(** Whatever [__init__] returns is an instance of its class whose value
    has the type of the class. *)
Lemma init_returns (cls : IntClass) (rep o : pyobj) :
  0 < width cls -> (is_Bool cls = true -> width cls = 1) ->
  init cls rep = Return o ->
  exists v, o = PyObject cls v /\ well_formed cls v.
Proof.
  intros Hw Hb Hinit.
  assert (Hint : forall rep, Int__init__ cls rep = Return o ->
                   exists v, o = PyObject cls v /\ well_formed cls v).
  { clear Hinit rep. intros rep. unfold Int__init__.
    destruct (width cls =? 0); [discriminate |].
    assert (Hv : forall v', _init_from_mlir_value cls v' = Return o ->
                   exists v, o = PyObject cls v /\ well_formed cls v).
    { intros v'. unfold _init_from_mlir_value.
      destruct (type_of v') as [w sl | | | |] eqn:Hty; try discriminate.
      destruct (w =? width cls) eqn:Hwe; cbn [negb]; [| discriminate].
      destruct sl; cbn [negb]; [| discriminate].
      intros Heq. injection Heq as <-. apply Z.eqb_eq in Hwe. subst w.
      exists v'. split; [reflexivity | split; [exact Hw | exact Hty]]. }
    assert (Hother : forall rep',
      match rep' with
      | PyValue v' => _init_from_mlir_value cls v'
      | _ => Raise (TypeError (str_obj rep' ++ " cannot be casted as an Int"))
      end = Return o -> exists v, o = PyObject cls v /\ well_formed cls v).
    { intros rep'. destruct rep'; try discriminate. apply Hv. }
    set (rep' := match rep with PyOpView result => PyValue result | _ => rep end).
    destruct (is_Real rep'); [| apply Hother].
    destruct (py_int rep') as [n | |]; cbn [bind]; try discriminate.
    destruct (isclose rep' n) as [[|] | |]; cbn [bind]; try discriminate;
      [| apply Hother].
    destruct (in_range cls n); cbn [negb]; [| discriminate].
    destruct (arith_ConstantOp (lower_class cls) n) as [value | |] eqn:Hvalue;
      cbn [bind]; try discriminate.
    apply arith_ConstantOp_Return in Hvalue. subst value.
    intros Heq. injection Heq as <-.
    eexists. split; [reflexivity | split; [exact Hw | reflexivity]]. }
  unfold init in Hinit.
  destruct (is_Bool cls) eqn:Hbool; [| apply Hint with rep; exact Hinit].
  unfold Bool__init__ in Hinit.
  destruct rep; try (apply Hint in Hinit; exact Hinit).
  destruct (arith_ConstantOp (get_signless 1) (if b then 1 else 0))
    as [value | |] eqn:Hvalue; cbn [bind] in Hinit; try discriminate Hinit.
  apply arith_ConstantOp_Return in Hvalue. subst value.
  injection Hinit as <-.
  eexists. split; [reflexivity | split; [exact Hw |]].
  rewrite (Hb eq_refl). reflexivity.
Qed.

(** Whatever [Int.Int] returns has gone through [__init__] of the
    target, also for a source that is not well formed. *)
Lemma Int_Int_returns (self_cls : IntClass) (self_value : Value)
  (target_type : IntClass) (o : pyobj) :
  0 < width target_type ->
  (is_Bool target_type = true -> width target_type = 1) ->
  Int_Int self_cls self_value target_type = Return o ->
  exists v, o = PyObject target_type v /\ well_formed target_type v.
Proof.
  intros Hw Hb. unfold Int_Int.
  destruct (negb _); [discriminate |].
  destruct (_ <? _); [discriminate |].
  destruct (_ =? _); apply init_returns; assumption.
Qed.

(** The constructor of a class other than [Bool]: every object it
    returns is an instance of the class, and well formed. *)
Lemma call_returns (cls : IntClass) (rep o : pyobj) :
  0 < width cls -> is_Bool cls = false ->
  call cls rep = Return o ->
  exists v, o = PyObject cls v /\ well_formed cls v.
Proof.
  intros Hw Hb.
  assert (Hb' : is_Bool cls = true -> width cls = 1) by congruence.
  induction rep; cbn [call]; unfold supporter; rewrite Hb; cbn [has_Int];
    try (apply init_returns; assumption).
  - apply Int_Int_returns; assumption.
  - exact IHrep.
Qed.

Lemma call_same_class (cls : IntClass) (w : Value) :
  well_formed cls w ->
  call cls (PyObject cls w) = Return (PyObject cls w).
Proof.
  intros Hwf. cbn [call]. unfold supporter. cbn [has_Int has_Bool].
  destruct (is_Bool cls) eqn:Hb; [reflexivity |].
  apply (proj1 (Int_Int_cases cls w cls Hwf)); reflexivity.
Qed.

Lemma call_OpView (cls : IntClass) (r : Value) :
  well_formed cls r ->
  call cls (PyOpView r) = Return (PyObject cls r).
Proof.
  intros Hwf. rewrite (proj2 (call_Value cls r)).
  apply (proj2 (init_Value cls r Hwf)).
Qed.

(** [Number.Int]: a class other than [Bool] is built from the wrapped
    value. *)
Lemma call_Number (cls : IntClass) (x : pyobj) :
  is_Bool cls = false -> call cls (PyNumber x) = call cls x.
Proof. intros Hb. cbn [call]. unfold supporter. rewrite Hb. reflexivity. Qed.

(** An arithmetic method once its operand has been cast. *)
Lemma arith_method_cast (op : operation) (reversed : bool)
  (cls : IntClass) (v w : Value) (other : pyobj) :
  well_formed cls v -> well_formed cls w ->
  call cls other = Return (PyObject cls w) ->
  arith_method op reversed cls v other =
  Return (PyObject cls (if reversed then arith_binary op w v
                        else arith_binary op v w)).
Proof.
  intros Hv Hw Hcast. unfold arith_method, _try_casting.
  rewrite Hcast. cbn [bind value_of].
  apply call_OpView. destruct Hv as [Hpos Hv], Hw as [_ Hw].
  destruct reversed; (split; [exact Hpos | assumption]).
Qed.

(** A comparison once its operand has been cast: the second cast, in
    [_compare_with_pred], returns the instance as it is. *)
Lemma compare_method_cast (signed unsigned : CmpIPredicate)
  (cls : IntClass) (v w : Value) (rhs : pyobj) :
  well_formed cls w ->
  call cls rhs = Return (PyObject cls w) ->
  compare_method signed unsigned cls v rhs =
  Return (PyObject Bool
            (arith_CmpIOp (match sign cls with
                           | SIGNED => signed
                           | UNSIGNED => unsigned
                           end) v w)).
Proof.
  intros Hw Hcast. unfold compare_method, _compare_with_pred, _try_casting.
  rewrite Hcast. cbn [bind]. rewrite (call_same_class cls w Hw).
  cbn [bind value_of]. apply call_OpView. split; reflexivity.
Qed.

Lemma call_instance_cast (c cls : IntClass) (w : Value) :
  is_Bool cls = false -> 0 < width cls -> well_formed c w ->
  sign c = sign cls -> width c <= width cls ->
  call cls (PyObject c w) = Return (PyObject cls (cast_value c cls w)) /\
  well_formed cls (cast_value c cls w).
Proof.
  intros Hb Hpos Hw Hs Hle. rewrite (call_instance cls c w Hb).
  destruct (Int_Int_cases c w cls Hw) as (Hsame & Hwider & _).
  unfold cast_value. destruct (width c =? width cls) eqn:Heq.
  - apply Z.eqb_eq in Heq. split; [apply Hsame; congruence |].
    destruct Hw as [_ Hw]. split; [exact Hpos | rewrite <- Heq; exact Hw].
  - apply Z.eqb_neq in Heq. split; [apply Hwider; [congruence | lia] |].
    split; [exact Hpos | reflexivity].
Qed.

Lemma call_instance_refused (c cls : IntClass) (w : Value) :
  is_Bool cls = false -> well_formed c w ->
  sign c <> sign cls \/ width cls < width c ->
  exists msg, call cls (PyObject c w) = Raise (TypeError msg).
Proof.
  intros Hb Hw Hbad. rewrite (call_instance cls c w Hb).
  apply (proj2 (proj2 (Int_Int_cases c w cls Hw))).
  destruct Hbad as [Hne | Hlt]; [left; congruence | right; exact Hlt].
Qed.

(** X1.  The constructor of a class that inherits [__init__],
    [_init_from_mlir_value] and [Int] from [Int], as [UInt8] ... [SInt64]
    do, and of [Bool]; not of [Index], which defines its own
    [_init_from_mlir_value] and casts and holds a value of the index
    type.  Whatever the constructor of such a class returns, from a host
    number, an MLIR value, a [Number] or an instance of another such
    class, is an instance of the class whose value has the signless
    integer type of the width of the class.  For [Bool] this holds of
    every argument that is not already a [Bool], which the constructor
    returns as it is. *)
Theorem constructor_result_typed (cls : IntClass) (rep o : pyobj)
  (Hwidth : 0 < width cls) (HBool : is_Bool cls = true -> width cls = 1)
  (Hrep : is_Bool cls = true -> has_Bool rep = false)
  (Hcall : call cls rep = Return o) :
  exists v, o = PyObject cls v /\ type_of v = get_signless (width cls).
Proof.
  destruct (Bool.bool_dec (is_Bool cls) true) as [Hb | Hb];
    [| apply not_true_is_false in Hb].
  - assert (Hinit : call cls rep = init cls rep).
    { destruct rep; cbn [call]; unfold supporter; rewrite Hb;
        try reflexivity.
      cbn [has_Bool] in *. rewrite (Hrep Hb). reflexivity. }
    rewrite Hinit in Hcall.
    destruct (init_returns cls rep o Hwidth HBool Hcall) as (v & -> & _ & Hv).
    exists v. split; [reflexivity | exact Hv].
  - destruct (call_returns cls rep o Hwidth Hb Hcall) as (v & -> & _ & Hv).
    exists v. split; [reflexivity | exact Hv].
Qed.

(** X2.  The constructor is idempotent: an object that [cls(rep)] has
    returned is returned unchanged by [cls] again, with no further
    operation added to its value. *)
Theorem constructor_idempotent (cls : IntClass) (rep o : pyobj)
  (Hwidth : 0 < width cls) (HBool : is_Bool cls = true -> width cls = 1)
  (Hcall : call cls rep = Return o) :
  call cls o = Return o.
Proof.
  destruct (Bool.bool_dec (is_Bool cls) true) as [Hb | Hb];
    [| apply not_true_is_false in Hb].
  - destruct (has_Bool rep) eqn:Hrep.
    + assert (o = rep) as ->.
      { destruct rep; cbn [call] in Hcall; unfold supporter in Hcall;
          rewrite Hb in Hcall; cbn [has_Bool] in *; try discriminate Hrep.
        rewrite Hrep in Hcall. congruence. }
      destruct rep; try discriminate Hrep.
      cbn [call]. unfold supporter. rewrite Hb. cbn [has_Bool] in *.
      rewrite Hrep. reflexivity.
    + assert (Hinit : call cls rep = init cls rep).
      { destruct rep; cbn [call]; unfold supporter; rewrite Hb;
          try reflexivity.
        cbn [has_Bool] in *. rewrite Hrep. reflexivity. }
      rewrite Hinit in Hcall.
      destruct (init_returns cls rep o Hwidth HBool Hcall) as (v & -> & Hv).
      apply call_same_class. exact Hv.
  - destruct (call_returns cls rep o Hwidth Hb Hcall) as (v & -> & Hv).
    apply call_same_class. exact Hv.
Qed.

(** X3.  The operators are closed: whatever an arithmetic method of an
    instance of [cls] returns ([op_add], [op_radd], [op_sub], [op_rsub],
    [op_mul], [op_rmul], [op_floordiv], [op_rfloordiv]) is an instance of
    [cls] with a value of the type of [cls], and whatever a comparison
    returns ([op_lt], [op_le], [op_eq], [op_ne], [op_gt], [op_ge]) is a
    [Bool] with a value of type i1; no method returns a host number or a
    bare MLIR value. *)
Theorem operators_closed (cls : IntClass) (self_value : Value)
  (other o : pyobj)
  (Hwidth : 0 < width cls) (HBool : is_Bool cls = true -> width cls = 1) :
  (forall op reversed,
      arith_method op reversed cls self_value other = Return o ->
      exists v, o = PyObject cls v /\ type_of v = get_signless (width cls)) /\
  (forall signed unsigned,
      compare_method signed unsigned cls self_value other = Return o ->
      exists v, o = PyObject Bool v /\ type_of v = get_signless 1).
Proof.
  split.
  - intros op reversed. unfold arith_method, _try_casting.
    destruct (call cls other) as [other' | |]; cbn [bind]; try discriminate.
    destruct (value_of other') as [w | |]; cbn [bind]; try discriminate.
    rewrite (proj2 (call_Value cls _)). intros Hinit.
    destruct (init_returns cls _ o Hwidth HBool Hinit) as (v & -> & _ & Hv).
    exists v. split; [reflexivity | exact Hv].
  - intros signed unsigned. unfold compare_method, _compare_with_pred, _try_casting.
    destruct (call cls other) as [rhs | |]; cbn [bind]; try discriminate.
    destruct (call cls rhs) as [rhs' | |]; cbn [bind]; try discriminate.
    destruct (value_of rhs') as [w | |]; cbn [bind]; try discriminate.
    rewrite call_OpView by (split; reflexivity).
    intros Heq. injection Heq as <-. eexists. split; reflexivity.
Qed.

(** X4.  The arithmetic methods of [Int], on an instance of a class
    that inherits them and an operand that is an instance of another
    class that inherits the cast [Int] of [Int]: the classes [UInt8] ...
    [SInt64] and classes declared like them, not [Index], which defines
    its own operators and casts.  The operand is cast to the class of
    [self] first.  With the same sign and a width that is not greater
    the method succeeds: the operand is used as it is at equal width and
    through [arith.ExtSIOp] or [arith.ExtUIOp] at a smaller width, and
    the reflected methods ([reversed]) put it first.  With another sign
    or a greater width the method raises a [TypeError]: the operand is
    never narrowed and [self] is never widened. *)
Theorem arithmetic_casts_operand (op : operation) (reversed : bool)
  (cls c : IntClass) (v w : Value)
  (Hcls : is_Bool cls = false)
  (Hv : well_formed cls v) (Hw : well_formed c w) :
  (sign c = sign cls -> width c <= width cls ->
   arith_method op reversed cls v (PyObject c w) =
   Return (PyObject cls
             (if reversed then arith_binary op (cast_value c cls w) v
              else arith_binary op v (cast_value c cls w)))) /\
  (sign c <> sign cls \/ width cls < width c ->
   exists msg, arith_method op reversed cls v (PyObject c w) =
               Raise (TypeError msg)).
Proof.
  split.
  - intros Hs Hle.
    destruct (call_instance_cast c cls w Hcls (proj1 Hv) Hw Hs Hle)
      as [Hcast Hwf].
    apply arith_method_cast; assumption.
  - intros Hbad.
    destruct (call_instance_refused c cls w Hcls Hw Hbad) as [msg Hmsg].
    exists msg. unfold arith_method, _try_casting. rewrite Hmsg. reflexivity.
Qed.

(** The cast of a literal to a class: a constant of the type of the
    class for an integer of [val_range] that the constant takes, the
    range error outside [val_range], and the [TypeError] of
    [arith.ConstantOp] for an integer of [val_range] from [2^63] on. *)
Lemma call_literal (cls : IntClass) (z : Z) :
  width cls <> 0 -> - 2 ^ 63 <= z < 2 ^ 63 ->
  call cls (PyInt z) =
  if in_range cls z
  then Return (PyObject cls (ConstantOp (lower_class cls) z))
  else Raise (ValueError (str_int z ++ " is out of range for " ++ name cls)).
Proof.
  intros Hne Hz. rewrite call_PyInt.
  rewrite (Int__init__int cls z Hne) by (apply small_no_overflow; lia).
  rewrite (arith_ConstantOp_fits _ z Hz). reflexivity.
Qed.

Lemma call_literal_large (cls : IntClass) (z : Z) :
  width cls <> 0 -> 2 ^ 63 <= z <= 2 ^ 64 -> in_range cls z = true ->
  call cls (PyInt z) =
  Raise (TypeError "ConstantOp: incompatible function arguments").
Proof.
  intros Hne Hz Hin. rewrite call_PyInt.
  rewrite (Int__init__int cls z Hne) by (apply small_no_overflow; lia).
  rewrite Hin, arith_ConstantOp_refuses by (right; lia). reflexivity.
Qed.

Lemma arith_method_literal (op : operation) (reversed : bool)
  (cls : IntClass) (v : Value) (z : Z) :
  well_formed cls v -> - 2 ^ 63 <= z < 2 ^ 63 ->
  arith_method op reversed cls v (PyInt z) =
    if in_range cls z
    then Return (PyObject cls
                   (if reversed
                    then arith_binary op (ConstantOp (lower_class cls) z) v
                    else arith_binary op v (ConstantOp (lower_class cls) z)))
    else Raise (ValueError (str_int z ++ " is out of range for " ++ name cls)).
Proof.
  intros Hv Hz.
  assert (Hne : width cls <> 0) by (destruct Hv; lia).
  pose proof (call_literal cls z Hne Hz) as Hinit.
  destruct (in_range cls z).
  - apply arith_method_cast; [exact Hv | | exact Hinit].
    split; [apply Hv | reflexivity].
  - unfold arith_method, _try_casting. rewrite Hinit. reflexivity.
Qed.

Lemma arith_method_Number (op : operation) (reversed : bool)
  (cls : IntClass) (v : Value) (x : pyobj) :
  is_Bool cls = false ->
  arith_method op reversed cls v (PyNumber x) =
  arith_method op reversed cls v x.
Proof.
  intros Hcls. unfold arith_method, _try_casting.
  rewrite (call_Number cls _ Hcls). reflexivity.
Qed.

Lemma compare_method_literal (signed unsigned : CmpIPredicate)
  (cls : IntClass) (v : Value) (z : Z) :
  is_Bool cls = false -> 0 < width cls -> - 2 ^ 63 <= z < 2 ^ 63 ->
  compare_method signed unsigned cls v (PyNumber (PyInt z)) =
    if in_range cls z
    then Return (PyObject Bool
                   (arith_CmpIOp (match sign cls with
                                  | SIGNED => signed
                                  | UNSIGNED => unsigned
                                  end) v (ConstantOp (lower_class cls) z)))
    else Raise (ValueError (str_int z ++ " is out of range for " ++ name cls)).
Proof.
  intros Hcls Hpos Hz.
  assert (Hne : width cls <> 0) by lia.
  pose proof (call_literal cls z Hne Hz) as Hinit.
  rewrite <- (call_Number cls _ Hcls) in Hinit.
  destruct (in_range cls z).
  - apply compare_method_cast; [| exact Hinit].
    split; [exact Hpos | reflexivity].
  - unfold compare_method, _try_casting. rewrite Hinit. reflexivity.
Qed.

(** X5.  A host integer, bare or wrapped in a [Number], as the operand of
    an arithmetic method of an instance of a class that inherits the
    methods of [Int] (not [Index]).  The integer is given to the
    constructor of the class of [self].  An integer that fits a signed
    literal of 64 bits becomes a constant of the type of [self] when it
    is in [val_range], and raises the range error of the constructor
    when it is not.  An integer of [val_range] from [2^63] on, which
    [UInt64] has, raises a [TypeError]: [arith.ConstantOp] does not take
    it. *)
Theorem arithmetic_binds_literal (op : operation) (reversed : bool)
  (cls : IntClass) (v : Value) (z : Z)
  (Hcls : is_Bool cls = false) (Hv : well_formed cls v) :
  arith_method op reversed cls v (PyNumber (PyInt z)) =
    arith_method op reversed cls v (PyInt z) /\
  (- 2 ^ 63 <= z < 2 ^ 63 ->
   arith_method op reversed cls v (PyInt z) =
     if in_range cls z
     then Return (PyObject cls
                    (if reversed
                     then arith_binary op (ConstantOp (lower_class cls) z) v
                     else arith_binary op v (ConstantOp (lower_class cls) z)))
     else Raise (ValueError
                   (str_int z ++ " is out of range for " ++ name cls))) /\
  (2 ^ 63 <= z <= 2 ^ 64 -> in_range cls z = true ->
   exists msg,
     arith_method op reversed cls v (PyInt z) = Raise (TypeError msg)).
Proof.
  split; [| split].
  - apply arith_method_Number. exact Hcls.
  - intros Hz. apply arith_method_literal; assumption.
  - intros Hz Hin. eexists. unfold arith_method, _try_casting.
    rewrite (call_literal_large cls z) by (destruct Hv; lia || assumption).
    reflexivity.
Qed.

(** X6.  The comparison methods of [Int], on two instances of classes
    that inherit the methods of [Int] ([UInt8] ... [SInt64] and classes
    declared like them; not [Index], which has its own [_try_casting]
    and its own cast [Int]).  The comparison builds [arith.CmpIOp] on the value of
    [self] and the cast operand, with the signed predicate for a signed
    class and the unsigned one for an unsigned class, and returns it as
    a [Bool]; an operand of another sign or of a greater width is a
    [TypeError]. *)
Theorem comparison_by_sign (signed unsigned : CmpIPredicate)
  (cls c : IntClass) (v w : Value)
  (Hcls : is_Bool cls = false)
  (Hv : well_formed cls v) (Hw : well_formed c w) :
  (sign c = sign cls -> width c <= width cls ->
   compare_method signed unsigned cls v (PyObject c w) =
   Return (PyObject Bool
             (arith_CmpIOp (match sign cls with
                            | SIGNED => signed
                            | UNSIGNED => unsigned
                            end) v (cast_value c cls w)))) /\
  (sign c <> sign cls \/ width cls < width c ->
   exists msg, compare_method signed unsigned cls v (PyObject c w) =
               Raise (TypeError msg)).
Proof.
  split.
  - intros Hs Hle.
    destruct (call_instance_cast c cls w Hcls (proj1 Hv) Hw Hs Hle)
      as [Hcast Hwf].
    apply compare_method_cast; assumption.
  - intros Hbad.
    destruct (call_instance_refused c cls w Hcls Hw Hbad) as [msg Hmsg].
    exists msg. unfold compare_method, _try_casting. rewrite Hmsg. reflexivity.
Qed.

End Int_operators.

Section Number_operators.
Context `{HostOperator}.

(** What the loop leaves under a name is an entry of that name, and there
    is one as soon as the table has an entry of that name. *)
Lemma setattr_loop_snoc (order : list BinNumberOp) (tup : BinNumberOp)
  (attr : string) :
  setattr_loop (order ++ [tup]) attr =
  if String.eqb (ldunder_name tup) attr then Some tup
  else setattr_loop order attr.
Proof. unfold setattr_loop. rewrite fold_left_app. reflexivity. Qed.

Lemma setattr_loop_last (order : list BinNumberOp) (attr : string) :
  match setattr_loop order attr with
  | Some tup => In tup order /\ ldunder_name tup = attr
  | None => forall tup, In tup order -> ldunder_name tup <> attr
  end.
Proof.
  induction order as [| tup order IH] using rev_ind.
  - intros tup [].
  - rewrite setattr_loop_snoc.
    destruct (String.eqb (ldunder_name tup) attr) eqn:Hname.
    + split; [apply in_or_app; right; left; reflexivity |].
      apply String.eqb_eq. exact Hname.
    + destruct (setattr_loop order attr) as [found |].
      * split; [apply in_or_app; left; apply IH | apply IH].
      * intros t Hin. apply in_app_or in Hin. destruct Hin as [Hin | [<- | []]].
        -- apply IH. exact Hin.
        -- apply String.eqb_neq. exact Hname.
Qed.

Lemma setattr_loop_entry (order : list BinNumberOp) (tup : BinNumberOp) :
  Permutation order bin_number_op -> In tup bin_number_op ->
  exists found,
    setattr_loop order (ldunder_name tup) = Some found /\
    In found bin_number_op /\ ldunder_name found = ldunder_name tup.
Proof.
  intros Hperm Hin.
  pose proof (setattr_loop_last order (ldunder_name tup)) as Hlast.
  destruct (setattr_loop order (ldunder_name tup)) as [found |].
  - exists found. destruct Hlast as [Hfound Hname].
    split; [reflexivity | split; [| exact Hname]].
    apply (Permutation_in _ Hperm). exact Hfound.
  - exfalso. apply (Hlast tup); [| reflexivity].
    apply (Permutation_in _ (Permutation_sym Hperm)). exact Hin.
Qed.

Ltac entry_of name :=
  match goal with
  | Hperm : Permutation ?order bin_number_op |- _ =>
      let found := fresh "found" in
      let Hfound := fresh "Hfound" in
      let Hin := fresh "Hin" in
      let Hname := fresh "Hname" in
      destruct (setattr_loop_entry order name Hperm) as
        (found & Hfound & Hin & Hname);
      [cbn; tauto |];
      cbn in Hin;
      repeat (destruct Hin as [<- | Hin];
              [try discriminate Hname |]);
      try contradiction
  end.

(** X7.  Two [Number]s of host integers are folded at once, whatever the
    order of the loop over the table: the sum, the difference, the
    product, the floor quotient and the remainder are the [Number] of the
    host result, and a zero divisor raises [ZeroDivisionError]. *)
Theorem Number_folds_arithmetic (order : list BinNumberOp) (a b : Z)
  (Hperm : Permutation order bin_number_op) :
  Number_call order "op_add" (PyInt a) (PyNumber (PyInt b)) =
    Return (PyNumber (PyInt (a + b))) /\
  Number_call order "op_sub" (PyInt a) (PyNumber (PyInt b)) =
    Return (PyNumber (PyInt (a - b))) /\
  Number_call order "op_mul" (PyInt a) (PyNumber (PyInt b)) =
    Return (PyNumber (PyInt (a * b))) /\
  (b <> 0 ->
   Number_call order "op_floordiv" (PyInt a) (PyNumber (PyInt b)) =
     Return (PyNumber (PyInt (a / b))) /\
   Number_call order "op_mod" (PyInt a) (PyNumber (PyInt b)) =
     Return (PyNumber (PyInt (a mod b)))) /\
  (exists msg,
      Number_call order "op_floordiv" (PyInt a) (PyNumber (PyInt 0)) =
        Raise (ZeroDivisionError msg)) /\
  (exists msg,
      Number_call order "op_mod" (PyInt a) (PyNumber (PyInt 0)) =
        Raise (ZeroDivisionError msg)).
Proof.
  unfold Number_call.
  split; [| split; [| split; [| split; [intros Hb; split | split]]]].
  - entry_of (Build_BinNumberOp "op_add" operator_add "op_radd" ret_Number).
    cbn [ldunder_name] in *. rewrite Hfound. reflexivity.
  - entry_of (Build_BinNumberOp "op_sub" operator_sub "op_rsub" ret_Number).
    cbn [ldunder_name] in *. rewrite Hfound. reflexivity.
  - entry_of (Build_BinNumberOp "op_mul" operator_mul "op_rmul" ret_Number).
    cbn [ldunder_name] in *. rewrite Hfound. reflexivity.
  - entry_of (Build_BinNumberOp "op_floordiv" operator_floordiv "op_rfloordiv" ret_Number).
    cbn [ldunder_name] in *. rewrite Hfound. cbn.
    apply Z.eqb_neq in Hb. rewrite Hb. reflexivity.
  - entry_of (Build_BinNumberOp "op_mod" operator_mod "op_rmod" ret_Number).
    cbn [ldunder_name] in *. rewrite Hfound. cbn.
    apply Z.eqb_neq in Hb. rewrite Hb. reflexivity.
  - entry_of (Build_BinNumberOp "op_floordiv" operator_floordiv "op_rfloordiv" ret_Number).
    cbn [ldunder_name] in *. rewrite Hfound. eexists. reflexivity.
  - entry_of (Build_BinNumberOp "op_mod" operator_mod "op_rmod" ret_Number).
    cbn [ldunder_name] in *. rewrite Hfound. eexists. reflexivity.
Qed.

(** X8.  The four order comparisons of two [Number]s of host integers
    are folded to the [Bool] of the host comparison: the constant 1 or 0
    of type i1. *)
Theorem Number_folds_comparison (order : list BinNumberOp) (a b : Z)
  (Hperm : Permutation order bin_number_op) :
  let constant (holds : bool) :=
    Return (PyObject Bool
              (ConstantOp (get_signless 1) (if holds then 1 else 0))) in
  Number_call order "op_lt" (PyInt a) (PyNumber (PyInt b)) = constant (a <? b) /\
  Number_call order "op_le" (PyInt a) (PyNumber (PyInt b)) = constant (a <=? b) /\
  Number_call order "op_ge" (PyInt a) (PyNumber (PyInt b)) = constant (a >=? b) /\
  Number_call order "op_gt" (PyInt a) (PyNumber (PyInt b)) = constant (a >? b).
Proof.
  unfold Number_call. cbv zeta.
  split; [| split; [| split]].
  - entry_of (Build_BinNumberOp "op_lt" operator_lt "op_gt" ret_Bool).
    cbn [ldunder_name] in *. rewrite Hfound. cbn. destruct (a <? b); reflexivity.
  - entry_of (Build_BinNumberOp "op_le" operator_le "op_ge" ret_Bool).
    cbn [ldunder_name] in *. rewrite Hfound. cbn. destruct (a <=? b); reflexivity.
  - entry_of (Build_BinNumberOp "op_ge" operator_ge "op_le" ret_Bool).
    cbn [ldunder_name] in *. rewrite Hfound. cbn. destruct (a >=? b); reflexivity.
  - entry_of (Build_BinNumberOp "op_gt" operator_gt "op_lt" ret_Bool).
    cbn [ldunder_name] in *. rewrite Hfound. cbn. destruct (a >? b); reflexivity.
Qed.

(** X9.  A [Number] that holds an integer, on the left of an instance of
    a class that inherits the methods of [Int] ([UInt8] ... [SInt64] and
    classes declared like them; not [Bool], not [Index]), hands the
    operation to the reflected method of the instance, which binds the
    literal to the class of the instance: for an integer of [val_range]
    that fits a signed literal of 64 bits, a constant of the type of the
    class.  The literal stays the first operand of the subtraction and
    of the division, which do not commute; the sum and the product take
    the instance first. *)
Theorem Number_reflected_arithmetic (order : list BinNumberOp) (z : Z)
  (cls : IntClass) (v : Value)
  (Hperm : Permutation order bin_number_op)
  (Hcls : is_Bool cls = false) (Hv : well_formed cls v)
  (Hz : - 2 ^ 63 <= z < 2 ^ 63) (Hin_range : in_range cls z = true) :
  let literal := ConstantOp (lower_class cls) z in
  Number_call order "op_add" (PyInt z) (PyObject cls v) =
    Return (PyObject cls (arith_binary AddIOp v literal)) /\
  Number_call order "op_sub" (PyInt z) (PyObject cls v) =
    Return (PyObject cls (arith_binary SubIOp literal v)) /\
  Number_call order "op_mul" (PyInt z) (PyObject cls v) =
    Return (PyObject cls (arith_binary MulIOp v literal)) /\
  Number_call order "op_floordiv" (PyInt z) (PyObject cls v) =
    Return (PyObject cls (arith_binary (floordiv_op cls) literal v)).
Proof.
  assert (Hlit : forall op reversed,
             arith_method op reversed cls v (PyNumber (PyInt z)) =
             Return (PyObject cls
                       (if reversed
                        then arith_binary op (ConstantOp (lower_class cls) z) v
                        else arith_binary op v (ConstantOp (lower_class cls) z)))).
  { intros op reversed. rewrite (arith_method_Number _ _ _ _ _ Hcls).
    rewrite (arith_method_literal _ _ _ _ _ Hv Hz), Hin_range. reflexivity. }
  unfold Number_call. cbv zeta.
  split; [| split; [| split]].
  - entry_of (Build_BinNumberOp "op_add" operator_add "op_radd" ret_Number).
    cbn [ldunder_name] in *. rewrite Hfound. apply (Hlit AddIOp false).
  - entry_of (Build_BinNumberOp "op_sub" operator_sub "op_rsub" ret_Number).
    cbn [ldunder_name] in *. rewrite Hfound. apply (Hlit SubIOp true).
  - entry_of (Build_BinNumberOp "op_mul" operator_mul "op_rmul" ret_Number).
    cbn [ldunder_name] in *. rewrite Hfound. apply (Hlit MulIOp false).
  - entry_of (Build_BinNumberOp "op_floordiv" operator_floordiv "op_rfloordiv" ret_Number).
    cbn [ldunder_name] in *. rewrite Hfound. apply (Hlit (floordiv_op cls) true).
Qed.

(** X10.  A comparison with a [Number] on the left of an instance of a
    class that inherits the methods of [Int] ([UInt8] ... [SInt64] and
    classes declared like them; not [Bool], not [Index]), where the
    [Number] holds an integer of [val_range] that fits a signed literal
    of 64 bits.  It is answered by the instance with the mirrored
    comparison: [n < x] is built as [x > n], [n <= x] as [x >= n],
    [n >= x] as [x <= n] and [n > x] as [x < n], each with the predicate
    of the sign of the class; [n == x], which on two [Number]s applies
    [operator.le], is here the comparison [eq]. *)
Theorem Number_reflected_comparison (order : list BinNumberOp) (z : Z)
  (cls : IntClass) (v : Value)
  (Hperm : Permutation order bin_number_op)
  (Hcls : is_Bool cls = false) (Hwidth : 0 < width cls)
  (Hz : - 2 ^ 63 <= z < 2 ^ 63) (Hin_range : in_range cls z = true) :
  let compared (signed unsigned : CmpIPredicate) :=
    Return (PyObject Bool
              (arith_CmpIOp (match sign cls with
                             | SIGNED => signed
                             | UNSIGNED => unsigned
                             end) v (ConstantOp (lower_class cls) z))) in
  Number_call order "op_lt" (PyInt z) (PyObject cls v) = compared p_sgt p_ugt /\
  Number_call order "op_le" (PyInt z) (PyObject cls v) = compared p_sge p_uge /\
  Number_call order "op_ge" (PyInt z) (PyObject cls v) = compared p_sle p_ule /\
  Number_call order "op_gt" (PyInt z) (PyObject cls v) = compared p_slt p_ult /\
  Number_call order "op_eq" (PyInt z) (PyObject cls v) = compared p_eq p_eq.
Proof.
  assert (Hlit : forall signed unsigned,
             compare_method signed unsigned cls v (PyNumber (PyInt z)) =
             Return (PyObject Bool
                       (arith_CmpIOp (match sign cls with
                                      | SIGNED => signed
                                      | UNSIGNED => unsigned
                                      end) v (ConstantOp (lower_class cls) z)))).
  { intros signed unsigned.
    rewrite (compare_method_literal _ _ _ _ _ Hcls Hwidth Hz), Hin_range.
    reflexivity. }
  unfold Number_call. cbv zeta.
  split; [| split; [| split; [| split]]].
  - entry_of (Build_BinNumberOp "op_lt" operator_lt "op_gt" ret_Bool).
    cbn [ldunder_name] in *. rewrite Hfound. apply (Hlit p_sgt p_ugt).
  - entry_of (Build_BinNumberOp "op_le" operator_le "op_ge" ret_Bool).
    cbn [ldunder_name] in *. rewrite Hfound. apply (Hlit p_sge p_uge).
  - entry_of (Build_BinNumberOp "op_ge" operator_ge "op_le" ret_Bool).
    cbn [ldunder_name] in *. rewrite Hfound. apply (Hlit p_sle p_ule).
  - entry_of (Build_BinNumberOp "op_gt" operator_gt "op_lt" ret_Bool).
    cbn [ldunder_name] in *. rewrite Hfound. apply (Hlit p_slt p_ult).
  - entry_of (Build_BinNumberOp "op_eq" operator_le "op_eq" ret_Bool).
    cbn [ldunder_name] in *. rewrite Hfound. apply (Hlit p_eq p_eq).
Qed.

(** X11.  Where the right operand has no reflected method the operator
    raises [AttributeError] with the reflected name of an entry of the
    table: for every operator when the operand is neither a [Number] nor
    an instance (a bare host number, [None], a tuple, an MLIR value), and
    for the division, the power, [divmod], the remainder, the shifts and
    the bitwise operators when the operand is an instance of a class
    that has the operator methods of [Int] and no others ([UInt8] ...
    [SInt64], [Bool] and classes declared like them; not [Index], which
    defines [op_rtruediv] as well). *)
Theorem Number_missing_reflection (order : list BinNumberOp)
  (tup : BinNumberOp) (a rhs : pyobj)
  (Hperm : Permutation order bin_number_op)
  (Htup : In tup bin_number_op)
  (Hrhs : match rhs with
          | PyNumber _ => False
          | PyObject _ _ =>
              In (ldunder_name tup)
                 [ "op_truediv"; "op_pow"; "op_divmod"; "op_mod";
                   "op_lshift"; "op_rshift"; "op_and"; "op_xor" ]
          | _ => True
          end) :
  exists found,
    In found bin_number_op /\ ldunder_name found = ldunder_name tup /\
    Number_call order (ldunder_name tup) a rhs =
    Raise (AttributeError (rdunder_name found)).
Proof.
  destruct (setattr_loop_entry order tup Hperm Htup)
    as (found & Hfound & Hin & Hname).
  exists found. split; [exact Hin | split; [exact Hname |]].
  unfold Number_call. rewrite Hfound.
  destruct rhs; try reflexivity; [| contradiction].
  rewrite <- Hname in Hrhs. clear - Hin Hrhs.
  unfold generic_bin_op, getattr_call.
  cbn in Hin.
  repeat (destruct Hin as [<- | Hin];
          [first [ reflexivity
                 | exfalso; cbn in Hrhs;
                   repeat (destruct Hrhs as [Hrhs | Hrhs];
                           [discriminate Hrhs |]);
                   exact Hrhs ] |]).
  contradiction.
Qed.

(** X12.  The table holds two entries under the name [op_xor], with
    [operator.xor] and with [operator.or_], and none under [op_or]; the
    loop runs over a set, and the entry it meets last stays.  So
    [Number(a).op_xor(Number(b))] is [a ^ b] or [a | b], each in some
    order of the loop, and a [Number] has no attribute [op_or]. *)
Theorem Number_op_xor_depends_on_order :
  (forall order a b,
      Permutation order bin_number_op ->
      Number_call order "op_xor" (PyInt a) (PyNumber (PyInt b)) =
        Return (PyNumber (PyInt (Z.lxor a b))) \/
      Number_call order "op_xor" (PyInt a) (PyNumber (PyInt b)) =
        Return (PyNumber (PyInt (Z.lor a b)))) /\
  (exists order,
      Permutation order bin_number_op /\
      forall a b,
        Number_call order "op_xor" (PyInt a) (PyNumber (PyInt b)) =
        Return (PyNumber (PyInt (Z.lxor a b)))) /\
  (exists order,
      Permutation order bin_number_op /\
      forall a b,
        Number_call order "op_xor" (PyInt a) (PyNumber (PyInt b)) =
        Return (PyNumber (PyInt (Z.lor a b)))) /\
  (forall order a rhs,
      Permutation order bin_number_op ->
      Number_call order "op_or" a rhs = Raise (AttributeError "op_or")).
Proof.
  split; [| split; [| split]].
  - intros order a b Hperm. unfold Number_call.
    destruct (setattr_loop_entry order
                (Build_BinNumberOp "op_xor" operator_xor "op_rxor" ret_Number)
                Hperm) as (found & Hfound & Hin & Hname); [cbn; tauto |].
    cbn [ldunder_name] in Hfound. rewrite Hfound.
    cbn in Hin.
    repeat (destruct Hin as [<- | Hin]; [try discriminate Hname |]);
      try contradiction.
    + left. reflexivity.
    + right. reflexivity.
  - exists (rev bin_number_op). split; [| intros a b; reflexivity].
    apply Permutation_sym, Permutation_rev.
  - exists bin_number_op. split; [| intros a b; reflexivity].
    apply Permutation_refl.
  - intros order a rhs Hperm. unfold Number_call.
    pose proof (setattr_loop_last order "op_or") as Hlast.
    destruct (setattr_loop order "op_or") as [found |]; [| reflexivity].
    exfalso. destruct Hlast as [Hin Hname].
    apply (Permutation_in _ Hperm) in Hin. cbn in Hin.
    repeat (destruct Hin as [<- | Hin]; [discriminate Hname |]).
    exact Hin.
Qed.

(** X13.  The generated unary operators of [Number] ([op_neg], [op_pos],
    [op_abs], [op_trunc], [op_floor], [op_ceil], [op_round],
    [op_invert]) look up their own name on the wrapped value.  No host
    number has an attribute of such a name, and neither has an MLIR value
    or an instance of an [Int] subclass, so on every value of the model,
    however many [Number]s wrap it, the operator raises [AttributeError]
    with its own name. *)
Theorem Number_unary_raises (attr : string) (self_value : pyobj)
  (Hattr : In attr un_number_op) :
  Number_unary_call attr self_value = Raise (AttributeError attr).
Proof.
  unfold Number_unary_call.
  replace (existsb (String.eqb attr) un_number_op) with true.
  - induction self_value; cbn [generic_unary_op bind]; try reflexivity.
    cbn [generic_unary_op bind] in IHself_value.
    destruct self_value; cbn [bind] in *; try reflexivity.
    + rewrite IHself_value. reflexivity.
  - symmetry. apply existsb_exists. exists attr.
    split; [exact Hattr | apply String.eqb_refl].
Qed.

End Number_operators.

Section Operator_examples.
#[local] Existing Instance no_float.
#[local] Existing Instance no_float_operator.

Lemma UInt16_value_well_formed :
  well_formed UInt16 (BlockArgument (get_signless 16) 0).
Proof. split; reflexivity. Defined.

Lemma UInt8_value_well_formed :
  well_formed UInt8 (BlockArgument (get_signless 8) 1).
Proof. split; reflexivity. Defined.

(** [UInt16(Number(5))] is an instance of [UInt16] of type i16. *)
Lemma constructor_result_typed_witness :
  0 < width UInt16 /\
  call UInt16 (PyNumber (PyInt 5)) =
    Return (PyObject UInt16 (ConstantOp (get_signless 16) 5)) /\
  exists v, PyObject UInt16 (ConstantOp (get_signless 16) 5) =
            PyObject UInt16 v /\ type_of v = get_signless 16.
Proof.
  split; [reflexivity |]. split; [reflexivity |].
  apply (constructor_result_typed UInt16 (PyNumber (PyInt 5))).
  - reflexivity.
  - discriminate.
  - discriminate.
  - reflexivity.
Defined.

(** [UInt16(x)] for an [x] of [UInt8] is a zero extension, and [UInt16]
    of that is the same object. *)
Lemma constructor_idempotent_witness :
  call UInt16 (PyObject UInt8 (BlockArgument (get_signless 8) 1)) =
    Return (PyObject UInt16
              (arith_Ext ExtUIOp (get_signless 16)
                 (BlockArgument (get_signless 8) 1))) /\
  call UInt16
    (PyObject UInt16
       (arith_Ext ExtUIOp (get_signless 16)
          (BlockArgument (get_signless 8) 1))) =
    Return (PyObject UInt16
              (arith_Ext ExtUIOp (get_signless 16)
                 (BlockArgument (get_signless 8) 1))).
Proof.
  split; [reflexivity |].
  apply (constructor_idempotent UInt16
           (PyObject UInt8 (BlockArgument (get_signless 8) 1))).
  - reflexivity.
  - discriminate.
  - reflexivity.
Defined.

Lemma operators_closed_witness :
  0 < width SInt8 /\
  op_rsub SInt8 (ConstantOp (get_signless 8) 5) (PyInt 7) =
    Return (PyObject SInt8
              (arith_binary SubIOp (ConstantOp (get_signless 8) 7)
                 (ConstantOp (get_signless 8) 5))) /\
  exists v,
    PyObject SInt8
      (arith_binary SubIOp (ConstantOp (get_signless 8) 7)
         (ConstantOp (get_signless 8) 5)) = PyObject SInt8 v /\
    type_of v = get_signless 8.
Proof.
  split; [reflexivity |]. split; [reflexivity |].
  apply (proj1 (operators_closed SInt8 (ConstantOp (get_signless 8) 5)
                  (PyInt 7) _ eq_refl
                  (fun Hb : is_Bool SInt8 = true =>
                     False_ind _ (Bool.diff_false_true Hb)))
           SubIOp true).
  reflexivity.
Defined.

(** [x + y] for [x] of [UInt16] and [y] of [UInt8] extends [y];
    [y + x] is refused. *)
Lemma arithmetic_casts_operand_witness :
  op_add UInt16 (BlockArgument (get_signless 16) 0)
    (PyObject UInt8 (BlockArgument (get_signless 8) 1)) =
    Return (PyObject UInt16
              (arith_binary AddIOp (BlockArgument (get_signless 16) 0)
                 (arith_Ext ExtUIOp (get_signless 16)
                    (BlockArgument (get_signless 8) 1)))) /\
  exists msg,
    op_add UInt8 (BlockArgument (get_signless 8) 1)
      (PyObject UInt16 (BlockArgument (get_signless 16) 0)) =
    Raise (TypeError msg).
Proof.
  split.
  - apply (proj1 (arithmetic_casts_operand AddIOp false UInt16 UInt8 _ _
                    eq_refl UInt16_value_well_formed UInt8_value_well_formed)).
    + reflexivity.
    + discriminate.
  - apply (proj2 (arithmetic_casts_operand AddIOp false UInt8 UInt16 _ _
                    eq_refl UInt8_value_well_formed UInt16_value_well_formed)).
    right. reflexivity.
Defined.

(** [UInt16(8) + a] for the literal [a = 5] adds the constant 5 of type
    i16; [x + 2**63] for [x] of [UInt64] raises a [TypeError] although
    the literal is in range. *)
Lemma arithmetic_binds_literal_witness :
  op_add UInt16 (ConstantOp (get_signless 16) 8) (PyNumber (PyInt 5)) =
    op_add UInt16 (ConstantOp (get_signless 16) 8) (PyInt 5) /\
  op_add UInt16 (ConstantOp (get_signless 16) 8) (PyInt 5) =
    Return (PyObject UInt16
              (arith_binary AddIOp (ConstantOp (get_signless 16) 8)
                 (ConstantOp (get_signless 16) 5))) /\
  in_range UInt64 (2 ^ 63) = true /\
  exists msg,
    op_add UInt64 (BlockArgument (get_signless 64) 0) (PyInt (2 ^ 63)) =
    Raise (TypeError msg).
Proof.
  destruct (arithmetic_binds_literal AddIOp false UInt16
              (ConstantOp (get_signless 16) 8) 5 eq_refl
              (conj eq_refl eq_refl)) as (Hnumber & Hsmall & _).
  destruct (arithmetic_binds_literal AddIOp false UInt64
              (BlockArgument (get_signless 64) 0) (2 ^ 63) eq_refl
              (conj eq_refl eq_refl)) as (_ & _ & Hlarge).
  split; [exact Hnumber |].
  split; [apply Hsmall; split; [intros Hc; discriminate Hc | reflexivity] |].
  split; [reflexivity |].
  apply Hlarge; [| reflexivity].
  split; intros Hc; discriminate Hc.
Defined.

Lemma comparison_by_sign_witness :
  op_lt SInt8 (ConstantOp (get_signless 8) 5)
    (PyObject SInt8 (BlockArgument (get_signless 8) 0)) =
    Return (PyObject Bool
              (arith_CmpIOp p_slt (ConstantOp (get_signless 8) 5)
                 (BlockArgument (get_signless 8) 0))) /\
  op_lt UInt8 (BlockArgument (get_signless 8) 1)
    (PyObject UInt8 (BlockArgument (get_signless 8) 1)) =
    Return (PyObject Bool
              (arith_CmpIOp p_ult (BlockArgument (get_signless 8) 1)
                 (BlockArgument (get_signless 8) 1))).
Proof.
  split.
  - apply (proj1 (comparison_by_sign p_slt p_ult SInt8 SInt8 _ _ eq_refl
                    SInt8_value_well_formed
                    (conj eq_refl eq_refl
                     : well_formed SInt8 (BlockArgument (get_signless 8) 0)))).
    + reflexivity.
    + discriminate.
  - apply (proj1 (comparison_by_sign p_slt p_ult UInt8 UInt8 _ _ eq_refl
                    UInt8_value_well_formed UInt8_value_well_formed)).
    + reflexivity.
    + discriminate.
Defined.

Lemma Number_folds_arithmetic_witness :
  Permutation bin_number_op bin_number_op /\
  Number_call bin_number_op "op_sub" (PyInt 7) (PyNumber (PyInt 9)) =
    Return (PyNumber (PyInt (-2))) /\
  Number_call bin_number_op "op_floordiv" (PyInt (-7)) (PyNumber (PyInt 2)) =
    Return (PyNumber (PyInt (-4))).
Proof.
  split; [apply Permutation_refl |].
  pose proof (Number_folds_arithmetic bin_number_op 7 9 (Permutation_refl _))
    as (_ & Hsub & _).
  pose proof (Number_folds_arithmetic bin_number_op (-7) 2 (Permutation_refl _))
    as (_ & _ & _ & Hdiv & _).
  split; [exact Hsub |].
  apply Hdiv. discriminate.
Defined.

Lemma Number_folds_comparison_witness :
  Permutation bin_number_op bin_number_op /\
  Number_call bin_number_op "op_ge" (PyInt 3) (PyNumber (PyInt 3)) =
    Return (PyObject Bool (ConstantOp (get_signless 1) 1)).
Proof.
  split; [apply Permutation_refl |].
  exact (proj1 (proj2 (proj2
           (Number_folds_comparison bin_number_op 3 3 (Permutation_refl _))))).
Defined.

(** [5 - x] for [x] of [SInt8] subtracts [x] from the constant. *)
Lemma Number_reflected_arithmetic_witness :
  Permutation bin_number_op bin_number_op /\
  Number_call bin_number_op "op_sub" (PyInt 5)
    (PyObject SInt8 (ConstantOp (get_signless 8) 5)) =
    Return (PyObject SInt8
              (arith_binary SubIOp (ConstantOp (get_signless 8) 5)
                 (ConstantOp (get_signless 8) 5))).
Proof.
  split; [apply Permutation_refl |].
  assert (Hz : - 2 ^ 63 <= 5 < 2 ^ 63)
    by (split; [intros Hc; discriminate Hc | reflexivity]).
  exact (proj1 (proj2
           (Number_reflected_arithmetic bin_number_op 5 SInt8 _
              (Permutation_refl _) eq_refl SInt8_value_well_formed Hz
              eq_refl))).
Defined.

(** [3 < x] for [x] of [UInt8] asks whether [x] is greater than 3. *)
Lemma Number_reflected_comparison_witness :
  Permutation bin_number_op bin_number_op /\
  Number_call bin_number_op "op_lt" (PyInt 3)
    (PyObject UInt8 (BlockArgument (get_signless 8) 1)) =
    Return (PyObject Bool
              (arith_CmpIOp p_ugt (BlockArgument (get_signless 8) 1)
                 (ConstantOp (get_signless 8) 3))).
Proof.
  split; [apply Permutation_refl |].
  assert (Hz : - 2 ^ 63 <= 3 < 2 ^ 63)
    by (split; [intros Hc; discriminate Hc | reflexivity]).
  exact (proj1
           (Number_reflected_comparison bin_number_op 3 UInt8
              (BlockArgument (get_signless 8) 1)
              (Permutation_refl _) eq_refl eq_refl Hz eq_refl)).
Defined.

(** [Number(2) ** x] for [x] of [UInt8], and [Number(1) + 2] with a bare
    host integer on the right. *)
Lemma Number_missing_reflection_witness :
  (exists found,
      In found bin_number_op /\ ldunder_name found = "op_pow" /\
      Number_call bin_number_op "op_pow" (PyInt 2)
        (PyObject UInt8 (BlockArgument (get_signless 8) 1)) =
      Raise (AttributeError (rdunder_name found))) /\
  (exists found,
      In found bin_number_op /\ ldunder_name found = "op_add" /\
      Number_call bin_number_op "op_add" (PyInt 1) (PyInt 2) =
      Raise (AttributeError (rdunder_name found))).
Proof.
  split.
  - apply (Number_missing_reflection bin_number_op
             (Build_BinNumberOp "op_pow" operator_pow "op_rpow" ret_Number)
             (PyInt 2) (PyObject UInt8 (BlockArgument (get_signless 8) 1))
             (Permutation_refl _)).
    + cbn. tauto.
    + cbn. tauto.
  - apply (Number_missing_reflection bin_number_op
             (Build_BinNumberOp "op_add" operator_add "op_radd" ret_Number)
             (PyInt 1) (PyInt 2) (Permutation_refl _)).
    + cbn. tauto.
    + exact I.
Defined.

Lemma Number_unary_raises_witness :
  In "op_neg" un_number_op /\
  Number_unary_call "op_neg" (PyInt 5) = Raise (AttributeError "op_neg").
Proof.
  split; [left; reflexivity |].
  apply (Number_unary_raises "op_neg" (PyInt 5)). left. reflexivity.
Defined.

End Operator_examples.

(* ================================================================== *)
(** * Further properties of the marshaller *)
(* ================================================================== *)

Section Marshaller_further.
Context {pyval : Type} `{Ctypes pyval}.

(** Induction on a host object, with the property at hand for every
    member of an instance. *)
Lemma cdata_tree_ind (P : cdata pyval -> Prop) :
  (forall v, P (Raw v)) ->
  (forall ct members,
      Forall (fun member => P (snd member)) members ->
      P (Instance ct members)) ->
  forall s, P s.
Proof.
  intros Hraw Hinstance.
  fix IH 1. intros [v | ct members].
  - apply Hraw.
  - apply Hinstance. induction members as [| [st field] members IHm];
      constructor.
    + apply IH.
    + exact IHm.
Qed.

Lemma same_shape_wrappers (n : nat) (t : CTypeTreeType)
  (v : CTypeTree pyval) :
  same_shape (wrappers n t) (add_shells n v) = same_shape t v.
Proof.
  induction n as [| n IH]; [reflexivity |].
  change (wrappers (S n) t) with (CT_tuple [wrappers n t]).
  rewrite add_shells_S. cbn [same_shape all2]. rewrite IH.
  apply andb_true_r.
Qed.

Lemma plain_add_shells (n : nat) (v : CTypeTree pyval) :
  plain (add_shells n v) = plain v.
Proof.
  induction n as [| n IH]; [reflexivity |].
  rewrite add_shells_S. cbn [plain forallb]. rewrite IH.
  apply andb_true_r.
Qed.

(** What the loop over the shells of a member exits with: the tree
    under its chain of length-1 tuples. *)
Lemma member_shell_loop_exit (t : CTypeTreeType) :
  t = wrappers (fst (member_shell_loop 0 t)) (snd (member_shell_loop 0 t)) /\
  (forall t0, snd (member_shell_loop 0 t) <> CT_tuple [t0]).
Proof.
  induction t as [c | ts IH] using CTypeTreeType_tree_ind.
  - split; [reflexivity | discriminate].
  - destruct ts as [| t0 [| t1 ts]].
    + split; [reflexivity | discriminate].
    + inversion IH as [| ? ? [Ht0 Hexit] _]; subst.
      rewrite member_shell_loop_shell. cbn [fst snd]. split; [| exact Hexit].
      change (wrappers (S (fst (member_shell_loop 0 t0)))
                (snd (member_shell_loop 0 t0)))
        with (CT_tuple [wrappers (fst (member_shell_loop 0 t0))
                          (snd (member_shell_loop 0 t0))]).
      rewrite <- Ht0. reflexivity.
    + split; [reflexivity | discriminate].
Qed.

(** What the first loop exits with, when it exits: a tuple that is not of
    length 1, under the shells that were counted. *)
Lemma tuple_shell_loop_exit (t : CTypeTreeType) :
  forall (n : nat) (t' : CTypeTreeType),
    is_tuple t = true ->
    tuple_shell_loop 0 t = Return (n, t') ->
    t = wrappers n t' /\
    exists ts', t' = CT_tuple ts' /\ List.length ts' <> 1%nat.
Proof.
  induction t as [c | ts IH] using CTypeTreeType_tree_ind;
    intros n t' Htuple Hloop; [discriminate Htuple |].
  destruct ts as [| t0 [| t1 ts]].
  - injection Hloop as <- <-. split; [reflexivity |].
    exists []. split; [reflexivity | discriminate].
  - destruct t0 as [c0 | ts0]; [discriminate Hloop |].
    inversion IH as [| ? ? Ht0 _]; subst.
    assert (Hstep : tuple_shell_loop 0 (CT_tuple [CT_tuple ts0]) =
                    tuple_shell_loop 1 (CT_tuple ts0)) by reflexivity.
    rewrite Hstep, tuple_shell_loop_acc in Hloop.
    destruct (tuple_shell_loop 0 (CT_tuple ts0)) as [[m u] | e |] eqn:Hinner;
      cbn [bind fst snd] in Hloop; try discriminate Hloop.
    injection Hloop as <- <-.
    destruct (Ht0 m u eq_refl eq_refl) as [Heq Hexit].
    split; [| exact Hexit].
    change (CT_tuple [CT_tuple ts0] = CT_tuple [wrappers m u]).
    rewrite <- Heq. reflexivity.
  - injection Hloop as <- <-. split; [reflexivity |].
    exists (t0 :: t1 :: ts). split; [reflexivity | discriminate].
Qed.

(** The first loop fails to exit exactly on the tuples that collapse to a
    ctypes class. *)
Lemma tuple_shell_loop_Diverge (t : CTypeTreeType) :
  forall k : nat,
    is_tuple t = true ->
    (tuple_shell_loop k t = Diverge <->
     is_Structure_class (collapse t) = false).
Proof.
  induction t as [c | ts IH] using CTypeTreeType_tree_ind;
    intros k Htuple; [discriminate Htuple |].
  destruct ts as [| t0 [| t1 ts]].
  - split; discriminate.
  - destruct t0 as [c0 | ts0].
    + split; reflexivity.
    + inversion IH as [| ? ? Ht0 _]; subst.
      exact (Ht0 (S k) eq_refl).
  - split; discriminate.
Qed.

Lemma tuple_shell_loop_never_raises (t : CTypeTreeType) :
  forall (k : nat) (e : exn), tuple_shell_loop k t <> Raise e.
Proof.
  induction t as [c | ts IH] using CTypeTreeType_tree_ind; intros k e;
    [discriminate |].
  destruct ts as [| t0 [| t1 ts]]; try discriminate.
  destruct t0 as [c0 | ts0]; [discriminate |].
  inversion IH as [| ? ? Ht0 _]; subst. exact (Ht0 (S k) e).
Qed.

Lemma each2_Return_all2 {A B C : Type} (g : A -> B -> outcome C)
  (f : B -> C -> bool) (la : list A) (lb : list B) :
  List.length la = List.length lb ->
  Forall (fun a => forall b c, g a b = Return c -> f b c = true) la ->
  forall cs, each2 g la lb = Return cs -> all2 f lb cs = true.
Proof.
  revert lb. induction la as [| a la IH]; intros [| b lb] Hlen Hall cs Heach;
    try discriminate Hlen.
  - injection Heach as <-. reflexivity.
  - inversion Hall as [| ? ? Ha Hrest]; subst.
    cbn [each2] in Heach.
    destruct (g a b) as [c | e |] eqn:Hg; cbn [bind] in Heach;
      try discriminate Heach.
    destruct (each2 g la lb) as [cs' | e |] eqn:Heach'; cbn [bind] in Heach;
      try discriminate Heach.
    injection Heach as <-. cbn [all2].
    rewrite (Ha b c Hg). cbn [andb].
    apply (IH lb); [injection Hlen as Hlen; exact Hlen | exact Hrest |].
    exact Heach'.
Qed.

(** X14.  The docstring of [CTypeTree_from_Structure]: the returned value
    has the same tuple structure as [ct].  Whatever structure it is given,
    a tree that the function returns has the nesting and the lengths of
    the type tree at every level. *)
Theorem from_Structure_keeps_shape (s : cdata pyval) :
  forall (ct : CTypeTreeType) (c : CTypeTree pyval),
    CTypeTree_from_Structure ct s = Return c -> same_shape ct c = true.
Proof.
  induction s as [v | ct0 members IH] using cdata_tree_ind;
    intros ct c Hfrom; [discriminate Hfrom |].
  destruct ct as [c0 | ts]; [discriminate Hfrom |].
  rewrite CTypeTree_from_Structure_eq in Hfrom.
  destruct (tuple_shell_loop 0 (CT_tuple ts)) as [[n ct'] | e |] eqn:Hloop;
    cbn [bind] in Hfrom; try discriminate Hfrom.
  destruct (tuple_shell_loop_exit (CT_tuple ts) n ct' eq_refl Hloop)
    as [Hwrap (ts' & -> & Hone)].
  destruct (Nat.eqb_spec (List.length ts') (List.length members))
    as [Hlen | Hlen]; cbn [negb] in Hfrom; [| discriminate Hfrom].
  destruct (each2 member_from members ts') as [ret | e |] eqn:Heach;
    cbn [bind] in Hfrom; try discriminate Hfrom.
  injection Hfrom as <-.
  rewrite Hwrap, same_shape_wrappers. cbn [same_shape].
  apply (each2_Return_all2 member_from same_shape members ts');
    [symmetry; exact Hlen | | exact Heach].
  clear - IH. induction IH as [| [st field] members Hfield _ IHm];
    constructor; [| exact IHm].
  intros t r. unfold member_from.
  destruct (member_shell_loop_exit t) as [Ht _].
  destruct (member_shell_loop 0 t) as [k t']. cbn [fst snd] in Ht.
  destruct (is_Structure_class st) eqn:Hst; cbn [negb andb].
  - destruct (CTypeTree_from_Structure t' field) as [val | e |] eqn:Hval;
      cbn [bind]; try discriminate.
    intros Hr. injection Hr as <-.
    rewrite Ht, same_shape_wrappers. apply Hfield. exact Hval.
  - cbn [bind]. destruct (differs t' st) eqn:Hdiff; [discriminate |].
    intros Hr. injection Hr as <-.
    rewrite Ht, same_shape_wrappers.
    destruct t'; [reflexivity | discriminate Hdiff].
Qed.

(** No call on a member of a structure fails to return: the tree that
    the loop over the shells of a member leaves is not a tuple of length
    1. *)
Lemma from_Structure_Diverge_root (s : cdata pyval) :
  forall ct : CTypeTreeType,
    CTypeTree_from_Structure ct s = Diverge ->
    is_tuple ct = true /\ tuple_shell_loop 0 ct = Diverge.
Proof.
  induction s as [v | ct0 members IH] using cdata_tree_ind;
    intros ct Hfrom; [discriminate Hfrom |].
  destruct ct as [c0 | ts]; [discriminate Hfrom |].
  split; [reflexivity |].
  rewrite CTypeTree_from_Structure_eq in Hfrom.
  destruct (tuple_shell_loop 0 (CT_tuple ts)) as [[n ct'] | e |] eqn:Hloop;
    cbn [bind] in Hfrom; try discriminate Hfrom; [| reflexivity].
  exfalso.
  destruct (negb _); [discriminate Hfrom |].
  destruct (each2 member_from members _) as [ret | e |] eqn:Heach;
    cbn [bind] in Hfrom; try discriminate Hfrom.
  destruct (each2_Diverge _ _ _ Heach) as ([st field] & t & Hin & _ & Hmember).
  rewrite Forall_forall in IH. specialize (IH _ Hin). cbn [snd] in IH.
  unfold member_from in Hmember.
  destruct (member_shell_loop_exit t) as [_ Hexit].
  destruct (member_shell_loop 0 t) as [k t']. cbn [fst snd] in Hexit.
  destruct (is_Structure_class st); cbn [negb andb bind] in Hmember.
  - destruct (CTypeTree_from_Structure t' field) as [val | e |] eqn:Hval;
      cbn [bind] in Hmember; try discriminate Hmember.
    destruct (IH t' Hval) as [Htuple Hdiv].
    destruct t' as [c' | [| u0 [| u1 us]]]; try discriminate Hdiv.
    apply (Hexit u0). reflexivity.
  - destruct (differs t' st); discriminate Hmember.
Qed.

(** X15.  [CTypeTree_from_Structure] on a structure instance fails to
    return exactly when the type tree is a tuple that collapses to a
    ctypes class, that is a chain of length-1 tuples down to a class.  On
    every other type tree, whatever the instance holds and however deep
    the nesting, the function returns a tree or raises. *)
Theorem from_Structure_terminates (ct : CTypeTreeType)
  (ct0 : list CTypeTreeType) (members : list (native_type * cdata pyval)) :
  CTypeTree_from_Structure ct (Instance ct0 members) = Diverge <->
  is_tuple ct = true /\ is_Structure_class (collapse ct) = false.
Proof.
  split.
  - intros Hfrom.
    destruct (from_Structure_Diverge_root _ _ Hfrom) as [Htuple Hloop].
    split; [exact Htuple |].
    apply (tuple_shell_loop_Diverge ct 0 Htuple). exact Hloop.
  - intros [Htuple Hscalar].
    apply (tuple_shell_loop_Diverge ct 0 Htuple) in Hscalar.
    destruct ct as [c | ts]; [discriminate Htuple |].
    rewrite CTypeTree_from_Structure_eq, Hscalar. reflexivity.
Qed.

(** Reading a member of the type of its node. *)
Lemma member_from_has_type (t : CTypeTreeType) :
  forall s : cdata pyval,
    has_type s (collapse t) = true ->
    exists c, member_from (collapse t, s) t = Return c /\
              same_shape t c = true /\ plain c = true.
Proof.
  induction t as [c0 | ts IH] using CTypeTreeType_tree_ind; intros s Htype.
  - destruct s as [v | ? ?]; [| discriminate Htype].
    exists (C_val (Raw v)). unfold member_from. cbn.
    rewrite ctype_eqb_refl. repeat split.
  - destruct (Nat.eq_dec (List.length ts) 1) as [Hone | Hone].
    + destruct ts as [| t0 [| t1 ts]]; try discriminate Hone.
      inversion IH as [| ? ? Ht0 _]; subst.
      destruct (Ht0 s Htype) as (c & Hc & Hshape & Hplain).
      exists (C_tuple [c]).
      assert (Hcollapse : collapse (CT_tuple [t0]) = collapse t0)
        by reflexivity.
      rewrite Hcollapse, member_from_shell, Hc.
      cbn [bind same_shape all2 plain forallb].
      rewrite Hshape, Hplain. repeat split.
    + rewrite (collapse_struct ts Hone) in Htype |- *.
      destruct s as [v | ct0 members]; [discriminate Htype |].
      cbn [has_type] in Htype. apply andb_true_iff in Htype.
      destruct Htype as [_ Hmembers].
      assert (Hlen : List.length ts = List.length members).
      { apply all2_length in Hmembers. rewrite length_map in Hmembers.
        symmetry. exact Hmembers. }
      rewrite (member_from_struct ts _ _ _ Hone).
      rewrite (CTypeTree_from_Structure_struct ts ct0 members Hone Hlen).
      assert (Heach : exists cs,
                 each2 member_from members ts = Return cs /\
                 all2 same_shape ts cs = true /\ forallb plain cs = true).
      { clear Hlen Hone. revert members Hmembers.
        induction IH as [| t ts Ht _ IHts]; intros [| [st field] members] Hall;
          try discriminate Hall.
        - exists []. repeat split.
        - cbn [map all2] in Hall.
          apply andb_true_iff in Hall. destruct Hall as [Hhead Hrest].
          apply andb_true_iff in Hhead. destruct Hhead as [Hst Hfield].
          apply native_type_eqb_eq in Hst. subst st.
          destruct (Ht field Hfield) as (c & Hc & Hshape & Hplain).
          destruct (IHts members Hrest) as (cs & Hcs & Hshapes & Hplains).
          exists (c :: cs). cbn [each2]. rewrite Hc, Hcs.
          cbn [bind all2 forallb]. rewrite Hshape, Hshapes, Hplain, Hplains.
          repeat split. }
      destruct Heach as (cs & Hcs & Hshapes & Hplains).
      exists (C_tuple cs). rewrite Hcs. repeat split; assumption.
Qed.

(** X16.  The way back is total on the structures of the class of the
    type tree: for a tuple that collapses to a structure class and an
    instance of that class, whatever values its fields hold and at
    whatever depth, [CTypeTree_from_Structure] returns a tree of the
    shape of the type tree with plain values at its leaves.  So reading
    the return structure that a native function has filled raises no
    mismatch error. *)
Theorem from_Structure_reads_class (ct : CTypeTreeType) (s : cdata pyval)
  (Htuple : is_tuple ct = true)
  (Hstruct : is_Structure_class (collapse ct) = true)
  (Htype : has_type s (collapse ct) = true) :
  exists c, CTypeTree_from_Structure ct s = Return c /\
            same_shape ct c = true /\ plain c = true.
Proof.
  destruct (member_from_has_type ct s Htype) as (c & Hc & Hshape & Hplain).
  exists c. split; [| split; assumption].
  destruct (collapse ct) as [t | st_ct fields] eqn:Hcollapse;
    [discriminate Hstruct |].
  destruct s as [v | ct0 members]; [discriminate Htype |].
  rewrite <- Hc. symmetry.
  rewrite <- Hcollapse in Hstruct.
  apply (member_from_structure ct Htuple Hstruct).
Qed.


(** X18.  Length-1 tuples around a tuple are transparent in all three
    conversions: the native type under [n] wrappers is the native type of
    the tuple, the value under [n] shells is converted as the value
    itself, and the way back, from a structure instance, returns what it
    returns for the tuple with the [n] shells put back around it. *)
Theorem wrappers_are_transparent (n : nat) (ct : CTypeTreeType)
  (Htuple : is_tuple ct = true) :
  CTypeTreeType_to_Structure (wrappers n ct) = CTypeTreeType_to_Structure ct /\
  (forall c : CTypeTree pyval,
      CTypeTree_to_Structure (wrappers n ct) (add_shells n c) =
      CTypeTree_to_Structure ct c) /\
  (forall ct0 (members : list (native_type * cdata pyval)),
      CTypeTree_from_Structure (wrappers n ct) (Instance ct0 members) =
      (r <- CTypeTree_from_Structure ct (Instance ct0 members) ;;
       Return (add_shells n r))).
Proof.
  destruct ct as [t | ts]; [discriminate Htuple |].
  split; [| split].
  - induction n as [| n IH]; [reflexivity |].
    change (wrappers (S n) (CT_tuple ts))
      with (CT_tuple [wrappers n (CT_tuple ts)]).
    rewrite CTypeTreeType_to_Structure_eq. rewrite <- IH.
    destruct n; reflexivity.
  - intros c. induction n as [| n IH]; [reflexivity |].
    change (wrappers (S n) (CT_tuple ts))
      with (CT_tuple [wrappers n (CT_tuple ts)]).
    rewrite add_shells_S, CTypeTree_to_Structure_eq.
    cbn [List.length Nat.eqb negb]. rewrite <- IH.
    destruct n; reflexivity.
  - intros ct0 members. induction n as [| n IH].
    + cbn [wrappers add_shells Nat.iter].
      destruct (CTypeTree_from_Structure _ _); reflexivity.
    + assert (Hinner : exists us, wrappers n (CT_tuple ts) = CT_tuple us).
      { destruct n; eexists; reflexivity. }
      destruct Hinner as [us Hus].
      change (wrappers (S n) (CT_tuple ts))
        with (CT_tuple [wrappers n (CT_tuple ts)]).
      rewrite Hus, CTypeTree_from_Structure_shell, <- Hus, IH.
      destruct (CTypeTree_from_Structure (CT_tuple ts) (Instance ct0 members));
        reflexivity.
Qed.

End Marshaller_further.

(* ================================================================== *)
(** * Further properties of CTarget *)
(* ================================================================== *)

Section CTarget_further.
Context `{HostFloat} `{Ctypes pyobj}.

Lemma each_Forall2 {A C : Type} (g : A -> outcome C) (l : list A)
  (cs : list C) :
  each g l = Return cs -> Forall2 (fun a c => g a = Return c) l cs.
Proof.
  revert cs. induction l as [| a l IH]; intros cs Heach.
  - injection Heach as <-. constructor.
  - cbn [each] in Heach.
    destruct (g a) as [c | |] eqn:Hg; cbn [bind] in Heach;
      try discriminate Heach.
    destruct (each g l) as [cs' | |]; cbn [bind] in Heach;
      try discriminate Heach.
    injection Heach as <-. constructor; [exact Hg | apply IH; reflexivity].
Qed.

Lemma Forall2_each {A C : Type} (g : A -> outcome C) (l : list A)
  (cs : list C) :
  Forall2 (fun a c => g a = Return c) l cs -> each g l = Return cs.
Proof.
  induction 1 as [| a c l cs Hg _ IH]; [reflexivity |].
  cbn [each]. rewrite Hg, IH. reflexivity.
Qed.

Lemma each2_Forall2 {A B C : Type} (g : A -> B -> outcome C)
  (la : list A) (lb : list B) (cs : list C) :
  List.length la = List.length lb ->
  each2 g la lb = Return cs ->
  Forall2 (fun ab c => g (fst ab) (snd ab) = Return c) (combine la lb) cs.
Proof.
  revert lb cs. induction la as [| a la IH]; intros [| b lb] cs Hlen Heach;
    try discriminate Hlen.
  - injection Heach as <-. constructor.
  - cbn [each2] in Heach.
    destruct (g a b) as [c | |] eqn:Hg; cbn [bind] in Heach;
      try discriminate Heach.
    destruct (each2 g la lb) as [cs' | |] eqn:Hrest; cbn [bind] in Heach;
      try discriminate Heach.
    injection Heach as <-. cbn [combine]. constructor; [exact Hg |].
    apply IH; [injection Hlen as Hlen; exact Hlen | exact Hrest].
Qed.

(** The type trees of the annotations are tuples, one for each
    annotation. *)
Lemma each_type_to_CType_Forall2 {A : Type} (h : A -> SupportsCType)
  (l : list A) (cts : list CTypeTreeType) :
  each (fun a => type_to_CType (h a)) l = Return cts ->
  Forall2 (fun a ct => exists ts, CType (h a) = Return ts /\ ct = CT_tuple ts)
    l cts.
Proof.
  intros Heach. apply each_Forall2 in Heach.
  induction Heach as [| a ct l cts Ha _ IH]; constructor; [| exact IH].
  unfold type_to_CType in Ha.
  destruct (CType (h a)) as [ts | |]; cbn [bind] in Ha; try discriminate Ha.
  injection Ha as <-. exists ts. split; reflexivity.
Qed.

Lemma Forall2_tuples {A : Type} (h : A -> SupportsCType) (l : list A)
  (cts : list CTypeTreeType) :
  Forall2 (fun a ct => exists ts, CType (h a) = Return ts /\ ct = CT_tuple ts)
    l cts ->
  Forall (fun ct => is_tuple ct = true) cts /\
  List.length cts = List.length l.
Proof.
  induction 1 as [| a ct l cts (ts & _ & ->) _ [IH1 IH2]].
  - split; [constructor | reflexivity].
  - split; [constructor; [reflexivity | exact IH1] | cbn; f_equal; exact IH2].
Qed.

Lemma each_CTypeTreeType_to_Structure (cts : list CTypeTreeType) :
  Forall (fun ct => is_tuple ct = true) cts ->
  each CTypeTreeType_to_Structure cts = Return (map collapse cts).
Proof.
  induction 1 as [| ct cts Hct _ IH]; [reflexivity |].
  cbn [each map]. destruct ct as [c | ts]; [discriminate Hct |].
  rewrite CTypeTreeType_to_Structure_collapse, IH. reflexivity.
Qed.

(** What [load_function] has set on the function that it returns. *)
Lemma load_function_Return (so : library) (f : function)
  (so_f : foreign_function) :
  load_function so f = Return so_f ->
  exists ret_cts cts native composite,
    get_return_ctypes f = Return (CT_tuple ret_cts) /\
    get_args_ctypes f = Return (CT_tuple cts) /\
    Forall (fun ct => is_tuple ct = true) cts /\
    List.length cts = List.length (parameters f) /\
    so ("_mlir_ciface_" ++ __name__ f) = Some native /\
    has_composite_return f = Return composite /\
    so_f =
    {| symbol := "_mlir_ciface_" ++ __name__ f;
       code := native;
       restype := if composite : bool then None
                  else Some (pass (collapse (CT_tuple ret_cts)));
       argtypes :=
         (if composite
          then pass (collapse (CT_tuple ret_cts)) :: map pass (map collapse cts)
          else map pass (map collapse cts)) |}.
Proof.
  intros Hload. unfold load_function in Hload.
  destruct (get_return_ctypes f) as [ret_ct | |] eqn:Hret;
    cbn [bind] in Hload; try discriminate Hload.
  assert (Hret_ct : exists ret_cts, ret_ct = CT_tuple ret_cts).
  { unfold get_return_ctypes in Hret.
    destruct (get_return_type f); cbn [bind] in Hret; try discriminate Hret.
    destruct (each type_to_CType _); cbn [bind] in Hret;
      try discriminate Hret.
    injection Hret as <-. eexists. reflexivity. }
  destruct Hret_ct as [ret_cts ->].
  rewrite CTypeTreeType_to_Structure_collapse in Hload. cbn [bind] in Hload.
  unfold get_args_ctypes in Hload |- *.
  destruct (each (fun p => type_to_CType (snd p)) (parameters f))
    as [cts | |] eqn:Hargs; cbn [bind] in Hload; try discriminate Hload.
  destruct (Forall2_tuples _ _ _ (each_type_to_CType_Forall2 _ _ _ Hargs))
    as [Htuples Hlen].
  rewrite (each_CTypeTreeType_to_Structure cts Htuples) in Hload.
  cbn [bind] in Hload.
  destruct (so ("_mlir_ciface_" ++ __name__ f)) as [native |];
    [| discriminate Hload].
  destruct (has_composite_return f) as [composite | |]; cbn [bind] in Hload;
    try discriminate Hload.
  apply Return_inj in Hload. subst so_f.
  exists ret_cts, cts, native, composite.
  repeat split; try assumption. destruct composite; reflexivity.
Qed.

Lemma init_fields_fst (fields : list native_type)
  (args : list (cdata pyobj)) (members : list (native_type * cdata pyobj)) :
  init_fields fields args = Return members -> map fst members = fields.
Proof.
  revert args members.
  induction fields as [| f fields IH]; intros [| a args] members Hinit.
  - injection Hinit as <-. reflexivity.
  - discriminate Hinit.
  - injection Hinit as <-. cbn [map fst]. f_equal.
    rewrite map_map. cbn [fst]. apply map_id.
  - cbn [init_fields] in Hinit.
    destruct (set_field f a) as [x | |]; cbn [bind] in Hinit;
      try discriminate Hinit.
    destruct (init_fields fields args) as [xs | |] eqn:Hrest;
      cbn [bind] in Hinit; try discriminate Hinit.
    injection Hinit as <-. cbn [map fst]. f_equal. apply (IH args). exact Hrest.
Qed.

(** Whatever the leaves of the value tree are, a structure that
    [CTypeTree_to_Structure] returns for a type tree is an instance of
    the class that [CTypeTreeType_to_Structure] returns for it. *)
Lemma CTypeTree_to_Structure_class (ct : CTypeTreeType) :
  forall (c : CTypeTree pyobj) (s : cdata pyobj),
    is_tuple ct = true -> is_Structure_class (collapse ct) = true ->
    CTypeTree_to_Structure ct c = Return s ->
    class_of s = Some (collapse ct).
Proof.
  induction ct as [t | ts IH] using CTypeTreeType_tree_ind;
    intros c s Htuple Hstruct Hto; [discriminate Htuple |].
  destruct c as [o | cs]; [discriminate Hto |].
  destruct (Nat.eq_dec (List.length ts) (List.length cs)) as [Hlen | Hlen].
  2:{ rewrite CTypeTree_to_Structure_eq in Hto.
      rewrite (proj2 (Nat.eqb_neq _ _) Hlen) in Hto. discriminate Hto. }
  destruct (Nat.eq_dec (List.length ts) 1) as [Hone | Hone].
  - destruct ts as [| t0 [| t1 ts]]; try discriminate Hone.
    destruct cs as [| c0 [| c1 cs]]; try discriminate Hlen.
    inversion IH as [| ? ? Ht0 _]; subst.
    assert (Hnode : CTypeTree_to_Structure (CT_tuple [t0]) (C_tuple [c0]) =
                    child_to t0 c0) by reflexivity.
    rewrite Hnode in Hto.
    change (collapse (CT_tuple [t0])) with (collapse t0) in Hstruct |- *.
    destruct t0 as [c' | ts0]; [discriminate Hstruct |].
    apply (Ht0 c0 s eq_refl Hstruct). exact Hto.
  - rewrite (CTypeTree_to_Structure_struct ts cs Hone Hlen) in Hto.
    destruct (each2 child_to ts cs) as [c_rec | |]; cbn [bind] in Hto;
      try discriminate Hto.
    destruct (init_fields (map collapse ts) c_rec) as [members | |] eqn:Hinit;
      cbn [bind] in Hto; try discriminate Hto.
    injection Hto as <-.
    rewrite (collapse_struct ts Hone). cbn [class_of].
    rewrite (init_fields_fst _ _ _ Hinit). reflexivity.
Qed.

Lemma class_of_zero_of (cls : native_type) :
  is_Structure_class cls = true -> class_of (zero_of cls) = Some cls.
Proof.
  destruct cls as [t | ct fields]; [discriminate |]. intros _.
  cbn [zero_of class_of]. rewrite map_map. cbn [fst]. rewrite map_id.
  reflexivity.
Qed.

(** The marshalled arguments, one for each type tree of the
    parameters. *)
Lemma marshal_arguments_Forall2 (f : function) (args : list pyobj)
  (cts : list CTypeTreeType) (mapped_args : list (cdata pyobj)) :
  get_args_ctypes f = Return (CT_tuple cts) ->
  List.length cts = List.length (parameters f) ->
  List.length (parameters f) = List.length args ->
  marshal_arguments f args = Return mapped_args ->
  Forall2 (fun ct s => exists c, CTypeTree_to_Structure ct c = Return s)
    cts mapped_args.
Proof.
  intros Hargs Hcts Hlen Hmarshal. unfold marshal_arguments in Hmarshal.
  rewrite Hargs in Hmarshal. cbn [bind items] in Hmarshal.
  destruct (each2 _ (combine cts (parameters f)) args) as [mapped_ct | |]
    eqn:Heach; cbn [bind] in Hmarshal; try discriminate Hmarshal.
  apply each_Forall2 in Hmarshal.
  assert (Hfst : map fst mapped_ct = cts).
  { clear Hmarshal Hargs. revert Hcts Hlen Heach.
    generalize (parameters f) as params. revert args mapped_ct.
    induction cts as [| ct cts IH];
      intros [| a args] mapped_ct [| p params] Hcts Hlen Heach;
      try discriminate Hcts; try discriminate Hlen.
    - injection Heach as <-. reflexivity.
    - cbn [combine each2] in Heach.
      destruct (to_CType (snd (snd (ct, p))) a) as [c | |];
        cbn [bind] in Heach; try discriminate Heach.
      destruct (each2 _ (combine cts params) args) as [rest | |] eqn:Hrest;
        cbn [bind] in Heach; try discriminate Heach.
      injection Heach as <-. cbn [map fst]. f_equal.
      apply (IH args rest params);
        [injection Hcts as Hcts; exact Hcts
        | injection Hlen as Hlen; exact Hlen | exact Hrest]. }
  rewrite <- Hfst. clear - Hmarshal.
  induction Hmarshal as [| [ct c] s mapped_ct mapped_args Hs _ IH];
    constructor; [| exact IH].
  exists c. exact Hs.
Qed.

Lemma arguments_passed_as (cts : list CTypeTreeType)
  (mapped_args : list (cdata pyobj)) :
  Forall (fun ct => is_tuple ct = true) cts ->
  Forall2 (fun ct s => exists c, CTypeTree_to_Structure ct c = Return s)
    cts mapped_args ->
  Forall2 passed_as (map pass (map collapse cts)) mapped_args.
Proof.
  intros Htuples Hall. induction Hall as [| ct s cts mapped [c Hs] _ IH].
  - constructor.
  - inversion Htuples as [| ? ? Hct Hrest]; subst.
    cbn [map]. constructor; [| apply IH; exact Hrest].
    unfold pass, passed_as.
    destruct (is_Structure_class (collapse ct)) eqn:Hstruct;
      [| exact Hstruct].
    split; [exact Hstruct |].
    apply (CTypeTree_to_Structure_class ct c s Hct Hstruct Hs).
Qed.

(** X19.  Every native call that [call_function] makes agrees with the
    argument types that [load_function] has declared on the function:
    there is one argument for each declared type, every argument
    declared as a pointer to a structure class is an instance of that
    very class, and only ctypes classes are passed by value.  This holds
    for the return structure put first for a composite return as for
    the marshalled arguments, whatever [to_CType] of the annotations
    returns at the leaves. *)
Theorem native_call_matches_argtypes (self : CTarget) (f : function)
  (args : list pyobj) (call : native_call)
  (Hcall : In call (calls (call_function self f args))) :
  Forall2 passed_as (argtypes (callee call)) (arguments call).
Proof.
  unfold call_function in Hcall.
  destruct (_so self) as [so |]; [| destruct Hcall].
  unfold prepare in Hcall.
  destruct (load_function so f) as [so_f | |] eqn:Hload; cbn [bind] in Hcall;
    try (destruct Hcall; fail).
  destruct (Nat.eqb_spec (List.length (parameters f)) (List.length args))
    as [Hlen | Hlen]; cbn [negb] in Hcall; [| destruct Hcall].
  destruct (marshal_arguments f args) as [mapped_args | |] eqn:Hmarshal;
    cbn [bind] in Hcall; try (destruct Hcall; fail).
  destruct (load_function_Return so f so_f Hload)
    as (ret_cts & cts & native & composite & Hret & Hargs & Htuples & Hcts &
        _ & Hcomp & ->).
  pose proof (arguments_passed_as cts mapped_args Htuples
                (marshal_arguments_Forall2 f args cts mapped_args
                   Hargs Hcts Hlen Hmarshal)) as Hpassed.
  destruct (has_void_return f) as [void | |] eqn:Hvoid; cbn [bind] in Hcall;
    try (destruct Hcall; fail).
  assert (Hnot_both : void = true -> composite = false).
  { intros ->. unfold has_void_return in Hvoid.
    unfold has_composite_return in Hcomp.
    destruct (flattened f) as [fl | |]; cbn [bind] in Hvoid, Hcomp;
      try discriminate Hvoid.
    injection Hvoid as Hvoid. injection Hcomp as <-.
    apply Nat.eqb_eq in Hvoid. rewrite Hvoid. reflexivity. }
  destruct void.
  - rewrite (Hnot_both eq_refl) in *.
    destruct Hcall as [<- | []]. exact Hpassed.
  - rewrite Hcomp in Hcall. cbn [bind] in Hcall.
    destruct composite.
    + rewrite Hret in Hcall. cbn [bind] in Hcall.
      rewrite CTypeTreeType_to_Structure_collapse in Hcall.
      cbn [bind] in Hcall.
      assert (Hstruct : is_Structure_class (collapse (CT_tuple ret_cts)) = true).
      { unfold has_composite_return, flattened in Hcomp.
        rewrite Hret in Hcomp. cbn [bind] in Hcomp.
        destruct (sum_tuples ret_cts) as [fl | |] eqn:Hsum;
          cbn [bind] in Hcomp; try discriminate Hcomp.
        injection Hcomp as Hcomp. apply Nat.ltb_lt in Hcomp.
        unfold get_return_ctypes in Hret.
        destruct (get_return_type f) as [ret_t | |]; cbn [bind] in Hret;
          try discriminate Hret.
        destruct (each type_to_CType ret_t) as [cts' | |] eqn:Heach;
          cbn [bind] in Hret; try discriminate Hret.
        injection Hret as ->.
        apply (composite_is_structure ret_cts fl
                 (proj1 (each_type_to_CType_tuples _ _ Heach)) Hsum Hcomp). }
      rewrite (call_class_zero _ Hstruct) in Hcall.
      destruct Hcall as [<- | []]. cbn [callee arguments argtypes].
      constructor; [| exact Hpassed].
      unfold pass. rewrite Hstruct. split; [exact Hstruct |].
      apply class_of_zero_of. exact Hstruct.
    + destruct (get_return_type f) as [[| t ts] | |]; try (destruct Hcall; fail).
      destruct Hcall as [<- | []]. exact Hpassed.
Qed.

Lemma each2_Return_nth {A B C : Type} (g : A -> B -> outcome C)
  (la : list A) (lb : list B) (cs : list C) :
  each2 g la lb = Return cs ->
  forall i a b, nth_error la i = Some a -> nth_error lb i = Some b ->
                exists c, g a b = Return c.
Proof.
  revert lb cs. induction la as [| a' la IH]; intros [| b' lb] cs Heach i a b Ha Hb;
    try (destruct i; discriminate).
  cbn [each2] in Heach.
  destruct (g a' b') as [c | |] eqn:Hg; cbn [bind] in Heach;
    try discriminate Heach.
  destruct (each2 g la lb) as [cs' | |] eqn:Hrest; cbn [bind] in Heach;
    try discriminate Heach.
  destruct i as [| i].
  - cbn in Ha, Hb. injection Ha as <-. injection Hb as <-.
    exists c. exact Hg.
  - apply (IH lb cs' Hrest i); assumption.
Qed.

Lemma nth_error_combine {A B : Type} (la : list A) (lb : list B) (i : nat)
  (b : B) :
  List.length la = List.length lb -> nth_error lb i = Some b ->
  exists a, nth_error (combine la lb) i = Some (a, b).
Proof.
  revert lb i. induction la as [| a la IH]; intros [| b' lb] i Hlen Hb;
    try discriminate Hlen; [destruct i; discriminate Hb |].
  destruct i as [| i].
  - cbn in Hb. injection Hb as ->. exists a. reflexivity.
  - cbn in Hb |- *. apply IH; [injection Hlen as Hlen; exact Hlen | exact Hb].
Qed.

(** X20.  An argument that [to_CType] of the annotation of its parameter
    refuses stops the call: [call_function] makes no native call and
    returns no value, whatever the other arguments and the state of the
    target are. *)
Theorem refused_argument_stops_call (self : CTarget) (f : function)
  (args : list pyobj) (i : nat) (key : string) (typ : SupportsCType)
  (a : pyobj) (e : exn)
  (Hparam : nth_error (parameters f) i = Some (key, typ))
  (Harg : nth_error args i = Some a)
  (Hrefused : to_CType typ a = Raise e) :
  calls (call_function self f args) = [] /\
  forall v, result (call_function self f args) <> Return v.
Proof.
  assert (Hmarshal : forall mapped_args,
             marshal_arguments f args <> Return mapped_args).
  { intros mapped_args Hreturn. unfold marshal_arguments in Hreturn.
    destruct (get_args_ctypes f) as [args_ct | |] eqn:Hargs;
      cbn [bind] in Hreturn; try discriminate Hreturn.
    destruct (each2 _ (combine (items args_ct) (parameters f)) args)
      as [mapped_ct | |] eqn:Heach; cbn [bind] in Hreturn;
      try discriminate Hreturn.
    unfold get_args_ctypes in Hargs.
    destruct (each (fun p => type_to_CType (snd p)) (parameters f))
      as [cts | |] eqn:Hcts; cbn [bind] in Hargs; try discriminate Hargs.
    injection Hargs as <-. cbn [items] in Heach.
    destruct (Forall2_tuples _ _ _ (each_type_to_CType_Forall2 _ _ _ Hcts))
      as [_ Hlen].
    destruct (nth_error_combine cts (parameters f) i (key, typ) Hlen Hparam)
      as [ct Hct].
    destruct (each2_Return_nth _ _ _ _ Heach i _ _ Hct Harg) as [c Hc].
    cbn [snd] in Hc. rewrite Hrefused in Hc. discriminate Hc. }
  unfold call_function.
  destruct (_so self) as [so |]; [| split; [reflexivity | discriminate]].
  unfold prepare.
  destruct (load_function so f) as [so_f | |]; cbn [bind];
    try (split; [reflexivity | discriminate]).
  destruct (negb _); [split; [reflexivity | discriminate] |].
  destruct (marshal_arguments f args) as [mapped_args | |]; cbn [bind];
    try (split; [reflexivity | discriminate]).
  destruct (Hmarshal mapped_args eq_refl).
Qed.

(** X21.  A symbol that the library does not hold: when the annotations
    of the function convert to ctypes, [call_function] raises the
    [AttributeError] of the name [_mlir_ciface_] followed by the name of
    the function, before it looks at the arguments, and makes no native
    call. *)
Theorem missing_symbol (self : CTarget) (so : library) (f : function)
  (args : list pyobj) (ret_ct args_ct : CTypeTreeType)
  (Hso : _so self = Some so)
  (Hret : get_return_ctypes f = Return ret_ct)
  (Hargs : get_args_ctypes f = Return args_ct)
  (Hsymbol : so ("_mlir_ciface_" ++ __name__ f) = None) :
  call_function self f args =
  {| calls := [];
     result := Raise (AttributeError ("_mlir_ciface_" ++ __name__ f)) |}.
Proof.
  assert (Hload : load_function so f =
                  Raise (AttributeError ("_mlir_ciface_" ++ __name__ f))).
  { unfold load_function. rewrite Hret. cbn [bind].
    assert (Hret_ct : is_tuple ret_ct = true).
    { unfold get_return_ctypes in Hret.
      destruct (get_return_type f); cbn [bind] in Hret; try discriminate Hret.
      destruct (each type_to_CType _); cbn [bind] in Hret;
        try discriminate Hret.
      injection Hret as <-. reflexivity. }
    destruct ret_ct as [c | ret_cts]; [discriminate Hret_ct |].
    rewrite CTypeTreeType_to_Structure_collapse. cbn [bind].
    rewrite Hargs. cbn [bind].
    unfold get_args_ctypes in Hargs.
    destruct (each (fun p => type_to_CType (snd p)) (parameters f))
      as [cts | |] eqn:Hcts; cbn [bind] in Hargs; try discriminate Hargs.
    injection Hargs as <-.
    rewrite (each_CTypeTreeType_to_Structure cts
               (proj1 (Forall2_tuples _ _ _
                         (each_type_to_CType_Forall2 _ _ _ Hcts)))).
    cbn [bind]. rewrite Hsymbol. reflexivity. }
  unfold call_function, prepare. rewrite Hso, Hload. reflexivity.
Qed.

(** [Int.to_CType] on an integer that it accepts. *)
Lemma Int_to_CType_accepts (cls : IntClass) (pyval : pyobj) (n : Z) :
  py_int pyval = Return n -> n < 2 ^ width cls ->
  (sign cls = UNSIGNED -> 0 <= n) ->
  Int_to_CType cls pyval = Return (C_tuple [C_val (Raw (PyInt n))]).
Proof.
  intros Hn Hfit Hsign. rewrite (Int_to_CType_int _ _ _ Hn), shiftl_1.
  rewrite (proj2 (Z.leb_gt _ _) Hfit).
  destruct (sign cls); [reflexivity |].
  cbn [Sign_eqb andb]. rewrite (proj2 (Z.ltb_ge _ _) (Hsign eq_refl)).
  reflexivity.
Qed.

(** X22.  What [call_function] hands to the foreign function object for
    parameters annotated with the classes [UInt8] ... [SInt64] or classes
    declared like them (not [Bool], not [Index]): the two comprehensions
    [mapped_args_ct] and [mapped_args] turn the arguments into the plain
    integers [int(a)], in the order of the parameters, with no structure
    built around any of them, for every integer below [2^width] that is
    not negative for an unsigned class.  The conversion of such an
    integer to the class in [argtypes] is done by ctypes when the
    function object is called ([255] for a [c_int8] arrives as [-1]) and
    is not part of this statement. *)
Theorem Int_arguments_by_value (f : function) (given : list (pyobj * Z))
  (Hparams :
     Forall2
       (fun p an =>
          exists cls t,
            snd p = Int_protocol cls /\ is_Bool cls = false /\
            Int_CType cls = Return [CT_type t] /\
            py_int (fst an) = Return (snd an) /\
            snd an < 2 ^ width cls /\
            (sign cls = UNSIGNED -> 0 <= snd an))
       (parameters f) given) :
  marshal_arguments f (map fst given) =
  Return (map (fun an => Raw (PyInt (snd an))) given).
Proof.
  unfold marshal_arguments, get_args_ctypes.
  induction Hparams
    as [| p an params given (cls & t & Hp & Hb & Hct & Hn & Hfit & Hsign) _ IH];
    [reflexivity |].
  cbn [each map].
  unfold type_to_CType at 1. rewrite Hp. cbn [CType Int_protocol].
  rewrite Hct. cbn [bind].
  destruct (each (fun p => type_to_CType (snd p)) params) as [cts | |];
    cbn [bind items] in IH |- *; try discriminate IH.
  cbn [combine each2 snd fst]. rewrite Hp. cbn [to_CType Int_protocol].
  rewrite Hb, (Int_to_CType_accepts cls _ _ Hn Hfit Hsign). cbn [bind].
  destruct (each2 _ (combine cts params) (map fst given)) as [mapped_ct | |];
    cbn [bind] in IH |- *; try discriminate IH.
  cbn [each fst snd]. rewrite IH. reflexivity.
Qed.

(** The return path of a function that returns a tuple of [Int]
    subclasses, on the structure that the native function has left. *)
Lemma Int_tuple_return_ctypes (clss : list IntClass) (ts : list ctype) :
  Forall2 (fun cls t => is_Bool cls = false /\
                        Int_CType cls = Return [CT_type t]) clss ts ->
  each type_to_CType (map Int_protocol clss) =
    Return (map (fun t => CT_tuple [CT_type t]) ts) /\
  sum_tuples (map (fun t => CT_tuple [CT_type t]) ts) =
    Return (map CT_type ts) /\
  List.length ts = List.length clss.
Proof.
  induction 1 as [| cls t clss ts [_ Hct] _ (IH1 & IH2 & IH3)].
  - repeat split.
  - cbn [map each sum_tuples]. unfold type_to_CType at 1.
    cbn [CType Int_protocol]. rewrite Hct. cbn [bind].
    rewrite IH1, IH2. cbn [bind app List.length]. rewrite IH3.
    repeat split.
Qed.

Lemma Int_tuple_read_back (clss : list IntClass) (ts : list ctype) :
  Forall2 (fun cls t => is_Bool cls = false /\
                        Int_CType cls = Return [CT_type t]) clss ts ->
  forall ns : list Z,
    List.length ns = List.length clss ->
    each2 member_from
      (combine (map NT_ctype ts) (map (fun n => Raw (PyInt n)) ns))
      (map (fun t => CT_tuple [CT_type t]) ts) =
      Return (map (fun n => C_tuple [C_val (Raw (PyInt n))]) ns) /\
    each2 from_CType (map Int_protocol clss)
      (map (fun n => C_tuple [C_val (Raw (PyInt n))]) ns) =
      Return (map PyInt ns).
Proof.
  induction 1 as [| cls t clss ts [Hb _] _ IH]; intros [| n ns] Hlen;
    try discriminate Hlen.
  - split; reflexivity.
  - injection Hlen as Hlen. destruct (IH ns Hlen) as [IH1 IH2].
    cbn [map combine each2]. rewrite IH1, IH2.
    cbn [from_CType Int_protocol]. rewrite Hb.
    unfold member_from. cbn. rewrite ctype_eqb_refl. split; reflexivity.
Qed.

(** X23.  A function that returns a tuple of two or more [Int]
    subclasses: when the native function leaves the integers [ns] in the
    fields of the structure passed first, [call_function] returns the
    tuple of these integers in the order of the annotation. *)
Theorem Int_results_in_order (self : CTarget) (so : library) (f : function)
  (args : list pyobj) (so_f : foreign_function)
  (mapped_args : list (cdata pyobj))
  (clss : list IntClass) (ts : list ctype) (ns : list Z)
  (ct0 : list CTypeTreeType)
  (Hso : _so self = Some so)
  (Hload : load_function so f = Return so_f)
  (Hargs : List.length (parameters f) = List.length args)
  (Hmarshal : marshal_arguments f args = Return mapped_args)
  (Hannotation : return_annotation_ f = annotated_tuple (map Int_protocol clss))
  (Hclss : Forall2 (fun cls t => is_Bool cls = false /\
                                 Int_CType cls = Return [CT_type t]) clss ts)
  (Hcomposite : (1 < List.length clss)%nat)
  (Hns : List.length ns = List.length clss)
  (Hnative :
     let retval :=
       zero_of (collapse (CT_tuple (map (fun t => CT_tuple [CT_type t]) ts))) in
     hd retval (memory (code so_f (retval :: mapped_args))) =
     Instance ct0
       (combine (map NT_ctype ts) (map (fun n => Raw (PyInt n)) ns))) :
  result (call_function self f args) = Return (PyTuple (map PyInt ns)).
Proof.
  destruct (Int_tuple_return_ctypes clss ts Hclss) as (Hcts & Hsum & Hlen).
  destruct (Int_tuple_read_back clss ts Hclss ns Hns) as [Hmembers Hvals].
  set (cts := map (fun t => CT_tuple [CT_type t]) ts) in *.
  assert (Hrt : get_return_type f = Return (map Int_protocol clss)).
  { unfold get_return_type. rewrite Hannotation. reflexivity. }
  assert (Hret : get_return_ctypes f = Return (CT_tuple cts)).
  { unfold get_return_ctypes. rewrite Hrt. cbn [bind]. rewrite Hcts.
    reflexivity. }
  assert (Hflat : flattened f = Return (map CT_type ts)).
  { unfold flattened. rewrite Hret. cbn [bind]. exact Hsum. }
  assert (Hcount : List.length cts = List.length clss).
  { unfold cts. rewrite length_map. exact Hlen. }
  assert (Hone : List.length cts <> 1%nat) by lia.
  assert (Hvoid : has_void_return f = Return false).
  { unfold has_void_return. rewrite Hflat. cbn [bind]. rewrite length_map.
    destruct ts; [cbn in Hlen; lia | reflexivity]. }
  assert (Hcomp : has_composite_return f = Return true).
  { unfold has_composite_return. rewrite Hflat. cbn [bind].
    rewrite length_map, Hlen. rewrite (proj2 (Nat.ltb_lt _ _) Hcomposite).
    reflexivity. }
  unfold call_function, prepare.
  rewrite Hso, Hload. cbn [bind].
  rewrite (proj2 (Nat.eqb_eq _ _) Hargs). cbn [negb].
  rewrite Hmarshal. cbn [bind]. rewrite Hvoid. cbn [bind].
  rewrite Hcomp. cbn [bind]. rewrite Hret. cbn [bind].
  rewrite CTypeTreeType_to_Structure_collapse. cbn [bind].
  cbv zeta in Hnative. rewrite (collapse_struct cts Hone) in Hnative |- *.
  rewrite call_class_zero by reflexivity. cbn [bind result].
  rewrite Hnative.
  rewrite (CTypeTree_from_Structure_struct cts ct0 _ Hone).
  - rewrite Hmembers. cbn [bind]. rewrite Hrt. cbn [bind tuple_items].
    rewrite Hvals. reflexivity.
  - rewrite length_combine, !length_map. lia.
Qed.

(** X24.  [Int.CType] is defined exactly for the widths 1, 8, 16, 32 and
    64: there it returns a tuple of one ctypes class, which is the
    native type of the annotation, so a value of an [Int] subclass is
    passed by value; for any other width it raises the [TypeError] that
    names the class. *)
Theorem Int_CType_defined (cls : IntClass) :
  (In (width cls) [1; 8; 16; 32; 64] ->
   exists t,
     Int_CType cls = Return [CT_type t] /\
     (ct <- type_to_CType (Int_protocol cls) ;;
      CTypeTreeType_to_Structure ct) = Return (NT_ctype t)) /\
  (~ In (width cls) [1; 8; 16; 32; 64] ->
   Int_CType cls =
   Raise (TypeError (name cls ++ " does not have a corresponding ctype"))).
Proof.
  split.
  - intros Hw. unfold type_to_CType. cbn [CType Int_protocol].
    unfold Int_CType. cbn [In] in Hw.
    destruct Hw as [<- | [<- | [<- | [<- | [<- | []]]]]];
      destruct (sign cls); eexists; split; reflexivity.
  - intros Hw. unfold Int_CType. cbn [In] in Hw.
    destruct (width cls) as [| w | w].
    + destruct (sign cls); reflexivity.
    + do 7 (try (destruct w as [w | w |]));
        try (destruct (sign cls); reflexivity);
        exfalso; apply Hw; tauto.
    + destruct (sign cls); reflexivity.
Qed.

(** X25.  What [to_CType] of an [Int] subclass returns, [from_CType] of
    the class reads back without raising: as [int(pyval)] for an [Int]
    and as [bool(pyval)] for [Bool]. *)
Theorem Int_codec_round_trip (cls : IntClass) (pyval : pyobj)
  (c : CTypeTree pyobj)
  (Hencoded : to_CType (Int_protocol cls) pyval = Return c) :
  if is_Bool cls
  then from_CType (Int_protocol cls) c = Return (PyBool (py_bool pyval))
  else exists n, py_int pyval = Return n /\
                 from_CType (Int_protocol cls) c = Return (PyInt n).
Proof.
  cbn [to_CType from_CType Int_protocol] in *.
  destruct (is_Bool cls).
  - unfold Bool_to_CType in Hencoded. injection Hencoded as <-. reflexivity.
  - unfold Int_to_CType in Hencoded.
    destruct (py_int pyval) as [n | |]; try discriminate Hencoded.
    destruct (_ <=? _); [discriminate Hencoded |].
    destruct (_ && _); [discriminate Hencoded |].
    injection Hencoded as <-. exists n. split; reflexivity.
Qed.

Lemma sum_tuples_concat (ret_t : list SupportsCType)
  (tss : list (list CTypeTreeType)) :
  Forall2 (fun t ts => CType t = Return ts) ret_t tss ->
  each type_to_CType ret_t = Return (map CT_tuple tss) /\
  sum_tuples (map CT_tuple tss) = Return (List.concat tss).
Proof.
  induction 1 as [| t ts ret_t tss Ht _ [IH1 IH2]]; [split; reflexivity |].
  cbn [each map sum_tuples List.concat]. unfold type_to_CType at 1.
  rewrite Ht. cbn [bind]. rewrite IH1, IH2. split; reflexivity.
Qed.

(** X26.  The kind of return of a function is decided by the number of
    ctypes classes that its return types flatten to, the sum of the
    lengths of their [CType] tuples: void when there is none, composite
    when there are two or more.  So a function without a return
    annotation is void, a function is never both, and one return type
    whose [CType] is a tuple of several classes makes the return
    composite. *)
Theorem return_kind_by_ctypes (f : function) (ret_t : list SupportsCType)
  (tss : list (list CTypeTreeType))
  (Hret : get_return_type f = Return ret_t)
  (Hctypes : Forall2 (fun t ts => CType t = Return ts) ret_t tss) :
  has_void_return f = Return (List.length (List.concat tss) =? 0)%nat /\
  has_composite_return f = Return (1 <? List.length (List.concat tss))%nat /\
  ~ (has_void_return f = Return true /\ has_composite_return f = Return true).
Proof.
  destruct (sum_tuples_concat ret_t tss Hctypes) as [Heach Hsum].
  assert (Hflat : flattened f = Return (List.concat tss)).
  { unfold flattened, get_return_ctypes. rewrite Hret. cbn [bind].
    rewrite Heach. cbn [bind]. exact Hsum. }
  unfold has_void_return, has_composite_return. rewrite Hflat. cbn [bind].
  split; [reflexivity | split; [reflexivity |]].
  intros [Hvoid Hcomp]. injection Hvoid as Hvoid. injection Hcomp as Hcomp.
  apply Nat.eqb_eq in Hvoid. rewrite Hvoid in Hcomp. discriminate Hcomp.
Qed.

End CTarget_further.

(* ================================================================== *)
(** * Construction from numbers and values, lowering, compose *)
(* ================================================================== *)

Section Construction.
Context `{HostFloat}.

(** X27.  [Int.__init__] of a class that inherits it from [Int] (not
    [Bool], not [Index]) on a real number.  A number that is not
    [math.isclose] to its [int], such as 2.5, is refused with the
    [TypeError] of the last case and not rounded.  Otherwise [int(rep)]
    is what the range test is run on: outside [val_range] it is the range
    error; inside, the instance holds the constant [int(rep)] when the
    integer fits a signed literal of 64 bits, and the construction raises
    a [TypeError] when it does not, as [UInt64(2**63)] does.  A class
    whose width is not set refuses every argument. *)
Theorem constructor_from_real (cls : IntClass) (rep : pyobj) (n : Z)
  (close : bool)
  (Hclass : is_Bool cls = false)
  (Hreal : is_Real rep = true)
  (Hint : py_int rep = Return n)
  (Hclose : isclose rep n = Return close) :
  (width cls <> 0 -> close = false ->
   call cls rep =
   Raise (TypeError (str_obj rep ++ " cannot be casted as an Int"))) /\
  (width cls <> 0 -> close = true -> in_range cls n = false ->
   call cls rep =
   Raise (ValueError (str_int n ++ " is out of range for " ++ name cls))) /\
  (width cls <> 0 -> close = true -> in_range cls n = true ->
   - 2 ^ 63 <= n < 2 ^ 63 ->
   call cls rep = Return (PyObject cls (ConstantOp (lower_class cls) n))) /\
  (width cls <> 0 -> close = true -> in_range cls n = true ->
   n < - 2 ^ 63 \/ 2 ^ 63 <= n ->
   exists msg, call cls rep = Raise (TypeError msg)) /\
  (width cls = 0 ->
   call cls rep =
   Raise (TypeError ("attempted to initialize " ++ name cls ++
                       " without defined size or sign"))).
Proof.
  assert (Hcall : call cls rep = Int__init__ cls rep).
  { destruct rep; try discriminate Hreal; cbn [call]; unfold supporter, init;
      rewrite Hclass; reflexivity. }
  rewrite Hcall.
  assert (Hinit : width cls <> 0 ->
            Int__init__ cls rep =
            if close
            then
              if in_range cls n
              then (value <- arith_ConstantOp (lower_class cls) n ;;
                    Return (PyObject cls value))
              else Raise (ValueError
                            (str_int n ++ " is out of range for " ++ name cls))
            else Raise (TypeError
                          (str_obj rep ++ " cannot be casted as an Int"))).
  { intros Hw. apply (Int__init__real cls rep n Hw Hreal Hint close Hclose). }
  split; [| split; [| split; [| split]]].
  - intros Hw ->. apply (Hinit Hw).
  - intros Hw -> Hin. rewrite (Hinit Hw), Hin. reflexivity.
  - intros Hw -> Hin Hn.
    rewrite (Hinit Hw), Hin, (arith_ConstantOp_fits _ n Hn). reflexivity.
  - intros Hw -> Hin Hn.
    rewrite (Hinit Hw), Hin, (arith_ConstantOp_refuses _ n Hn).
    eexists. reflexivity.
  - intros Hw. unfold Int__init__. rewrite Hw. reflexivity.
Qed.

(** X28.  Construction of an instance of a class that inherits
    [_init_from_mlir_value] from [Int] (the classes [UInt8] ... [SInt64],
    [Bool]; not [Index], which overrides it and takes the index type)
    from an MLIR value or from the result of an operation: the value
    itself is wrapped, and the construction succeeds exactly when the
    value has the signless integer type of the width of the class; a
    value of another width, of a signed or unsigned integer type, of the
    index type or of a float type is a [TypeError]. *)
Theorem constructor_from_value (cls : IntClass) (v : Value)
  (Hwidth : 0 < width cls) :
  call cls (PyOpView v) = call cls (PyValue v) /\
  (type_of v = get_signless (width cls) ->
   call cls (PyValue v) = Return (PyObject cls v)) /\
  (type_of v <> get_signless (width cls) ->
   exists msg, call cls (PyValue v) = Raise (TypeError msg)).
Proof.
  destruct (call_Value cls v) as [Hvalue Hop]. rewrite Hvalue, Hop.
  assert (Hinit : forall rep, rep = PyValue v \/ rep = PyOpView v ->
                    init cls rep = _init_from_mlir_value cls v).
  { intros rep Hrep. unfold init, Bool__init__, Int__init__.
    rewrite (proj2 (Z.eqb_neq _ _)) by lia.
    destruct Hrep as [-> | ->]; destruct (is_Bool cls); reflexivity. }
  rewrite !Hinit by tauto.
  split; [reflexivity |].
  unfold _init_from_mlir_value, get_signless. split.
  - intros ->. rewrite Z.eqb_refl. reflexivity.
  - intros Hty.
    destruct (type_of v) as [w sl | | | |]; try (eexists; reflexivity).
    destruct (w =? width cls) eqn:Hw; cbn [negb]; [| eexists; reflexivity].
    destruct sl; cbn [negb]; [| eexists; reflexivity].
    exfalso. apply Hty. apply Z.eqb_eq in Hw. subst w. reflexivity.
Qed.

End Construction.

Section Lowering.

Lemma reduce_lowered_acc (li : list lowerable) :
  forall a : list lowered,
    reduce_lowered a li =
    (r <- reduce_lowered [] li ;; Return (a ++ r)%list).
Proof.
  induction li as [| v li IH]; intros a.
  - cbn. rewrite app_nil_r. reflexivity.
  - cbn [reduce_lowered]. destruct (lower v) as [b | e |]; cbn [bind];
      try reflexivity.
    rewrite (IH (a ++ b)%list), (IH ([] ++ b)%list).
    destruct (reduce_lowered [] li) as [r | e |]; cbn [bind]; try reflexivity.
    rewrite app_assoc. reflexivity.
Qed.

(** [lower_single] is idempotent, as its docstring says: a lowered
    item given to it again is returned unchanged. *)
Lemma lower_single_as_lowerable (r : lowered) :
  lower_single (as_lowerable r) = Return r.
Proof. destruct r; reflexivity. Qed.

Lemma lower_flatten_singles (li : list lowerable) (rs : list lowered) :
  each lower_single li = Return rs -> reduce_lowered [] li = Return rs.
Proof.
  revert rs. induction li as [| v li IH]; intros rs Heach.
  - injection Heach as <-. reflexivity.
  - cbn [each] in Heach. unfold lower_single at 1 in Heach.
    cbn [reduce_lowered].
    destruct (lower v) as [[| r [| r' res]] | e |]; cbn [bind] in Heach |- *;
      try discriminate Heach.
    destruct (each lower_single li) as [rs' | e |]; cbn [bind] in Heach;
      try discriminate Heach.
    injection Heach as <-.
    rewrite reduce_lowered_acc, (IH rs' eq_refl). reflexivity.
Qed.

(** X29.  [lower_flatten] is the concatenation, in order, of what
    [lower] returns for each item: it distributes over the concatenation
    of lists, and it raises as soon as an item is not lowerable.  On
    items that each lower to one element it is the list of their
    [lower_single].  The list it returns, given to it again, is returned
    unchanged: the lowered items are [Value]s and [mlir.Type]s, which
    lower to themselves. *)
Theorem lower_flatten_concatenates (l1 l2 : list lowerable) :
  lower_flatten (l1 ++ l2) =
    (a <- lower_flatten l1 ;; b <- lower_flatten l2 ;; Return (a ++ b)%list) /\
  (forall v e, lower v = Raise e -> lower_flatten (v :: l2) = Raise e) /\
  (forall rs, each lower_single l1 = Return rs ->
              lower_flatten l1 = Return rs) /\
  (forall rs, lower_flatten l1 = Return rs ->
              lower_flatten (map as_lowerable rs) = Return rs).
Proof.
  unfold lower_flatten. split; [| split; [| split]].
  - induction l1 as [| v l1 IH].
    + cbn. destruct (reduce_lowered [] l2); reflexivity.
    + cbn [app reduce_lowered].
      destruct (lower v) as [b | e |]; cbn [bind]; try reflexivity.
      rewrite (reduce_lowered_acc (l1 ++ l2)), (reduce_lowered_acc l1), IH.
      destruct (reduce_lowered [] l1) as [a | e |]; cbn [bind];
        try reflexivity.
      destruct (reduce_lowered [] l2) as [r | e |]; cbn [bind];
        try reflexivity.
      rewrite app_assoc. reflexivity.
  - intros v e Hv. cbn [reduce_lowered]. rewrite Hv. reflexivity.
  - apply lower_flatten_singles.
  - intros rs _. apply lower_flatten_singles.
    induction rs as [| r rs IH]; [reflexivity |].
    cbn [map each]. rewrite lower_single_as_lowerable, IH. reflexivity.
Qed.

(** X30.  [compose] applies its functions from left to right: the
    payload of a concatenation is the payload of the first list followed
    by that of the second on its result, so an exception of a stage ends
    the pipeline before the later stages run, and the payload of the
    empty list returns its argument. *)
Theorem compose_concatenation {A : Type} (fs gs : list (A -> outcome A))
  (x : A) :
  compose (fs ++ gs) x = (y <- compose fs x ;; compose gs y) /\
  (forall e, compose fs x = Raise e -> compose (fs ++ gs) x = Raise e) /\
  compose (@nil (A -> outcome A)) x = Return x.
Proof.
  assert (Happ : forall x, compose (fs ++ gs) x =
                           (y <- compose fs x ;; compose gs y)).
  { induction fs as [| f fs IH]; intros x'; [reflexivity |].
    cbn [app compose]. destruct (f x') as [y | e |]; cbn [bind];
      [apply IH | reflexivity | reflexivity]. }
  split; [apply Happ | split; [| reflexivity]].
  intros e He. rewrite Happ, He. reflexivity.
Qed.

End Lowering.

Section Further_examples.
#[local] Existing Instance no_float.
#[local] Existing Instance integer_ctypes.

Lemma from_Structure_keeps_shape_witness :
  CTypeTree_from_Structure example_tree example_instance =
    Return example_values /\
  same_shape example_tree example_values = true.
Proof.
  split; [reflexivity |].
  apply (from_Structure_keeps_shape example_instance example_tree
           example_values).
  reflexivity.
Defined.

Lemma from_Structure_reads_class_witness :
  has_type example_instance (collapse example_tree) = true /\
  exists c, CTypeTree_from_Structure example_tree example_instance = Return c /\
            same_shape example_tree c = true /\ plain c = true.
Proof.
  split; [reflexivity |].
  apply (from_Structure_reads_class example_tree example_instance);
    reflexivity.
Defined.


Lemma wrappers_are_transparent_witness :
  is_tuple example_tree = true /\
  CTypeTreeType_to_Structure (CT_tuple [CT_tuple [example_tree]]) =
    CTypeTreeType_to_Structure example_tree /\
  CTypeTree_from_Structure (CT_tuple [CT_tuple [example_tree]])
    example_instance = Return (C_tuple [C_tuple [example_values]]).
Proof.
  split; [reflexivity |].
  destruct (wrappers_are_transparent 2 example_tree eq_refl)
    as (Htype & _ & Hfrom).
  split; [exact Htype |].
  exact (Hfrom _ _).
Defined.

(** The call of [f(5)] on the example target: the return structure is
    passed as a pointer to its class and the argument by value. *)
Lemma native_call_matches_argtypes_witness :
  In {| callee := example_so_f;
        arguments := [zero_of example_return_struct; Raw (PyInt 5)] |}
     (calls (call_function {| _so := Some example_library |} example_f
               [PyInt 5])) /\
  Forall2 passed_as
    [POINTER example_return_struct; by_value (NT_ctype c_int8)]
    [zero_of example_return_struct; Raw (PyInt 5)].
Proof.
  assert (Hcall :
    In {| callee := example_so_f;
          arguments := [zero_of example_return_struct; Raw (PyInt 5)] |}
       (calls (call_function {| _so := Some example_library |} example_f
                 [PyInt 5]))) by (left; reflexivity).
  split; [exact Hcall |].
  exact (native_call_matches_argtypes _ _ _ _ Hcall).
Defined.

(** [f(300)]: 300 does not fit the parameter of [SInt8]. *)
Lemma refused_argument_stops_call_witness :
  to_CType (Int_protocol SInt8) (PyInt 300) =
    Raise (TypeError "300 cannot fit into an Int of size 8") /\
  calls (call_function {| _so := Some example_library |} example_f
           [PyInt 300]) = [] /\
  forall v, result (call_function {| _so := Some example_library |} example_f
                      [PyInt 300]) <> Return v.
Proof.
  split; [reflexivity |].
  apply (refused_argument_stops_call {| _so := Some example_library |}
           example_f [PyInt 300] 0 "a" (Int_protocol SInt8) (PyInt 300)
           (TypeError "300 cannot fit into an Int of size 8"));
    reflexivity.
Defined.

Lemma missing_symbol_witness :
  call_function {| _so := Some (fun _ => None) |} example_f [PyInt 5] =
  {| calls := []; result := Raise (AttributeError "_mlir_ciface_f") |}.
Proof.
  apply (missing_symbol {| _so := Some (fun _ => None) |} (fun _ => None)
           example_f [PyInt 5]
           (CT_tuple [CT_tuple [CT_type c_uint32]; CT_tuple [CT_type c_int16]])
           (CT_tuple [CT_tuple [CT_type c_int8]]));
    reflexivity.
Defined.

Lemma Int_arguments_by_value_witness :
  marshal_arguments example_f (map fst [(PyInt (-5), -5)]) =
  Return [Raw (PyInt (-5))].
Proof.
  apply (Int_arguments_by_value example_f [(PyInt (-5), -5)]).
  constructor; [| constructor].
  exists SInt8, c_int8. repeat split; try reflexivity. discriminate.
Defined.

Lemma Int_results_in_order_witness :
  result (call_function {| _so := Some example_library |} example_f
            [PyInt 5]) =
  Return (PyTuple (map PyInt [7; -2])).
Proof.
  apply (Int_results_in_order {| _so := Some example_library |}
           example_library example_f [PyInt 5] example_so_f [Raw (PyInt 5)]
           [UInt32; SInt16] [c_uint32; c_int16] [7; -2]
           [CT_tuple [CT_type c_uint32]; CT_tuple [CT_type c_int16]]);
    try reflexivity.
  - repeat constructor.
  - cbn. lia.
Defined.

Lemma Int_codec_round_trip_witness :
  to_CType (Int_protocol SInt16) (PyInt (-2)) =
    Return (C_tuple [C_val (Raw (PyInt (-2)))]) /\
  exists n, py_int (PyInt (-2)) = Return n /\
            from_CType (Int_protocol SInt16)
              (C_tuple [C_val (Raw (PyInt (-2)))]) = Return (PyInt n).
Proof.
  split; [reflexivity |].
  exact (Int_codec_round_trip SInt16 (PyInt (-2))
           (C_tuple [C_val (Raw (PyInt (-2)))]) eq_refl).
Defined.

(** [UInt8(True)] is the constant 1 of type i8, and [UInt64(2**63)]
    raises a [TypeError]. *)
Lemma constructor_from_real_witness :
  is_Real (PyBool true) = true /\
  call UInt8 (PyBool true) =
    Return (PyObject UInt8 (ConstantOp (get_signless 8) 1)) /\
  in_range UInt64 (2 ^ 63) = true /\
  exists msg, call UInt64 (PyInt (2 ^ 63)) = Raise (TypeError msg).
Proof.
  split; [reflexivity |].
  destruct (constructor_from_real UInt8 (PyBool true) 1 true
              eq_refl eq_refl eq_refl eq_refl) as (_ & _ & Hsmall & _).
  destruct (constructor_from_real UInt64 (PyInt (2 ^ 63)) (2 ^ 63) true
              eq_refl eq_refl eq_refl eq_refl) as (_ & _ & _ & Hlarge & _).
  split; [| split; [reflexivity |]].
  - apply Hsmall; try reflexivity; [discriminate |].
    split; [intros Hc; discriminate Hc | reflexivity].
  - apply Hlarge; try reflexivity; [discriminate |].
    right. intros Hc. discriminate Hc.
Defined.

Lemma constructor_from_value_witness :
  0 < width SInt8 /\
  call SInt8 (PyValue (BlockArgument (get_signless 8) 0)) =
    Return (PyObject SInt8 (BlockArgument (get_signless 8) 0)) /\
  exists msg,
    call SInt8 (PyValue (BlockArgument (get_signless 16) 0)) =
    Raise (TypeError msg).
Proof.
  split; [reflexivity |]. split.
  - apply (proj1 (proj2 (constructor_from_value SInt8
                           (BlockArgument (get_signless 8) 0) eq_refl))).
    reflexivity.
  - apply (proj2 (proj2 (constructor_from_value SInt8
                           (BlockArgument (get_signless 16) 0) eq_refl))).
    discriminate.
Defined.

Lemma return_kind_by_ctypes_witness :
  get_return_type example_f =
    Return [Int_protocol UInt32; Int_protocol SInt16] /\
  has_void_return example_f = Return false /\
  has_composite_return example_f = Return true.
Proof.
  split; [reflexivity |].
  destruct (return_kind_by_ctypes example_f
              [Int_protocol UInt32; Int_protocol SInt16]
              [[CT_type c_uint32]; [CT_type c_int16]] eq_refl)
    as (Hvoid & Hcomp & _).
  - repeat constructor.
  - split; [exact Hvoid | exact Hcomp].
Defined.

End Further_examples.
